(** * git-ci: the pipeline execution engine

    A shallow embedding of the job runners (native process backend and
    container backend), the job scheduler and the job-graph validator of
    git-ci, with the properties of the engine stated and proved over it.

    Conventions of the embedding.
    - Go [int] is [Z]; a [time.Duration] and the wall clock are natural
      numbers of nanoseconds ([N]); a [float64] is a binary64 number of
      the IEEE 754 specification of the Standard Library ([spec_float]).
    - A Go [map[string]string] is a [gmap string string]; ranging over a map
      goes through [rangeMap] of the host, an arbitrary enumeration of the
      entries, as Go leaves the order of iteration unspecified.
    - A Go [error] is a message with an optional wrapped cause; [nil] is
      [None].
    - Everything outside the process (the file system, [PATH], the child
      processes, the container daemon, the clock) is a [Host]: a record of
      oracles.  The code threads a [World] (clock, number of calls to the
      host so far, log of effects) through a state monad.
    - Writes to the console by the output formatter are presentation only and
      are left out. *)

From Stdlib Require Import ZArith NArith String Ascii List DecimalString Lia SpecFloat.
From stdpp Require Import base gmap strings list.
Import ListNotations.

Local Open Scope string_scope.
Local Open Scope Z_scope.

(** ** Strings and errors *)

(** [%d] of [fmt]. *)
Definition itoa (z : Z) : string := NilZero.string_of_int (Z.to_int z).

(** [strings.Join(elems, sep)]. *)
Definition Join (elems : list string) (sep : string) : string :=
  String.concat sep elems.

(** The line feed. *)
Definition nl : string := String (ascii_of_nat 10) "".

(** [strings.Split(s, sep)] for a separator of one character. *)
Fixpoint Split (s : string) (sep : ascii) : list string :=
  match s with
  | EmptyString => [""]
  | String c s' =>
      if Ascii.eqb c sep then "" :: Split s' sep
      else match Split s' sep with
           | [] => [String c ""]
           | p :: ps => String c p :: ps
           end
  end.

(** [strings.TrimPrefix(s, prefix)]. *)
Definition TrimPrefix (s pre : string) : string :=
  if String.prefix pre s
  then String.substring (String.length pre) (String.length s - String.length pre) s
  else s.

(** White space in the ASCII range, as [unicode.IsSpace] has it there. *)
Definition isSpace (c : ascii) : bool :=
  let n := nat_of_ascii c in
  (Nat.eqb n 32 || (Nat.leb 9 n && Nat.leb n 13))%bool.

Fixpoint trimLeft (s : string) : string :=
  match s with
  | EmptyString => ""
  | String c s' => if isSpace c then trimLeft s' else s
  end.

Fixpoint trimRight (s : string) : string :=
  match s with
  | EmptyString => ""
  | String c s' =>
      match trimRight s' with
      | EmptyString => if isSpace c then "" else String c ""
      | t => String c t
      end
  end.

(** [strings.TrimSpace(s)], on ASCII text. *)
Definition TrimSpace (s : string) : string := trimRight (trimLeft s).

(** [strings.Contains(s, substr)]. *)
Fixpoint Contains (s substr : string) : bool :=
  (String.prefix substr s
   || match s with
      | EmptyString => false
      | String _ s' => Contains s' substr
      end)%bool.

(** [strings.ToLower(s)], on ASCII text. *)
Definition lowerAscii (c : ascii) : ascii :=
  let n := nat_of_ascii c in
  if (Nat.leb 65 n && Nat.leb n 90)%bool then ascii_of_nat (n + 32) else c.

Definition ToLower (s : string) : string :=
  string_of_list_ascii (map lowerAscii (list_ascii_of_string s)).

(** [strings.ReplaceAll(s, old, new)] for [old] of one character. *)
Fixpoint ReplaceAll (s : string) (old : ascii) (new : string) : string :=
  match s with
  | EmptyString => ""
  | String c s' =>
      if Ascii.eqb c old then new +:+ ReplaceAll s' old new
      else String c (ReplaceAll s' old new)
  end.

(** [strings.Repeat(s, n)]. *)
Fixpoint Repeat (s : string) (n : nat) : string :=
  match n with
  | O => ""
  | S n' => s +:+ Repeat s n'
  end.

(** A Go error value: [errorsNew msg] is [errors.New(msg)] (and a
    [fmt.Errorf] without [%w]); [Wrapped msg cause] is what [fmt.Errorf]
    builds for a format with [%w]. *)
Inductive error : Type :=
| errorsNew (msg : string)
| Wrapped (msg : string) (cause : error).

(** [err.Error()]. *)
Definition Error (e : error) : string :=
  match e with
  | errorsNew msg => msg
  | Wrapped msg _ => msg
  end.

(** [errors.Unwrap(err)]. *)
Definition Unwrap (e : error) : option error :=
  match e with
  | errorsNew _ => None
  | Wrapped _ c => Some c
  end.

(** [fmt.Errorf(prefix + "%w", e)]: the message ends with the message of
    the wrapped error. *)
Definition Errorf_w (prefix : string) (e : error) : error :=
  Wrapped (prefix +:+ Error e) e.

(** ** pkg/types *)

Module RetryPolicy.
Record t : Type := mk {
  MaxAttempts : Z;
  Delay : string;
  Backoff : string
}.
End RetryPolicy.

Module Step.
Record t : Type := mk {
  Name : string;
  Run : string;
  Uses : string;
  With : gmap string string;
  Env : gmap string string;
  If : string;
  ContinueOnErr : bool;
  Shell : string;
  WorkingDir : string;
  TimeoutMin : Z;
  RetryPolicy : option RetryPolicy.t
}.

End Step.

Module Container.
Record t : Type := mk {
  Image : string;
  Env : gmap string string;
  Volumes : list string
}.
End Container.

Module Job.
Record t : Type := mk {
  Name : string;
  Steps : list Step.t;
  Environment : gmap string string;
  RunsOn : string;
  Image : string;
  Container : option Container.t;
  Tags : list string;
  Needs : list string;
  Stage : string;
  AllowFailure : bool;
  (** [Trigger != nil] *)
  HasTrigger : bool;
  (** [Artifacts.Paths] and [Cache.Paths], when the block is there *)
  Artifacts : option (list string);
  Cache : option (list string)
}.

Definition withName (j : t) (name : string) : t :=
  mk name (Steps j) (Environment j) (RunsOn j) (Image j) (Container j) (Tags j)
     (Needs j) (Stage j) (AllowFailure j) (HasTrigger j) (Artifacts j) (Cache j).
End Job.

Module Pipeline.
Record t : Type := mk {
  Name : string;
  Jobs : gmap string Job.t;
  Environment : gmap string string;
  Stages : list string
}.
End Pipeline.

(** ** internal/config *)

Module RunnerConfig.
Record t : Type := mk {
  DryRun : bool;
  Verbose : bool;
  PullImages : bool;
  Environment : gmap string string;
  Timeout : Z
}.
End RunnerConfig.

(** [JobSummary] of internal/runners/common.go. *)
Module JobSummary.
Record t : Type := mk {
  JobName : string;
  TotalSteps : Z;
  CompletedSteps : Z;
  FailedSteps : Z;
  SkippedSteps : Z;
  Duration : N;
  Success : bool;
  Errors : list string
}.
End JobSummary.

Module JobSummaryOps.
Import JobSummary.

Definition skipStep (s : t) : t :=
  mk (JobName s) (TotalSteps s) (CompletedSteps s) (FailedSteps s)
     (SkippedSteps s + 1) (Duration s) (Success s) (Errors s).

Definition failStep (s : t) : t :=
  mk (JobName s) (TotalSteps s) (CompletedSteps s) (FailedSteps s + 1)
     (SkippedSteps s) (Duration s) (Success s) (Errors s).

Definition completeStep (s : t) : t :=
  mk (JobName s) (TotalSteps s) (CompletedSteps s + 1) (FailedSteps s)
     (SkippedSteps s) (Duration s) (Success s) (Errors s).

(** [summary.Success = false] and [summary.Errors = append(summary.Errors, msg)]. *)
Definition failJob (s : t) (msg : string) : t :=
  mk (JobName s) (TotalSteps s) (CompletedSteps s) (FailedSteps s)
     (SkippedSteps s) (Duration s) false (Errors s ++ [msg])%list.

Definition withDuration (s : t) (d : N) : t :=
  mk (JobName s) (TotalSteps s) (CompletedSteps s) (FailedSteps s)
     (SkippedSteps s) d (Success s) (Errors s).
End JobSummaryOps.

(** ** The host: os, os/exec, path/filepath, time *)

(** [exec.Cmd]: the fields the runners set, and the time limit of the
    context the command was created with, if any. *)
Module Cmd.
Record t : Type := mk {
  Path : string;
  Args : list string;
  Dir : string;
  Env : list string;
  CtxTimeout : option Z
}.

Definition withDir (c : t) (dir : string) : t :=
  mk (Path c) (Args c) dir (Env c) (CtxTimeout c).

Definition withEnv (c : t) (env : list string) : t :=
  mk (Path c) (Args c) (Dir c) env (CtxTimeout c).
End Cmd.

(** What becomes of a child process, as [BashRunner.executeCommand] tells
    the cases apart. *)
Inductive ExecOutcome : Type :=
| StdoutPipeFailed (e : error)
| StderrPipeFailed (e : error)
| StartFailed (e : error)
| WaitFailed (e : error) (stderr : string)
| Exited (stdout : string).

Record Host : Type := mkHost {
  (** [os.Environ()] *)
  Environ : list string;
  (** [exec.LookPath(file)]: the path found (empty if none) and the error *)
  LookPath : string -> string * option error;
  (** [filepath.Abs(path)] *)
  Abs : string -> error + string;
  (** [filepath.Join(a, b)] *)
  filepathJoin : string -> string -> string;
  (** [os.IsNotExist(err)] for the error of [os.Stat(path)] *)
  statIsNotExist : string -> bool;
  (** the fate and the running time of the [n]-th child process *)
  runProcess : nat -> Cmd.t -> ExecOutcome * N;
  (** [time.ParseDuration(s)], in nanoseconds *)
  ParseDuration : string -> option Z;
  (** the order in which [range] visits the entries of a map *)
  rangeMap : forall V : Type, gmap string V -> list (string * V);
  rangeMap_perm : forall (V : Type) (m : gmap string V),
      rangeMap V m ≡ₚ map_to_list m
}.

Arguments rangeMap _ {V} _.

(** The container daemon, through the methods of the client that the
    container backend calls. *)
Module Docker.
Record Mount : Type := mkMount {
  Source : string;
  Target : string;
  ReadOnly : bool
}.

(** [container.Config] and [container.HostConfig], the fields that are
    set; the resource limits are constants. *)
Record ContainerConfig : Type := mkConfig {
  Image : string;
  Cmd : list string;
  WorkingDir : string;
  Env : list string;
  Mounts : list Mount;
  ContainerName : string
}.

Inductive Call : Type :=
| Ping
| ImageList
| ImagePull (image : string)
| ContainerCreate (cfg : ContainerConfig)
| ContainerStart (id : string)
| ContainerLogs (id : string)
| ContainerLogsTail (id : string) (tail : Z)
| ContainerWait (id : string)
| ContainerStop (id : string)
| ContainerRemove (id : string).

(** What [streamLogs] meets: [ContainerLogs] fails, or [stdcopy.StdCopy]
    fails with an error other than [io.EOF], or the stream ends. *)
Inductive LogsResult : Type :=
| LogsFailed (e : error)
| CopyFailed (e : error)
| LogsDone.

(** What [ContainerWait] delivers first: a value on the error channel
    (possibly nil) or a status. *)
Inductive WaitResult : Type :=
| WaitError (e : option error)
| WaitStatus (code : Z).

(** Every oracle takes the number of calls made to the host so far. *)
Record Daemon : Type := mkDaemon {
  newClient : option error;
  ping : nat -> option error;
  imageList : nat -> error + list (list string);
  imagePull : nat -> string -> option error;
  containerCreate : nat -> ContainerConfig -> error + string;
  containerStart : nat -> string -> option error;
  containerLogs : nat -> string -> LogsResult;
  containerWait : nat -> string -> WaitResult;
  containerStop : nat -> string -> option error;
  containerRemove : nat -> string -> option error
}.
End Docker.

Inductive Event : Type :=
| EvSpawn (cmd : Cmd.t)
| EvSleep (d : Z)
| EvDocker (call : Docker.Call).

Record World : Type := mkWorld {
  clock : N;
  calls : nat;
  events : list Event
}.

(** The state monad over the world. *)
Definition M (A : Type) : Type := World -> A * World.

Definition ret {A : Type} (a : A) : M A := fun w => (a, w).

Definition bind {A B : Type} (m : M A) (k : A -> M B) : M B :=
  fun w => let r := m w in k (fst r) (snd r).

(** A computation that only adds to the log. *)
Definition logs {A : Type} (m : M A) : Prop :=
  forall w, exists new, events (snd (m w)) = (events w ++ new)%list.

Declare Scope world_scope.
Delimit Scope world_scope with world.
Notation "'do' x <- c ; k" := (bind c (fun x => k))
  (at level 10, x name, c at level 100, k at level 200) : world_scope.
Local Open Scope world_scope.

(** [time.Now()]. *)
Definition timeNow : M N := fun w => (clock w, w).

(** [time.Sleep(d)]: returns at once for [d <= 0]. *)
Definition timeSleep (d : Z) : M unit :=
  fun w => (tt, mkWorld (clock w + Z.to_N d)%N (calls w) (events w ++ [EvSleep d])%list).

(** Handing a command to the operating system: [cmd.Start] and [cmd.Wait],
    [cmd.Run] or [cmd.Output]. *)
Definition spawn (host : Host) (cmd : Cmd.t) : M ExecOutcome :=
  fun w =>
    let r := runProcess host (calls w) cmd in
    (fst r, mkWorld (clock w + snd r)%N (S (calls w)) (events w ++ [EvSpawn cmd])%list).

(** A call to the container daemon: it is logged and counted. *)
Definition dockerCall {A : Type} (call : Docker.Call) (reply : nat -> A) : M A :=
  fun w => (reply (calls w),
            mkWorld (clock w) (S (calls w)) (events w ++ [EvDocker call])%list).

(** A Go computation that may panic. *)
Inductive Result (A : Type) : Type :=
| Returned (a : A)
| Panicked.
Arguments Returned {A} a.
Arguments Panicked {A}.

(** [s[:n]]: a slice bound out of range panics. *)
Definition sliceTo (s : string) (n : nat) : Result string :=
  if Nat.leb n (String.length s) then Returned (String.substring 0 n s) else Panicked.

(** The error of [cmd.Run()]. *)
Definition outcomeError (o : ExecOutcome) : option error :=
  match o with
  | StdoutPipeFailed e | StderrPipeFailed e | StartFailed e | WaitFailed e _ => Some e
  | Exited _ => None
  end.

(** [filepath.Base(name) == name], on Unix. *)
Definition baseIsName (name : string) : bool :=
  (String.eqb name "/"
   || (negb (String.eqb name "")
       && negb (existsb (Ascii.eqb "/"%char) (list_ascii_of_string name))))%bool.

(** [exec.Command(name, arg...)]. *)
Definition Command (host : Host) (name : string) (arg : list string) : Cmd.t :=
  let lp := fst (LookPath host name) in
  Cmd.mk (if (baseIsName name && negb (String.eqb lp ""))%bool then lp else name)
         (name :: arg) "" [] None.

(** [exec.CommandContext(ctx, name, arg...)] for a context that expires
    after [limit] nanoseconds. *)
Definition CommandContext (host : Host) (limit : Z) (name : string)
    (arg : list string) : Cmd.t :=
  let c := Command host name arg in
  Cmd.mk (Cmd.Path c) (Cmd.Args c) (Cmd.Dir c) (Cmd.Env c) (Some limit).

(** [time.Minute] in nanoseconds. *)
Definition Minute : Z := 60000000000.

(** [float64(n)] for an integer [n]: the nearest binary64 number, ties to
    even. *)
Definition float64 (n : Z) : spec_float := binary_normalize 53 1024 n 0 false.

(** [time.Since(t)] at the time [now], for a time [t] read from the same
    clock: a [Duration] is an [int64] and the difference saturates. *)
Definition Since (t now : N) : Z :=
  Z.min (Z.of_N (now - t)) 9223372036854775807.

(** [d.Minutes()]: the whole minutes and the rest are converted apart, and
    the division and the sum are those of binary64. *)
Definition Minutes (d : Z) : spec_float :=
  let min := Z.quot d Minute in
  let nsec := Z.rem d Minute in
  SFadd 53 1024 (float64 min) (SFdiv 53 1024 (float64 nsec) (float64 (60 * 1000000000))).

(** [fmt.Sprintf("%s=%s", k, v)]. *)
Definition fmtKV (kv : string * string) : string :=
  fst kv +:+ "=" +:+ snd kv.

(** ** The native process backend (BashRunner) *)

Module BashRunner.

(** The runner: its configuration and the environment it injects. *)
Record t : Type := mk {
  config : RunnerConfig.t;
  environment : gmap string string
}.

(** [NewBashRunner(cfg)]. *)
Definition NewBashRunner (cfg : RunnerConfig.t) : t := mk cfg ∅.

Section WithHost.
Variable host : Host.

(** [r.shouldRunStep(step, env)]; the environment is not read. *)
Definition shouldRunStep (step : Step.t) (env : gmap string string) : bool :=
  if String.eqb (Step.If step) "" then true
  else
    let condition := Step.If step in
    if String.eqb condition "always()" then true
    else if String.eqb condition "success()" then true
    else if String.eqb condition "failure()" then false
    else if String.eqb condition "cancelled()" then false
    else true.

(** [r.mergeEnvironments(envs...)]. *)
Definition mergeEnvironments (envs : list (gmap string string)) : gmap string string :=
  foldl (fun result env =>
           foldl (fun result kv => <[fst kv := snd kv]> result) result (rangeMap host env))
        ∅ envs.

(** [r.getGitBranch(workdir)]. *)
Definition getGitBranch (workdir : string) : M string :=
  let cmd := Cmd.withDir (Command host "git" ["rev-parse"; "--abbrev-ref"; "HEAD"]) workdir in
  do o <- spawn host cmd;
  match o with
  | Exited output => ret (TrimSpace output)
  | _ => ret ""
  end.

(** [r.getGitCommit(workdir)]. *)
Definition getGitCommit (workdir : string) : M string :=
  let cmd := Cmd.withDir (Command host "git" ["rev-parse"; "HEAD"]) workdir in
  do o <- spawn host cmd;
  match o with
  | Exited output => ret (TrimSpace output)
  | _ => ret ""
  end.

(** [r.setupJobEnvironment(job, workdir)]: the markers of the backend. *)
Definition setupJobEnvironment (r : t) (job : Job.t) (workdir : string) : M t :=
  let env := <["CI" := "true"]> (environment r) in
  let env := <["GIT_CI" := "true"]> env in
  let env := <["BASH_RUNNER" := "true"]> env in
  let env := <["JOB_NAME" := Job.Name job]> env in
  let env := <["WORKSPACE" := workdir]> env in
  do gitBranch <- getGitBranch workdir;
  let env := if String.eqb gitBranch "" then env else <["GIT_BRANCH" := gitBranch]> env in
  do gitCommit <- getGitCommit workdir;
  let env := if String.eqb gitCommit "" then env else <["GIT_COMMIT" := gitCommit]> env in
  ret (mk (config r) env).

(** [r.buildStepEnvironment(jobEnv, stepEnv)]. *)
Definition buildStepEnvironment (r : t) (jobEnv stepEnv : gmap string string) : list string :=
  let env := Environ host in
  let env := (env ++ map fmtKV (rangeMap host (environment r)))%list in
  let env := (env ++ map fmtKV (rangeMap host jobEnv))%list in
  let env := (env ++ map fmtKV (rangeMap host stepEnv))%list in
  env.

(** [r.getDefaultShell()]. *)
Definition getDefaultShell : string :=
  match find (fun shell => match snd (LookPath host shell) with
                           | None => true
                           | Some _ => false
                           end) ["bash"; "sh"] with
  | Some shell => shell
  | None => "sh"
  end.

(** [r.getShell(specified)]. *)
Definition getShell (specified : string) : string :=
  if String.eqb specified "" then getDefaultShell else specified.

(** [r.prepareCommand(shell, script)]. *)
Definition prepareCommand (shell script : string) : Cmd.t :=
  if String.eqb shell "bash" then Command host "bash" ["-eo"; "pipefail"; "-c"; script]
  else if String.eqb shell "sh" then Command host "sh" ["-e"; "-c"; script]
  else if (String.eqb shell "pwsh" || String.eqb shell "powershell")%bool
       then Command host "pwsh" ["-Command"; script]
  else if (String.eqb shell "python" || String.eqb shell "python3")%bool
       then Command host "python3" ["-c"; script]
  else if String.eqb shell "node" then Command host "node" ["-e"; script]
  else Command host shell ["-c"; script].

(** The error that [r.executeCommand] returns for what became of the
    process. *)
Definition executeResult (r : t) (o : ExecOutcome) : option error :=
  match o with
  | StdoutPipeFailed err => Some (Errorf_w "failed to create stdout pipe: " err)
  | StderrPipeFailed err => Some (Errorf_w "failed to create stderr pipe: " err)
  | StartFailed err => Some (Errorf_w "failed to start command: " err)
  | WaitFailed err stderr =>
      let errMsg := "command failed: " +:+ Error err in
      let errMsg :=
        if (negb (String.eqb stderr "") && RunnerConfig.Verbose (config r))%bool
        then errMsg +:+ nl +:+ "Stderr output:" +:+ nl +:+ stderr
        else errMsg in
      Some (errorsNew errMsg)
  | Exited _ => None
  end.

(** [r.executeCommand(cmd, stepName)]. *)
Definition executeCommand (r : t) (cmd : Cmd.t) (stepName : string) : M (option error) :=
  do o <- spawn host cmd;
  ret (executeResult r o).

(** The command that [r.executeWithRetry] makes from [cmd] for a try. *)
Definition cloneCommand (cmd : Cmd.t) : Cmd.t :=
  let retryCmd := Command host (Cmd.Path cmd) (tl (Cmd.Args cmd)) in
  let retryCmd := Cmd.withDir retryCmd (Cmd.Dir cmd) in
  let retryCmd := Cmd.withEnv retryCmd (Cmd.Env cmd) in
  retryCmd.

(** The error that [r.executeWithRetry] returns after the last try. *)
Definition retryError (maxAttempts : Z) (lastErr : option error) : error :=
  match lastErr with
  | Some e => Errorf_w ("all " +:+ itoa maxAttempts
                        +:+ " attempts failed, last error: ") e
  | None => errorsNew ("all " +:+ itoa maxAttempts
                       +:+ " attempts failed, last error: %!w(<nil>)")
  end.

(** The loop of [r.executeWithRetry]: [n] iterations are left, the next
    one is number [attempt]. *)
Fixpoint retryLoop (r : t) (cmd : Cmd.t) (step : Step.t) (policy : RetryPolicy.t)
    (maxAttempts : Z) (n : nat) (attempt : Z) (lastErr : option error)
    : M (option error) :=
  match n with
  | O => ret (Some (retryError maxAttempts lastErr))
  | S n' =>
      do _ <- (if 1 <? attempt
               then if String.eqb (RetryPolicy.Delay policy) "" then ret tt
                    else match ParseDuration host (RetryPolicy.Delay policy) with
                         | Some duration => timeSleep duration
                         | None => ret tt
                         end
               else ret tt);
      let retryCmd := cloneCommand cmd in
      do err <- executeCommand r retryCmd (Step.Name step);
      match err with
      | Some e => retryLoop r cmd step policy maxAttempts n' (attempt + 1) (Some e)
      | None => ret None
      end
  end.

(** [r.executeWithRetry(cmd, step)], for a step that has a retry policy. *)
Definition executeWithRetry (r : t) (cmd : Cmd.t) (step : Step.t)
    (policy : RetryPolicy.t) : M (option error) :=
  let maxAttempts := RetryPolicy.MaxAttempts policy in
  let maxAttempts := if maxAttempts <=? 0 then 1 else maxAttempts in
  retryLoop r cmd step policy maxAttempts (Z.to_nat maxAttempts) 1 None.

(** [r.runCheckoutAction(step, workdir)]. *)
Definition runCheckoutAction (r : t) (step : Step.t) (workdir : string) : M (option error) :=
  if RunnerConfig.DryRun (config r) then ret None
  else
    let cmd := Cmd.withDir (Command host "git" ["rev-parse"; "--git-dir"]) workdir in
    do o <- spawn host cmd;
    match outcomeError o with
    | None =>
        let fetchCmd := Cmd.withDir (Command host "git" ["fetch"; "--all"; "--tags"]) workdir in
        do o <- spawn host fetchCmd;
        match outcomeError o with
        | Some err => ret (Some (Errorf_w "git fetch failed: " err))
        | None => ret None
        end
    | Some _ => ret None
    end.

(** [r.runSetupAction(action, step, version)]. *)
Definition runSetupAction (r : t) (action : string) (step : Step.t) (version : string)
    : M (option error) :=
  let toolName := TrimPrefix action "actions/setup-" in
  if RunnerConfig.DryRun (config r) then ret None
  else
    let checkCmd :=
      if String.eqb toolName "go" then Command host "go" ["version"]
      else if String.eqb toolName "node" then Command host "node" ["--version"]
      else if String.eqb toolName "python" then Command host "python3" ["--version"]
      else Command host toolName ["--version"] in
    do _ <- spawn host checkCmd;
    ret None.

(** [r.runActionStep(step, env, workdir)]. *)
Definition runActionStep (r : t) (step : Step.t) (env : gmap string string)
    (workdir : string) : M (option error) :=
  let parts := Split (Step.Uses step) "@"%char in
  let action := hd "" parts in
  let version := match parts with
                 | _ :: v :: _ => v
                 | _ => "latest"
                 end in
  if String.eqb action "actions/checkout" then runCheckoutAction r step workdir
  else if (String.eqb action "actions/setup-go"
           || String.eqb action "actions/setup-node"
           || String.eqb action "actions/setup-python")%bool
       then runSetupAction r action step version
  else ret None.

(** The command that [r.RunStep] prepares for a shell-command step: the
    shell and its arguments, the working directory, the environment and, for
    a step with a time limit, the context. *)
Definition stepCommand (r : t) (step : Step.t) (env : gmap string string)
    (workdir : string) : Cmd.t :=
  let shell := getShell (Step.Shell step) in
  let cmd := prepareCommand shell (Step.Run step) in
  let cmd := if negb (String.eqb (Step.WorkingDir step) "")
             then Cmd.withDir cmd (filepathJoin host workdir (Step.WorkingDir step))
             else Cmd.withDir cmd workdir in
  let cmd := Cmd.withEnv cmd (buildStepEnvironment r env (Step.Env step)) in
  if 0 <? Step.TimeoutMin step
  then
    let cmd' := CommandContext host (Step.TimeoutMin step * Minute)
                  (Cmd.Path cmd) (tl (Cmd.Args cmd)) in
    let cmd' := Cmd.withDir cmd' workdir in
    Cmd.withEnv cmd' (buildStepEnvironment r env (Step.Env step))
  else cmd.

(** [r.RunStep(step, env, workdir)]. *)
Definition RunStep (r : t) (step : Step.t) (env : gmap string string)
    (workdir : string) : M (option error) :=
  if negb (String.eqb (Step.Uses step) "") then runActionStep r step env workdir
  else if String.eqb (Step.Run step) "" then ret None
  else if RunnerConfig.DryRun (config r) then ret None
  else
    let cmd := stepCommand r step env workdir in
    match Step.RetryPolicy step with
    | Some policy =>
        if 1 <? RetryPolicy.MaxAttempts policy
        then executeWithRetry r cmd step policy
        else executeCommand r cmd (Step.Name step)
    | None => executeCommand r cmd (Step.Name step)
    end.

(** The check at the head of the loop of [RunJob]:
    [r.config.Timeout > 0 &&
     time.Since(startTime).Minutes() > float64(r.config.Timeout)]. *)
Definition jobTimedOut (r : t) (startTime now : N) : bool :=
  let timeout := RunnerConfig.Timeout (config r) in
  ((0 <? timeout) && SFltb (float64 timeout) (Minutes (Since startTime now)))%bool.

(** The loop of [r.RunJob] over [job.Steps]. *)
Fixpoint runSteps (r : t) (jobEnv : gmap string string) (absWorkdir : string)
    (startTime : N) (steps : list Step.t) (summary : JobSummary.t)
    : M JobSummary.t :=
  match steps with
  | [] => ret summary
  | step :: rest =>
      do now <- timeNow;
      if jobTimedOut r startTime now
      then ret (JobSummaryOps.failJob summary
                  ("Job timeout exceeded ("
                   +:+ itoa (RunnerConfig.Timeout (config r)) +:+ " minutes)"))
      else if negb (shouldRunStep step jobEnv)
      then runSteps r jobEnv absWorkdir startTime rest (JobSummaryOps.skipStep summary)
      else
        do err <- RunStep r step jobEnv absWorkdir;
        match err with
        | Some err =>
            let summary := JobSummaryOps.failStep summary in
            if Step.ContinueOnErr step
            then runSteps r jobEnv absWorkdir startTime rest summary
            else ret (JobSummaryOps.failJob summary
                        ("Step '" +:+ Step.Name step +:+ "' failed: " +:+ Error err))
        | None =>
            runSteps r jobEnv absWorkdir startTime rest
                     (JobSummaryOps.completeStep summary)
        end
  end.

(** The summary that [r.RunJob] starts from. *)
Definition initialSummary (job : Job.t) : JobSummary.t :=
  JobSummary.mk (Job.Name job) (Z.of_nat (length (Job.Steps job))) 0 0 0 0%N true [].

(** The body of [r.RunJob(job, workdir)] up to its last statement: the
    error of an early return, or else the job summary that the method
    prints before it returns. *)
Definition runJobSummary (r : t) (job : Job.t) (workdir : string)
    : M ((error + JobSummary.t) * t) :=
  do startTime <- timeNow;
  match Abs host workdir with
  | inl err => ret (inl (Errorf_w "invalid workdir: " err), r)
  | inr absWorkdir =>
      if statIsNotExist host absWorkdir
      then ret (inl (errorsNew ("workdir does not exist: " +:+ absWorkdir)), r)
      else
        let jobEnv := mergeEnvironments
                        [Job.Environment job; RunnerConfig.Environment (config r)] in
        do r <- setupJobEnvironment r job absWorkdir;
        let summary := initialSummary job in
        do summary <- runSteps r jobEnv absWorkdir startTime (Job.Steps job) summary;
        do now <- timeNow;
        ret (inr (JobSummaryOps.withDuration summary (now - startTime)%N), r)
  end.

(** [r.RunJob(job, workdir)]: after the loop the method prints the summary
    and ends with [return nil]. *)
Definition RunJob (r : t) (job : Job.t) (workdir : string) : M (option error * t) :=
  do res <- runJobSummary r job workdir;
  match fst res with
  | inl err => ret (Some err, snd res)
  | inr _ => ret (None, snd res)
  end.

(** [r.Cleanup()]. *)
Definition Cleanup (r : t) : M (option error * t) := ret (None, r).

(** What [r.RunJob(job, workdir)] runs its loop with, for a working
    directory that resolves to [absWorkdir]: the runner that
    [setupJobEnvironment] leaves, and the environment of the job merged with
    the one of the runner configuration. *)
Definition loopRunner (r : t) (job : Job.t) (absWorkdir : string) (w : World) : t :=
  fst (setupJobEnvironment r job absWorkdir w).

Definition jobEnvironment (r : t) (job : Job.t) : gmap string string :=
  mergeEnvironments [Job.Environment job; RunnerConfig.Environment (config r)].

(** The loop of [r.RunJob(job, workdir)], started in the world [w], over
    the first steps [before] of the job: the summary and the world with
    which it comes to the step after them, if it has not ended before. *)
Definition atStep (r : t) (job : Job.t) (absWorkdir : string) (w : World)
    (before : list Step.t) : JobSummary.t * World :=
  runSteps (loopRunner r job absWorkdir w) (jobEnvironment r job) absWorkdir (clock w)
           before (initialSummary job) (snd (setupJobEnvironment r job absWorkdir w)).

(** What [r.RunJob] returns and leaves when its loop ends with the summary
    and the world [res]. *)
Definition jobOutcome (r : t) (job : Job.t) (absWorkdir : string) (w : World)
    (res : JobSummary.t * World) : (error + JobSummary.t) * t * World :=
  (inr (JobSummaryOps.withDuration (fst res) (clock (snd res) - clock w)%N),
   loopRunner r job absWorkdir w, snd res).

(** The loop goes through [steps] from the summary [summary] and the world
    [w] without a step that fails and without the job timeout: whenever it
    comes to one of them the job has not timed out, and the step is
    skipped by its guard or [RunStep] returns nil. *)
Definition quiet (r : t) (jobEnv : gmap string string) (absWorkdir : string)
    (startTime : N) (steps : list Step.t) (summary : JobSummary.t) (w : World) : Prop :=
  forall (before : list Step.t) (step : Step.t) (after : list Step.t),
    steps = (before ++ step :: after)%list ->
    let w' := snd (runSteps r jobEnv absWorkdir startTime before summary w) in
    jobTimedOut r startTime (clock w') = false
    /\ (shouldRunStep step jobEnv = true ->
        fst (RunStep r step jobEnv absWorkdir w') = None).

End WithHost.
End BashRunner.

(** ** The container backend (DockerRunner) *)

Module DockerRunner.

(** The runner: its configuration and the containers it has created. *)
Record t : Type := mk {
  config : RunnerConfig.t;
  containers : list string
}.

Section WithHost.
Variable host : Host.
Variable daemon : Docker.Daemon.

(** [NewDockerRunner(cfg)]. *)
Definition NewDockerRunner (cfg : RunnerConfig.t) : M (error + t) :=
  match Docker.newClient daemon with
  | Some err => ret (inl (Errorf_w "failed to create Docker client: " err))
  | None =>
      do err <- dockerCall Docker.Ping (Docker.ping daemon);
      match err with
      | Some err =>
          if Contains (Error err) "permission denied"
          then ret (inl (errorsNew
                 "Docker daemon permission denied. Try: sudo usermod -aG docker $USER"))
          else if Contains (Error err) "cannot connect"
          then ret (inl (errorsNew
                 "Docker daemon is not running. Start Docker and try again"))
          else ret (inl (Errorf_w "Docker daemon is not accessible: " err))
      | None => ret (inr (mk cfg []))
      end
  end.

(** The table of [r.getImageName]. *)
Definition imageMap : list (string * string) :=
  [ ("ubuntu-24.04", "ubuntu:24.04"); ("ubuntu-22.04", "ubuntu:22.04");
    ("ubuntu-20.04", "ubuntu:20.04"); ("ubuntu-latest", "ubuntu:latest");
    ("debian-12", "debian:12"); ("debian-11", "debian:11");
    ("alpine-3.19", "alpine:3.19"); ("alpine-3.18", "alpine:3.18");
    ("node-23", "node:23"); ("node-22", "node:22"); ("node-20", "node:20");
    ("node-18", "node:18-slim");
    ("python-3.14", "python:3.14-slim"); ("python-3.13", "python:3.13-slim");
    ("python-3.12", "python:3.12-slim"); ("python-3.11", "python:3.11-slim");
    ("golang-1.23", "golang:1.23-alpine"); ("golang-1.22", "golang:1.22-alpine");
    ("golang-1.20", "golang:1.20-alpine") ].

(** [r.getImageName(job)]. *)
Definition getImageName (job : Job.t) : string :=
  if match Job.Container job with
     | Some c => negb (String.eqb (Container.Image c) "")
     | None => false
     end
  then match Job.Container job with
       | Some c => Container.Image c
       | None => ""
       end
  else if negb (String.eqb (Job.Image job) "") then Job.Image job
  else
    let runsOn := ToLower (Job.RunsOn job) in
    match find (fun kv => String.eqb (fst kv) runsOn) imageMap with
    | Some kv => snd kv
    | None =>
        if Contains runsOn "ubuntu" then "ubuntu:22.04"
        else if Contains runsOn "debian" then "debian:latest"
        else if Contains runsOn "alpine" then "alpine:latest"
        else if Contains runsOn "node" then "node:lts-slim"
        else if Contains runsOn "python" then "python:3-slim"
        else if (Contains runsOn "golang" || Contains runsOn "go")%bool then "golang:alpine"
        else "ubuntu:22.04"
    end.

(** [r.imageExists(ctx, imageName)]. *)
Definition imageExists (imageName : string) : M bool :=
  do images <- dockerCall Docker.ImageList (Docker.imageList daemon);
  match images with
  | inl _ => ret false
  | inr images => ret (existsb (fun tags => existsb (String.eqb imageName) tags) images)
  end.

(** [r.pullImage(ctx, imageName)]. *)
Definition pullImage (imageName : string) : M (option error) :=
  do err <- dockerCall (Docker.ImagePull imageName)
                       (fun n => Docker.imagePull daemon n imageName);
  match err with
  | Some err => ret (Some (Errorf_w ("failed to pull image " +:+ imageName +:+ ": ") err))
  | None => ret None
  end.

(** The header of a step in the generated script. *)
Definition stepBanner (stepNum totalSteps : Z) (name : string) : list string :=
  [ "echo ''";
    "echo '[" +:+ itoa stepNum +:+ "/" +:+ itoa totalSteps +:+ "] " +:+ name +:+ "'";
    "echo '" +:+ Repeat "-" 60 +:+ "'" ].

(** The loop of [r.buildJobScript] over [job.Steps]. *)
Fixpoint scriptSteps (totalSteps : Z) (steps : list Step.t) (stepNum : Z)
    (commands : list string) : list string :=
  match steps with
  | [] => commands
  | step :: rest =>
      if negb (String.eqb (Step.Uses step) "")
      then
        let stepNum := stepNum + 1 in
        let commands := (commands ++ stepBanner stepNum totalSteps (Step.Name step))%list in
        let commands := (commands ++ ["echo 'Skipping action: " +:+ Step.Name step
                                       +:+ " (not supported in Docker runner)'"])%list in
        scriptSteps totalSteps rest stepNum commands
      else if String.eqb (Step.Run step) ""
      then scriptSteps totalSteps rest stepNum commands
      else
        let stepNum := stepNum + 1 in
        let commands := (commands ++ stepBanner stepNum totalSteps (Step.Name step))%list in
        let commands := if negb (String.eqb (Step.WorkingDir step) "")
                        then (commands ++ ["cd " +:+ Step.WorkingDir step])%list
                        else commands in
        let commands := (commands
                         ++ map (fun kv => "export " +:+ fst kv +:+ "='" +:+ snd kv +:+ "'")
                                (rangeMap host (Step.Env step)))%list in
        let commands := (commands ++ [Step.Run step])%list in
        let commands := if Step.ContinueOnErr step
                        then (commands ++ ["|| true"])%list
                        else commands in
        let commands := (commands ++ ["echo 'Step completed'"])%list in
        let commands := if negb (String.eqb (Step.WorkingDir step) "")
                        then (commands ++ ["cd /workspace"])%list
                        else commands in
        scriptSteps totalSteps rest stepNum commands
  end.

(** The lines that one iteration of the loop appends, and the number of the
    last step that has a header after it. *)
Definition stepLines (totalSteps : Z) (stepNum : Z) (step : Step.t) : list string :=
  if negb (String.eqb (Step.Uses step) "")
  then (stepBanner (stepNum + 1) totalSteps (Step.Name step)
        ++ ["echo 'Skipping action: " +:+ Step.Name step
            +:+ " (not supported in Docker runner)'"])%list
  else if String.eqb (Step.Run step) "" then []
  else (stepBanner (stepNum + 1) totalSteps (Step.Name step)
        ++ (if negb (String.eqb (Step.WorkingDir step) "")
            then ["cd " +:+ Step.WorkingDir step] else [])
        ++ map (fun kv => "export " +:+ fst kv +:+ "='" +:+ snd kv +:+ "'")
               (rangeMap host (Step.Env step))
        ++ [Step.Run step]
        ++ (if Step.ContinueOnErr step then ["|| true"] else [])
        ++ ["echo 'Step completed'"]
        ++ (if negb (String.eqb (Step.WorkingDir step) "")
            then ["cd /workspace"] else []))%list.

Definition nextStepNum (stepNum : Z) (step : Step.t) : Z :=
  if negb (String.eqb (Step.Uses step) "") then stepNum + 1
  else if String.eqb (Step.Run step) "" then stepNum
  else stepNum + 1.

(** The lines of the script of [r.buildJobScript(job)], before they are
    joined. *)
Definition jobScriptLines (r : t) (job : Job.t) : list string :=
  let commands := ["#!/bin/sh"; "set -e"] in
  let commands := if RunnerConfig.Verbose (config r)
                  then (commands ++ ["set -x"])%list
                  else commands in
  let commands := (commands ++ [""; "echo 'Setting up environment...'"; ""])%list in
  let totalSteps := Z.of_nat (length (Job.Steps job)) in
  let commands := scriptSteps totalSteps (Job.Steps job) 0 commands in
  (commands ++ [""; "echo ''"; "echo 'All steps completed successfully!'"])%list.

(** [r.buildJobScript(job)]. *)
Definition buildJobScript (r : t) (job : Job.t) : string :=
  Join (jobScriptLines r job) nl.

(** [r.buildEnvironment(job)]. *)
Definition buildEnvironment (r : t) (job : Job.t) : list string :=
  let env := ["CI=true"; "GIT_CI=true"; "DOCKER_RUNNER=true";
              "JOB_NAME=" +:+ Job.Name job] in
  let env := (env ++ map fmtKV (rangeMap host (Job.Environment job)))%list in
  let env := (env ++ map fmtKV (rangeMap host (RunnerConfig.Environment (config r))))%list in
  match Job.Container job with
  | Some c => (env ++ map fmtKV (rangeMap host (Container.Env c)))%list
  | None => env
  end.

(** The bind mount of an entry of [job.Container.Volumes], if it has the form
    [source:target[:ro]]. *)
Definition volumeMount (vol : string) : list Docker.Mount :=
  match Split vol ":"%char with
  | src :: tgt :: more =>
      [Docker.mkMount src tgt (match more with
                               | opt :: _ => String.eqb opt "ro"
                               | [] => false
                               end)]
  | _ => []
  end.

(** [r.createContainer(ctx, job, imageName, workdir)]. *)
Definition createContainer (r : t) (job : Job.t) (imageName workdir : string)
    : M (Result (error + string)) :=
  let script := buildJobScript r job in
  let mounts := [Docker.mkMount workdir "/workspace" false] in
  let mounts := match Job.Container job with
                | Some c => (mounts ++ concat (map volumeMount (Container.Volumes c)))%list
                | None => mounts
                end in
  do now <- timeNow;
  let containerName := "git-ci-" +:+ ReplaceAll (ToLower (Job.Name job)) " "%char "-"
                       +:+ "-" +:+ itoa (Z.of_N now / 1000000000) in
  let cfg := Docker.mkConfig imageName ["/bin/sh"; "-c"; script] "/workspace"
               (buildEnvironment r job) mounts containerName in
  do resp <- dockerCall (Docker.ContainerCreate cfg)
                        (fun n => Docker.containerCreate daemon n cfg);
  match resp with
  | inl err => ret (Returned (inl (Errorf_w "failed to create container: " err)))
  | inr id =>
      match sliceTo id 12 with
      | Panicked => ret Panicked
      | Returned _ => ret (Returned (inr id))
      end
  end.

(** [r.streamLogs(ctx, containerID)]. *)
Definition streamLogs (containerID : string) : M (option error) :=
  do res <- dockerCall (Docker.ContainerLogs containerID)
                       (fun n => Docker.containerLogs daemon n containerID);
  match res with
  | Docker.LogsFailed err => ret (Some (Errorf_w "failed to get container logs: " err))
  | Docker.CopyFailed err => ret (Some (Errorf_w "error streaming logs: " err))
  | Docker.LogsDone => ret None
  end.

(** [r.RunJob(job, workdir)].  The job summary that the method fills in is
    only printed and is left out. *)
Definition RunJob (r : t) (job : Job.t) (workdir : string)
    : M (Result (option error) * t) :=
  let imageName := getImageName job in
  if RunnerConfig.DryRun (config r) then ret (Returned None, r)
  else
    do exists_ <- imageExists imageName;
    do pullErr <- (if (RunnerConfig.PullImages (config r) || negb exists_)%bool
                   then pullImage imageName
                   else ret None);
    match pullErr with
    | Some err => ret (Returned (Some err), r)
    | None =>
        do created <- createContainer r job imageName workdir;
        match created with
        | Panicked => ret (Panicked, r)
        | Returned (inl err) => ret (Returned (Some err), r)
        | Returned (inr containerID) =>
            let r := mk (config r) (containers r ++ [containerID])%list in
            do startErr <- dockerCall (Docker.ContainerStart containerID)
                             (fun n => Docker.containerStart daemon n containerID);
            match startErr with
            | Some err => ret (Returned (Some (Errorf_w "failed to start container: " err)), r)
            | None =>
                do _ <- streamLogs containerID;
                do waited <- dockerCall (Docker.ContainerWait containerID)
                               (fun n => Docker.containerWait daemon n containerID);
                match waited with
                | Docker.WaitError (Some err) =>
                    ret (Returned (Some (Errorf_w "container wait error: " err)), r)
                | Docker.WaitError None => ret (Returned None, r)
                | Docker.WaitStatus code =>
                    if negb (code =? 0)
                    then
                      do _ <- dockerCall (Docker.ContainerLogsTail containerID 20)
                                         (fun _ => tt);
                      ret (Returned (Some (errorsNew ("container exited with status "
                                                      +:+ itoa code))), r)
                    else ret (Returned None, r)
                end
            end
        end
    end.

(** [r.RunStep(step, env, workdir)]. *)
Definition RunStep (r : t) (step : Step.t) (env : gmap string string)
    (workdir : string) : M (option error) := ret None.

(** The loop of [r.Cleanup] over the copy of the list of containers. *)
Fixpoint removeContainers (containersToRemove : list string) (errors : list string)
    : M (Result (list string)) :=
  match containersToRemove with
  | [] => ret (Returned errors)
  | containerID :: rest =>
      match sliceTo containerID 12 with
      | Panicked => ret Panicked
      | Returned shortID =>
          do _ <- dockerCall (Docker.ContainerStop containerID)
                             (fun n => Docker.containerStop daemon n containerID);
          do err <- dockerCall (Docker.ContainerRemove containerID)
                               (fun n => Docker.containerRemove daemon n containerID);
          match err with
          | Some err =>
              removeContainers rest
                (errors ++ ["Failed to remove " +:+ shortID +:+ ": " +:+ Error err])%list
          | None => removeContainers rest errors
          end
      end
  end.

(** [r.Cleanup()]. *)
Definition Cleanup (r : t) : M (Result (option error) * t) :=
  if Nat.eqb (length (containers r)) 0 then ret (Returned None, r)
  else
    let containersToRemove := containers r in
    do res <- removeContainers containersToRemove [];
    match res with
    | Panicked => ret (Panicked, r)
    | Returned errors =>
        let r := mk (config r) [] in
        if Nat.ltb 0 (length errors)
        then ret (Returned (Some (errorsNew ("cleanup completed with "
                                             +:+ itoa (Z.of_nat (length errors))
                                             +:+ " errors"))), r)
        else ret (Returned None, r)
    end.

End WithHost.
End DockerRunner.

(** ** The [types.Runner] interface *)

(** A value of the interface: the state of the receiver and its methods.
    A method returns the state it leaves the receiver in. *)
Module Runner.
Record t : Type := mk {
  state : Type;
  self : state;
  RunJob : state -> Job.t -> string -> M (Result (option error) * state);
  Cleanup : state -> M (Result (option error) * state)
}.
End Runner.

Definition liftReturned {A S : Type} (m : M (A * S)) : M (Result A * S) :=
  do r <- m; ret (Returned (fst r), snd r).

(** [*BashRunner] as a [types.Runner]. *)
Definition bashRunner (host : Host) (r : BashRunner.t) : Runner.t :=
  Runner.mk BashRunner.t r
    (fun r job workdir => liftReturned (BashRunner.RunJob host r job workdir))
    (fun r => liftReturned (BashRunner.Cleanup r)).

(** [*DockerRunner] as a [types.Runner]. *)
Definition dockerRunner (host : Host) (daemon : Docker.Daemon) (r : DockerRunner.t)
    : Runner.t :=
  Runner.mk DockerRunner.t r
    (DockerRunner.RunJob host daemon)
    (DockerRunner.Cleanup daemon).

(** ** internal/handlers: the scheduler *)

(** The flags of the command line that the [run] command reads. *)
Module Flags.
Record t : Type := mk {
  docker : bool;
  podman : bool;
  parallel : bool;
  continueOnError : bool;
  maxParallel : Z
}.
End Flags.

Module Handlers.

(** [createRunner(c, cfg)]. *)
Definition createRunner (host : Host) (daemon : Docker.Daemon) (c : Flags.t)
    (cfg : RunnerConfig.t) : M (error + Runner.t) :=
  if Flags.docker c
  then
    do res <- DockerRunner.NewDockerRunner daemon cfg;
    match res with
    | inl err => ret (inl (Errorf_w "failed to create Docker runner: " err))
    | inr runner => ret (inr (dockerRunner host daemon runner))
    end
  else if Flags.podman c
  then ret (inl (errorsNew "podman runner not yet implemented"))
  else ret (inr (bashRunner host (BashRunner.NewBashRunner cfg))).

(** The element type of the results channel of [runJobsParallel]; the
    duration is only printed. *)
Record jobResult : Type := mkJobResult {
  name : string;
  err : option error
}.

(** What a scheduler reports: the error it returns and, when it reaches its
    closing lines, the counts it prints there. *)
Record Report : Type := mkReport {
  returned : option error;
  successCount : Z;
  failureCount : Z;
  printedCounts : bool
}.

Section Scheduler.
(** The scheduler is written against the interface: [newRunner] stands for
    [createRunner(c, cfg)]. *)
Variable newRunner : M (error + Runner.t).

(** [job.Name = jobName] when the job has no name. *)
Definition nameJob (jobName : string) (job : Job.t) : Job.t :=
  if String.eqb (Job.Name job) "" then Job.withName job jobName else job.

(** [runner.RunJob(job, workdir)] followed by [runner.Cleanup()], whose
    error is only printed. *)
Definition runAndCleanup (runner : Runner.t) (job : Job.t) (workdir : string)
    : M (Result (option error)) :=
  do ran <- Runner.RunJob runner (Runner.self runner) job workdir;
  match fst ran with
  | Panicked => ret Panicked
  | Returned err =>
      do cleaned <- Runner.Cleanup runner (snd ran);
      match fst cleaned with
      | Panicked => ret Panicked
      | Returned _ => ret (Returned err)
      end
  end.

(** The loop of [runJobsSequential] over the jobs, in the order of the
    iteration. *)
Fixpoint sequentialLoop (continueOnError : bool) (workdir : string)
    (jobs : list (string * Job.t)) (successCount failureCount : Z)
    : M (Result Report) :=
  match jobs with
  | [] => ret (Returned (mkReport None successCount failureCount true))
  | (jobName, job) :: rest =>
      let job := nameJob jobName job in
      do created <- newRunner;
      match created with
      | inl err =>
          ret (Returned (mkReport
                 (Some (Errorf_w ("failed to create runner for job " +:+ jobName +:+ ": ") err))
                 successCount failureCount false))
      | inr runner =>
          do res <- runAndCleanup runner job workdir;
          match res with
          | Panicked => ret Panicked
          | Returned (Some err) =>
              let failureCount := failureCount + 1 in
              if (negb continueOnError && negb (Job.AllowFailure job))%bool
              then ret (Returned (mkReport
                          (Some (Errorf_w ("job '" +:+ jobName +:+ "' failed: ") err))
                          successCount failureCount false))
              else sequentialLoop continueOnError workdir rest successCount failureCount
          | Returned None =>
              sequentialLoop continueOnError workdir rest (successCount + 1) failureCount
          end
      end
  end.

(** [runJobsSequential(c, jobs, workdir, cfg)], with the jobs in the order
    in which [range] yields them. *)
Definition runJobsSequential (c : Flags.t) (jobs : list (string * Job.t))
    (workdir : string) : M (Result Report) :=
  let continueOnError := Flags.continueOnError c in
  do res <- sequentialLoop continueOnError workdir jobs 0 0;
  match res with
  | Panicked => ret Panicked
  | Returned rep =>
      if printedCounts rep
      then
        if ((0 <? failureCount rep) && negb continueOnError)%bool
        then ret (Returned (mkReport
                    (Some (errorsNew (itoa (failureCount rep) +:+ " job(s) failed")))
                    (successCount rep) (failureCount rep) true))
        else ret (Returned rep)
      else ret (Returned rep)
  end.

(** The body of the goroutine that [runJobsParallel] starts for a job. *)
Definition jobWorker (workdir : string) (jobName : string) (j : Job.t)
    : M (Result jobResult) :=
  let j := nameJob jobName j in
  do created <- newRunner;
  match created with
  | inl err =>
      ret (Returned (mkJobResult jobName (Some (Errorf_w "failed to create runner: " err))))
  | inr runner =>
      do res <- runAndCleanup runner j workdir;
      match res with
      | Panicked => ret Panicked
      | Returned err => ret (Returned (mkJobResult jobName err))
      end
  end.

(** The workers of [runJobsParallel].  Their interleaving is abstracted:
    [schedule] lists the jobs in the order in which their workers run, one
    after the other, and the results reach the channel in that order.  The
    semaphore only bounds how many workers are active at a time. *)
Fixpoint runWorkers (workdir : string) (schedule : list (string * Job.t))
    : M (Result (list jobResult)) :=
  match schedule with
  | [] => ret (Returned [])
  | (jobName, job) :: rest =>
      do res <- jobWorker workdir jobName job;
      match res with
      | Panicked => ret Panicked
      | Returned result =>
          do more <- runWorkers workdir rest;
          match more with
          | Panicked => ret Panicked
          | Returned results => ret (Returned (result :: results))
          end
      end
  end.

(** The loop of [runJobsParallel] that drains the results channel. *)
Fixpoint collectResults (continueOnError : bool) (results : list jobResult)
    (successCount failureCount : Z) (firstError : option error)
    : Z * Z * option error :=
  match results with
  | [] => (successCount, failureCount, firstError)
  | result :: rest =>
      match err result with
      | Some e =>
          let firstError :=
            match firstError with
            | None => if negb continueOnError then Some e else firstError
            | Some _ => firstError
            end in
          collectResults continueOnError rest successCount (failureCount + 1) firstError
      | None =>
          collectResults continueOnError rest (successCount + 1) failureCount firstError
      end
  end.

(** The closing lines of [runJobsParallel], after the channel is drained. *)
Definition parallelVerdict (continueOnError : bool) (results : list jobResult) : Report :=
  let '(successCount, failureCount, firstError) :=
    collectResults continueOnError results 0 0 None in
  match (if negb continueOnError then firstError else None) with
  | Some e => mkReport (Some (Errorf_w "pipeline failed: " e)) successCount failureCount true
  | None =>
      if 0 <? failureCount
      then mkReport (Some (errorsNew (itoa failureCount +:+ " job(s) failed")))
                    successCount failureCount true
      else mkReport None successCount failureCount true
  end.

(** [runJobsParallel(c, jobs, workdir, cfg)] under a schedule of the
    workers. *)
Definition runJobsParallel (c : Flags.t) (schedule : list (string * Job.t))
    (workdir : string) : M (Result Report) :=
  let continueOnError := Flags.continueOnError c in
  do res <- runWorkers workdir schedule;
  match res with
  | Panicked => ret Panicked
  | Returned results => ret (Returned (parallelVerdict continueOnError results))
  end.

End Scheduler.

(** *** The job-graph validator *)

(** The loop of [checkCircularDependencies] over [job.Needs]: [check] is
    the recursive call on a dependency that exists. *)
Fixpoint needsLoop (check : string -> Job.t -> option (option error))
    (allJobs : gmap string Job.t) (needs : list string) : option (option error) :=
  match needs with
  | [] => Some None
  | need :: rest =>
      match allJobs !! need with
      | Some dependentJob =>
          match check need dependentJob with
          | None => None
          | Some (Some err) => Some (Some err)
          | Some None => needsLoop check allJobs rest
          end
      | None => needsLoop check allJobs rest
      end
  end.

(** [checkCircularDependencies(jobName, job, allJobs, visited)].  The
    recursion of the source is bounded by [fuel]; [None] means that the fuel
    ran out, [Some None] is a nil error.  The slice [visited] is only ever
    extended on the way down, so that a list stands for it. *)
Fixpoint checkCircularDependencies (fuel : nat) (jobName : string) (job : Job.t)
    (allJobs : gmap string Job.t) (visited : list string) : option (option error) :=
  match fuel with
  | O => None
  | S fuel' =>
      if existsb (fun v => String.eqb v jobName) visited
      then Some (Some (errorsNew ("circular dependency detected: "
                                  +:+ Join (visited ++ [jobName])%list " -> ")))
      else
        let visited := (visited ++ [jobName])%list in
        needsLoop (fun need dependentJob =>
                     checkCircularDependencies fuel' need dependentJob allJobs visited)
                  allJobs (Job.Needs job)
  end.

(** The relation [needs] on the jobs of a pipeline: job [a] is there and
    names [b] among its needs, and job [b] is there. *)
Definition needsEdge (jobs : gmap string Job.t) (a b : string) : bool :=
  match jobs !! a with
  | Some job =>
      (existsb (String.eqb b) (Job.Needs job)
       && match jobs !! b with Some _ => true | None => false end)%bool
  | None => false
  end.

(** A chain: each job of the list needs the next one. *)
Fixpoint isChain (jobs : gmap string Job.t) (chain : list string) : bool :=
  match chain with
  | a :: (b :: _) as rest => (needsEdge jobs a b && isChain jobs rest)%bool
  | _ => true
  end.

(** The checks of the strict mode on the steps of a job. *)
Fixpoint strictSteps (jobName : string) (steps : list Step.t) (i : Z) : list string :=
  match steps with
  | [] => []
  | step :: rest =>
      ((if (String.eqb (Step.Name step) "" && String.eqb (Step.Run step) ""
            && String.eqb (Step.Uses step) "")%bool
        then ["job '" +:+ jobName +:+ "' step " +:+ itoa (i + 1) +:+ " is empty"]
        else [])
       ++ (if Step.TimeoutMin step <? 0
           then ["job '" +:+ jobName +:+ "' step " +:+ itoa (i + 1) +:+ " has invalid timeout"]
           else [])
       ++ strictSteps jobName rest (i + 1))%list
  end.

Section Validator.
Variable host : Host.

(** The errors that [validatePipeline] appends for one job. *)
Definition validateJob (pipeline : Pipeline.t) (strict : bool) (jobName : string)
    (job : Job.t) : list string :=
  let jobs := Pipeline.Jobs pipeline in
  let stages := Pipeline.Stages pipeline in
  ((if (Nat.eqb (length (Job.Steps job)) 0 && negb (Job.HasTrigger job))%bool
    then ["job '" +:+ jobName +:+ "' has no steps or trigger"]
    else [])
   ++ (if (negb (String.eqb (Job.Stage job) "") && Nat.ltb 0 (length stages)
           && negb (existsb (String.eqb (Job.Stage job)) stages))%bool
       then ["job '" +:+ jobName +:+ "' references undefined stage '"
             +:+ Job.Stage job +:+ "'"]
       else [])
   ++ concat (map (fun need =>
                     match jobs !! need with
                     | Some _ => []
                     | None => ["job '" +:+ jobName +:+ "' depends on non-existent job '"
                                +:+ need +:+ "'"]
                     end) (Job.Needs job))
   ++ match checkCircularDependencies (S (size jobs)) jobName job jobs [] with
      | Some (Some err) => [Error err]
      | _ => []
      end
   ++ (if strict
       then
         (if (String.eqb (Job.RunsOn job) "" && String.eqb (Job.Image job) ""
              && match Job.Container job with None => true | Some _ => false end
              && Nat.eqb (length (Job.Tags job)) 0)%bool
          then ["job '" +:+ jobName +:+ "' has no runner specified"]
          else [])
         ++ strictSteps jobName (Job.Steps job) 0
         ++ concat (map (fun kv =>
                           if String.eqb (fst kv) ""
                           then ["job '" +:+ jobName
                                 +:+ "' has empty environment variable key"]
                           else [])
                        (rangeMap host (Job.Environment job)))
         ++ match Job.Artifacts job with
            | Some [] => ["job '" +:+ jobName +:+ "' has artifacts defined but no paths"]
            | _ => []
            end
         ++ match Job.Cache job with
            | Some [] => ["job '" +:+ jobName +:+ "' has cache defined but no paths"]
            | _ => []
            end
       else []))%list.

(** [validatePipeline(pipeline, strict)]; [None] is the nil pipeline. *)
Definition validatePipeline (pipeline : option Pipeline.t) (strict : bool) : list string :=
  match pipeline with
  | None => ["pipeline is nil"]
  | Some pipeline =>
      ((if String.eqb (Pipeline.Name pipeline) "" then ["pipeline name is empty"] else [])
       ++ (if Nat.eqb (size (Pipeline.Jobs pipeline)) 0
           then ["no jobs defined in pipeline"]
           else [])
       ++ concat (map (fun kv => validateJob pipeline strict (fst kv) (snd kv))
                      (rangeMap host (Pipeline.Jobs pipeline))))%list
  end.

End Validator.
End Handlers.

(** ** The log of a step with retries *)

(** What [r.executeWithRetry] does between two tries: it sleeps for the
    delay of the policy when that is a duration. *)
Definition pauseLog (host : Host) (policy : RetryPolicy.t) : list Event :=
  if String.eqb (RetryPolicy.Delay policy) "" then []
  else match ParseDuration host (RetryPolicy.Delay policy) with
       | Some duration => [EvSleep duration]
       | None => []
       end.

(** The log of [k] tries of the command [c] in a row; [first] tells whether
    the first of them is the first try of the step, before which there is no
    pause. *)
Fixpoint triesLog (c : Cmd.t) (pause : list Event) (first : bool) (k : nat) : list Event :=
  match k with
  | O => []
  | S k' => ((if first then [] else pause) ++ [EvSpawn c] ++ triesLog c pause false k')%list
  end.

(** ** The environment a child process sees *)

(** The value of the variable [k] in a list of [KEY=VALUE] strings handed
    to [exec.Cmd.Env]: of several entries for a key, os/exec keeps the last
    one. *)
Fixpoint lookupEnv (env : list string) (k : string) : option string :=
  match env with
  | [] => None
  | entry :: rest =>
      match lookupEnv rest k with
      | Some v => Some v
      | None =>
          if String.prefix (k +:+ "=") entry
          then Some (String.substring (String.length k + 1)
                       (String.length entry - (String.length k + 1)) entry)
          else None
      end
  end.

(** A name of a variable: it has no equals sign. *)
Definition isVarName (k : string) : bool :=
  negb (existsb (Ascii.eqb "="%char) (list_ascii_of_string k)).

(** Every key of the map is a name of a variable. *)
Definition varNames (m : gmap string string) : Prop :=
  forallb (fun kv => isVarName (fst kv)) (map_to_list m) = true.

(** ** The shell that runs a generated script *)

(** sh on a script that has one simple command on each line, which is what
    [buildJobScript] aims at.  A newline ends a command, so that a line that
    begins with the operator [||] is a syntax error, on which a
    non-interactive shell exits with status 2; under [set -e] the shell
    exits with the status of the first command that fails.  The commands
    are read and run one after the other; [status] gives the exit status
    of a simple command. *)
Module Sh.
Record Run : Type := mkRun {
  exitStatus : Z;
  (** the commands that were run, in order *)
  ran : list string
}.

Fixpoint exec (status : string -> Z) (errexit : bool) (last : Z)
    (lines : list string) (done : list string) : Run :=
  match lines with
  | [] => mkRun last done
  | line :: rest =>
      if (String.eqb line "" || String.prefix "#" line)%bool
      then exec status errexit last rest done
      else if String.prefix "||" line
      then mkRun 2 done
      else if String.eqb line "set -e"
      then exec status true 0 rest (done ++ [line])%list
      else
        let st := status line in
        if (errexit && negb (st =? 0))%bool
        then mkRun st (done ++ [line])%list
        else exec status errexit st rest (done ++ [line])%list
  end.

(** [/bin/sh -c script]. *)
Definition sh_c (status : string -> Z) (script : string) : Run :=
  exec status false 0 (Split script (ascii_of_nat 10)) [].
End Sh.

(** ** The states of a container backend *)

(** The runners that a program can hold: made by [NewDockerRunner], then
    used through their methods. *)
Inductive reachable (host : Host) (daemon : Docker.Daemon) : DockerRunner.t -> Prop :=
| reachable_new cfg w r w' :
    DockerRunner.NewDockerRunner daemon cfg w = (inr r, w') ->
    reachable host daemon r
| reachable_RunJob r job workdir w res r' w' :
    reachable host daemon r ->
    DockerRunner.RunJob host daemon r job workdir w = (res, r', w') ->
    reachable host daemon r'
| reachable_Cleanup r w res r' w' :
    reachable host daemon r ->
    DockerRunner.Cleanup daemon r w = (res, r', w') ->
    reachable host daemon r'.

(** Every tracked identifier is long enough for the short form that
    [Cleanup] prints. *)
Definition longIds (r : DockerRunner.t) : Prop :=
  Forall (fun id => (12 <= String.length id)%nat) (DockerRunner.containers r).

(** ** More of package strings *)

(** [strings.HasPrefix(s, prefix)]. *)
Definition HasPrefix (s pre : string) : bool := String.prefix pre s.

(** [strings.SplitN(s, sep, 2)] for a separator of one character: the text
    before the first separator and the text after it, or [s] alone. *)
Fixpoint SplitN2 (s : string) (sep : ascii) : list string :=
  match s with
  | EmptyString => [""]
  | String c s' =>
      if Ascii.eqb c sep then [""; s']
      else match SplitN2 s' sep with
           | p :: ps => String c p :: ps
           | [] => [String c ""]
           end
  end.

Fixpoint trimLeftCut (cutset : list ascii) (s : string) : string :=
  match s with
  | EmptyString => ""
  | String c s' => if existsb (Ascii.eqb c) cutset then trimLeftCut cutset s' else s
  end.

Fixpoint trimRightCut (cutset : list ascii) (s : string) : string :=
  match s with
  | EmptyString => ""
  | String c s' =>
      match trimRightCut cutset s' with
      | EmptyString => if existsb (Ascii.eqb c) cutset then "" else String c ""
      | t => String c t
      end
  end.

(** [strings.Trim(s, cutset)] for a cutset of ASCII characters. *)
Definition Trim (s : string) (cutset : list ascii) : string :=
  trimRightCut cutset (trimLeftCut cutset s).

(** The double quote and the single quote. *)
Definition dquote : ascii := ascii_of_nat 34.
Definition squote : ascii := ascii_of_nat 39.

(** Text of 7-bit characters: on it the functions of package strings that
    are given here for ASCII text ([TrimSpace], [ToLower]) are those of
    Go. *)
Definition ascii7 (s : string) : bool :=
  forallb (fun c => Nat.ltb (nat_of_ascii c) 128) (list_ascii_of_string s).

(** The string [s] has no character [c]. *)
Definition lacks (c : ascii) (s : string) : bool :=
  forallb (fun x => negb (Ascii.eqb x c)) (list_ascii_of_string s).

(** The first and the last character of a string. *)
Definition firstChar (s : string) : option ascii :=
  match s with
  | EmptyString => None
  | String c _ => Some c
  end.

Fixpoint lastChar (s : string) : option ascii :=
  match s with
  | EmptyString => None
  | String c s' =>
      match lastChar s' with
      | None => Some c
      | last => last
      end
  end.

(** ** internal/handlers: the selection of the jobs to run *)

(** The flags of the command line that [selectJobsToRun] reads. *)
Module Selection.
Record t : Type := mk {
  job : string;
  stage : string;
  only : list string;
  except : list string
}.
End Selection.

Module Select.
Section WithHost.
Variable host : Host.

(** [matchPattern(name, pattern)]. *)
Definition matchPattern (name pattern : string) : bool :=
  if String.eqb pattern name then true
  else if Contains pattern "*"
  then Contains name (ReplaceAll pattern "*"%char "")
  else false.

(** [filterJobs(jobs, only, except)]: the loops over the patterns that end
    at the first match are [existsb]. *)
Definition filterJobs (jobs : gmap string Job.t) (only except : list string)
    : gmap string Job.t :=
  if (Nat.eqb (length only) 0 && Nat.eqb (length except) 0)%bool then jobs
  else
    foldl (fun filtered kv =>
             let name := fst kv in
             if (Nat.ltb 0 (length only) && negb (existsb (matchPattern name) only))%bool
             then filtered
             else if (Nat.ltb 0 (length except) && existsb (matchPattern name) except)%bool
             then filtered
             else <[name := snd kv]> filtered)
          ∅ (rangeMap host jobs).

(** [getJobsByStage(pipeline, stage)]. *)
Definition getJobsByStage (pipeline : Pipeline.t) (stage : string) : gmap string Job.t :=
  foldl (fun jobs kv =>
           if String.eqb (Job.Stage (snd kv)) stage
           then <[fst kv := snd kv]> jobs
           else jobs)
        ∅ (rangeMap host (Pipeline.Jobs pipeline)).

(** [selectJobsToRun(c, pipeline)].  The nil map that the function returns
    when nothing is found is the empty map: its caller takes its length. *)
Definition selectJobsToRun (c : Selection.t) (pipeline : Pipeline.t) : gmap string Job.t :=
  let jobs := Pipeline.Jobs pipeline in
  let jobName := Selection.job c in
  if negb (String.eqb jobName "")
  then
    match jobs !! jobName with
    | Some job => {[ jobName := job ]}
    | None =>
        let matchedJobs :=
          foldl (fun matched kv =>
                   if matchPattern (fst kv) jobName
                   then <[fst kv := snd kv]> matched
                   else matched)
                ∅ (rangeMap host jobs) in
        if Nat.ltb 0 (size matchedJobs) then matchedJobs else ∅
    end
  else
    let stage := Selection.stage c in
    if negb (String.eqb stage "")
    then
      let jobs := getJobsByStage pipeline stage in
      if Nat.eqb (size jobs) 0 then ∅
      else filterJobs jobs (Selection.only c) (Selection.except c)
    else filterJobs jobs (Selection.only c) (Selection.except c).

End WithHost.
End Select.

(** ** internal/handlers: the environment of the command line *)

Module EnvFile.
Section WithHost.
Variable host : Host.
(** [os.ReadFile(filename)], the content as a string. *)
Variable ReadFile : string -> error + string.

(** The loop of [loadEnvFile] over the lines of the file. *)
Fixpoint envLines (lines : list string) (env : gmap string string) : gmap string string :=
  match lines with
  | [] => env
  | line :: rest =>
      let line := TrimSpace line in
      if (String.eqb line "" || HasPrefix line "#")%bool then envLines rest env
      else
        match SplitN2 line "="%char with
        | [k; v] =>
            let key := TrimSpace k in
            let value := TrimSpace v in
            let value := Trim value [dquote; squote] in
            envLines rest (<[key := value]> env)
        | _ => envLines rest env
        end
  end.

(** [loadEnvFile(filename)]. *)
Definition loadEnvFile (filename : string) : error + gmap string string :=
  match ReadFile filename with
  | inl err => inl (Errorf_w "failed to read env file: " err)
  | inr data => inr (envLines (Split data (ascii_of_nat 10)) ∅)
  end.

(** [parseEnvironmentVars(c)]: [envFlags] are the values of the flag
    [--env], [envFile] is the value of [--env-file]. *)
Definition parseEnvironmentVars (envFlags : list string) (envFile : string)
    : gmap string string :=
  let env := foldl (fun env e =>
                      match SplitN2 e "="%char with
                      | [k; v] => <[k := v]> env
                      | _ => env
                      end)
                   ∅ envFlags in
  if negb (String.eqb envFile "")
  then
    match loadEnvFile envFile with
    | inr fileEnv =>
        foldl (fun env kv => <[fst kv := snd kv]> env) env (rangeMap host fileEnv)
    | inl _ => env
    end
  else env.

End WithHost.

(** A name of a variable as an env file can carry it: 7-bit characters,
    none of them white space or [=], the first one not [#]. *)
Definition envKey (k : string) : bool :=
  (negb (String.eqb k "")
   && forallb (fun c => Nat.ltb (nat_of_ascii c) 128 && negb (isSpace c)
                        && negb (Ascii.eqb c "="%char))
              (list_ascii_of_string k)
   && negb (HasPrefix k "#"))%bool.

(** A value as an env file can carry it: 7-bit characters on one line, with
    neither white space nor a quote at its ends. *)
Definition edge (c : option ascii) : bool :=
  match c with
  | Some c => negb (isSpace c || Ascii.eqb c dquote || Ascii.eqb c squote)
  | None => true
  end.

Definition envValue (v : string) : bool :=
  (forallb (fun c => Nat.ltb (nat_of_ascii c) 128 && negb (Ascii.eqb c (ascii_of_nat 10)))
           (list_ascii_of_string v)
   && edge (firstChar v) && edge (lastChar v))%bool.

End EnvFile.

(** ** The container backend: what a cleanup reports *)


(** The daemon with another fate for the log streams. *)
Definition withLogs (daemon : Docker.Daemon) (logs : nat -> string -> Docker.LogsResult)
    : Docker.Daemon :=
  Docker.mkDaemon (Docker.newClient daemon) (Docker.ping daemon) (Docker.imageList daemon)
    (Docker.imagePull daemon) (Docker.containerCreate daemon)
    (Docker.containerStart daemon) logs (Docker.containerWait daemon)
    (Docker.containerStop daemon) (Docker.containerRemove daemon).

(** The steps of a job that the generated script runs as shell commands. *)
Definition shellStep (step : Step.t) : bool :=
  (String.eqb (Step.Uses step) "" && negb (String.eqb (Step.Run step) ""))%bool.

(** ** The output formatter: text that is cut *)

(** [text[:n]] for an [int]: a negative bound panics as one out of range
    does. *)
Definition sliceToZ (s : string) (n : Z) : Result string :=
  if n <? 0 then Panicked else sliceTo s (Z.to_nat n).

(** [f.TruncateText(text, width)]. *)
Definition TruncateText (text : string) (width : Z) : Result string :=
  if Z.of_nat (String.length text) <=? width then Returned text
  else if width <=? 3 then sliceToZ text width
  else match sliceToZ text (width - 3) with
       | Returned s => Returned (s +:+ "...")
       | Panicked => Panicked
       end.

(** ** Sample hosts and pipelines *)

Module Samples.

(** A host with an empty environment on which every program is found
    under /usr/bin, and [fate] decides on the child processes. *)
Definition hostWith (fate : Cmd.t -> ExecOutcome * N) : Host :=
  mkHost []
    (fun file => ("/usr/bin/" +:+ file, None))
    (fun path => inr path)
    (fun a b => a +:+ "/" +:+ b)
    (fun _ => false)
    (fun _ cmd => fate cmd)
    (fun s => if String.eqb s "1s" then Some 1000000000 else None)
    (fun V m => map_to_list m)
    (fun V m => reflexivity (map_to_list m)).

(** The script of a command made by [prepareCommand]: its last argument. *)
Definition scriptOf (cmd : Cmd.t) : string := List.last (Cmd.Args cmd) "".

Definition exit1 : ExecOutcome := WaitFailed (errorsNew "exit status 1") "".

(** The command [false] fails, every other one succeeds, all at once. *)
Definition quickHost : Host :=
  hostWith (fun cmd => (if String.eqb (scriptOf cmd) "false" then exit1 else Exited "", 0%N)).

(** As [quickHost], but a shell command takes two minutes. *)
Definition slowHost : Host :=
  hostWith (fun cmd =>
              if String.eqb (Cmd.Path cmd) "/usr/bin/git" then (Exited "", 0%N)
              else (if String.eqb (scriptOf cmd) "false" then exit1 else Exited "",
                    120000000000%N)).

Definition config (timeout : Z) : RunnerConfig.t :=
  RunnerConfig.mk false false false ∅ timeout.

Definition runStep (run : string) (continueOnErr : bool) : Step.t :=
  Step.mk run run "" ∅ ∅ "" continueOnErr "" "" 0 None.

Definition guardedStep (cond : string) : Step.t :=
  Step.mk "guarded" "true" "" ∅ ∅ cond false "" "" 0 None.

Definition emptyStep : Step.t :=
  Step.mk "nothing" "" "" ∅ ∅ "" false "" "" 0 None.

Definition retryStep (run : string) (maxAttempts : Z) (delay : string) : Step.t :=
  Step.mk run run "" ∅ ∅ "" false "" "" 0
          (Some (RetryPolicy.mk maxAttempts delay "")).

Definition jobOf (name : string) (steps : list Step.t) (needs : list string) : Job.t :=
  Job.mk name steps ∅ "" "" None [] needs "" false false None None.

Definition world0 : World := mkWorld 0 0 [].

(** A daemon on which everything succeeds, except that a container
    exits with [code] and that removing a container fails when
    [removeFails]. *)
Definition daemonWith (code : Z) (removeFails : bool) : Docker.Daemon :=
  Docker.mkDaemon None
    (fun _ => None)
    (fun _ => inr [])
    (fun _ _ => None)
    (fun n _ => inr ("0123456789abcdef" +:+ itoa (Z.of_nat n)))
    (fun _ _ => None)
    (fun _ _ => Docker.LogsDone)
    (fun _ _ => Docker.WaitStatus code)
    (fun _ _ => None)
    (fun _ _ => if removeFails then Some (errorsNew "removal in progress") else None).

Definition flags (docker continueOnError : bool) : Flags.t :=
  Flags.mk docker false false continueOnError 4.

Definition pipelineOf (jobs : list (string * Job.t)) (env : gmap string string)
    : Pipeline.t :=
  Pipeline.mk "ci" (list_to_map jobs) env [].

(** A job with an environment and a step with one: [LEVEL] is set by the
    job, by the command line and by the step, [REGION] by the job and by
    the command line, [STAGE] by the job only. *)
Definition layeredConfig : RunnerConfig.t :=
  RunnerConfig.mk false false false
    (<["LEVEL" := "cli"]> (<["REGION" := "cli"]> ∅)) 30.

Definition layeredStep : Step.t :=
  Step.mk "show" "env" "" ∅ (<["LEVEL" := "step"]> ∅) "" false "" "" 0 None.

Definition layeredJob : Job.t :=
  Job.mk "build" [layeredStep]
    (<["LEVEL" := "job"]> (<["REGION" := "job"]> (<["STAGE" := "job"]> ∅)))
    "" "" None [] [] "" false false None None.

(** A pipeline whose environment sets [FOO]; the job and the step set
    nothing. *)
Definition fooPipeline : Pipeline.t :=
  pipelineOf [("build", jobOf "build" [runStep "echo $FOO" false] [])]
             (<["FOO" := "bar"]> ∅).

(** No command of the log has the variable [k] in its environment. *)
Definition unsetIn (k : string) (log : list Event) : bool :=
  forallb (fun ev => match ev with
                     | EvSpawn cmd => match lookupEnv (Cmd.Env cmd) k with
                                      | Some _ => false
                                      | None => true
                                      end
                     | _ => true
                     end) log.

(** The log has a command with the script [script]. *)
Definition ranScript (script : string) (log : list Event) : bool :=
  existsb (fun ev => match ev with
                     | EvSpawn cmd => String.eqb (scriptOf cmd) script
                     | _ => false
                     end) log.

(** Job [a] needs [b], [b] needs [c] and [c] needs [b]. *)
Definition cyclicPipeline : Pipeline.t :=
  pipelineOf
    [("a", jobOf "a" [runStep "true" false] ["b"]);
     ("b", jobOf "b" [runStep "true" false] ["c"]);
     ("c", jobOf "c" [runStep "true" false] ["b"])] ∅.

(** The container backend after it has run a job, on a daemon that fails
    to remove containers. *)
Definition afterRunJob : Result (option error) * DockerRunner.t * World :=
  DockerRunner.RunJob quickHost (daemonWith 1 true)
    (DockerRunner.mk (config 30) [])
    (jobOf "build" [runStep "false" false] []) "." world0.

(** A step without directive whose guard is [failure()]. *)
Definition skippedEmptyStep : Step.t :=
  Step.mk "nothing" "" "" ∅ ∅ "failure()" false "" "" 0 None.


(** A checkout with a retry policy: three attempts, one second apart. *)
Definition checkoutRetryStep : Step.t :=
  Step.mk "checkout" "" "actions/checkout@v4" ∅ ∅ "" false "" "" 0
          (Some (RetryPolicy.mk 3 "1s" "")).

(** As [quickHost], but no directory exists. *)
Definition noDirHost : Host :=
  mkHost (Environ quickHost) (LookPath quickHost) (Abs quickHost)
    (filepathJoin quickHost) (fun _ => true) (runProcess quickHost)
    (ParseDuration quickHost) (@rangeMap quickHost) (rangeMap_perm quickHost).

(** The configuration of a dry run. *)
Definition dryConfig : RunnerConfig.t :=
  RunnerConfig.mk true false false ∅ 30.

(** A step that names an action the process backend does not know, and a
    command beside it. *)
Definition cacheStep : Step.t :=
  Step.mk "cache" "false" "actions/cache@v3" ∅ ∅ "" false "" "" 0 None.

(** A step with a working directory, a time limit of five minutes and, if
    [maxAttempts] is positive, a retry policy. *)
Definition limitedStep (maxAttempts : Z) : Step.t :=
  Step.mk "test" "make test" "" ∅ ∅ "" false "" "sub" 5
          (if 0 <? maxAttempts then Some (RetryPolicy.mk maxAttempts "" "") else None).


(** A job that may fail: its one step is the command [false]. *)
Definition allowedJob (name : string) : Job.t :=
  Job.mk name [runStep "false" false] ∅ "" "" None [] [] "" true false None None.

End Samples.

(** * Properties *)

Local Open Scope world_scope.
Local Open Scope list_scope.

(** ** The state monad *)

Lemma bind_ret_l {A B : Type} (a : A) (k : A -> M B) (w : World) :
  bind (ret a) k w = k a w.
Proof. reflexivity. Qed.

Lemma bind_unfold {A B : Type} (m : M A) (k : A -> M B) (w : World) :
  bind m k w = k (fst (m w)) (snd (m w)).
Proof. reflexivity. Qed.

(** ** The guard of a step *)

(** The guard is false on exactly two strings. *)
Lemma shouldRunStep_eq (step : Step.t) (env : gmap string string) :
  BashRunner.shouldRunStep step env
  = negb (String.eqb (Step.If step) "failure()"
          || String.eqb (Step.If step) "cancelled()").
Proof.
  unfold BashRunner.shouldRunStep.
  destruct (String.eqb_spec (Step.If step) "") as [-> | _]; [reflexivity |].
  destruct (String.eqb_spec (Step.If step) "always()") as [-> | _]; [reflexivity |].
  destruct (String.eqb_spec (Step.If step) "success()") as [-> | _]; [reflexivity |].
  destruct (String.eqb (Step.If step) "failure()"); [reflexivity |].
  destruct (String.eqb (Step.If step) "cancelled()"); reflexivity.
Qed.

(** C8, as stated, fails: the guard [cancelled()] is a non-empty string
    other than [failure()], and a step that carries it is not run. *)
Lemma guard_cancelled_is_skipped :
  Step.If (Samples.guardedStep "cancelled()") <> ""
  /\ Step.If (Samples.guardedStep "cancelled()") <> "failure()"
  /\ BashRunner.shouldRunStep (Samples.guardedStep "cancelled()") ∅ = false.
Proof. repeat split; discriminate. Qed.

(** C8, amended: the guard evaluator sends [always()] and [success()] to
    true, [failure()] and [cancelled()] to false and every other string,
    the empty one included, to true; so a step is skipped by its guard
    exactly when its [if] is the literal [failure()] or the literal
    [cancelled()], and run by its guard for every other string. *)
Theorem guard_tokens (step : Step.t) (env : gmap string string) :
  BashRunner.shouldRunStep (Samples.guardedStep "always()") env = true
  /\ BashRunner.shouldRunStep (Samples.guardedStep "success()") env = true
  /\ BashRunner.shouldRunStep (Samples.guardedStep "failure()") env = false
  /\ BashRunner.shouldRunStep (Samples.guardedStep "cancelled()") env = false
  /\ BashRunner.shouldRunStep (Samples.guardedStep "") env = true
  /\ BashRunner.shouldRunStep step env
     = (if bool_decide (Step.If step = "failure()" \/ Step.If step = "cancelled()")
        then false else true).
Proof.
  repeat split.
  rewrite shouldRunStep_eq.
  destruct (String.eqb_spec (Step.If step) "failure()") as [E1 | N1];
    destruct (String.eqb_spec (Step.If step) "cancelled()") as [E2 | N2];
    case_bool_decide; simpl; try reflexivity; tauto.
Qed.

(** ** The loop of [RunJob] *)

(** The check of the job timeout compares binary64 numbers: under a timeout
    of 262144 minutes one nanosecond over the limit is not seen, two are;
    under a timeout of one minute one nanosecond over is seen; a timeout of
    zero is none. *)
Example jobTimedOut_binary64 :
  BashRunner.jobTimedOut (BashRunner.NewBashRunner (Samples.config 262144))
    0 15728640000000001 = false
  /\ BashRunner.jobTimedOut (BashRunner.NewBashRunner (Samples.config 262144))
       0 15728640000000002 = true
  /\ BashRunner.jobTimedOut (BashRunner.NewBashRunner (Samples.config 1))
       0 60000000000 = false
  /\ BashRunner.jobTimedOut (BashRunner.NewBashRunner (Samples.config 1))
       0 60000000001 = true
  /\ BashRunner.jobTimedOut (BashRunner.NewBashRunner (Samples.config 0))
       0 60000000001 = false.
Proof. vm_compute. repeat split. Qed.

Section Loop.
Variable host : Host.

(** [RunJob] on a working directory that exists: what it returns is the
    outcome of its loop over the steps of the job. *)
Lemma runJobSummary_loop (r : BashRunner.t) (job : Job.t) (workdir absWorkdir : string)
    (w : World) :
  Abs host workdir = inr absWorkdir ->
  statIsNotExist host absWorkdir = false ->
  BashRunner.runJobSummary host r job workdir w
  = BashRunner.jobOutcome host r job absWorkdir w
      (BashRunner.atStep host r job absWorkdir w (Job.Steps job)).
Proof.
  intros Habs Hstat. unfold BashRunner.runJobSummary.
  rewrite bind_unfold. cbn [timeNow fst snd]. rewrite Habs, Hstat.
  rewrite !bind_unfold. reflexivity.
Qed.

Variable r : BashRunner.t.
Variable jobEnv : gmap string string.
Variable absWorkdir : string.
Variable startTime : N.

(** The loop over a list of steps is the loop over its first part and then,
    unless that has ended the job, the loop over the rest. *)
Lemma runSteps_app (before after : list Step.t) :
  forall (summary : JobSummary.t) (w : World),
    JobSummary.Success summary = true ->
    BashRunner.runSteps host r jobEnv absWorkdir startTime (before ++ after) summary w
    = (let res := BashRunner.runSteps host r jobEnv absWorkdir startTime before summary w in
       if JobSummary.Success (fst res)
       then BashRunner.runSteps host r jobEnv absWorkdir startTime after (fst res) (snd res)
       else res).
Proof.
  induction before as [| step before IH]; intros summary w Hs; cbv zeta.
  - cbn [app BashRunner.runSteps ret fst snd]. now rewrite Hs.
  - cbn [app BashRunner.runSteps]. rewrite !bind_unfold. cbn [timeNow fst snd].
    destruct (BashRunner.jobTimedOut r startTime (clock w)); [reflexivity |].
    destruct (negb (BashRunner.shouldRunStep step jobEnv)); [now apply IH |].
    rewrite !bind_unfold.
    destruct (BashRunner.RunStep host r step jobEnv absWorkdir w) as [[err |] w1];
      cbn [fst snd]; [| now apply IH].
    destruct (Step.ContinueOnErr step); [now apply IH | reflexivity].
Qed.

(** The loop at a step that it comes to. *)
Lemma runSteps_at (before : list Step.t) (step : Step.t) (after : list Step.t)
    (summary : JobSummary.t) (w : World) :
  JobSummary.Success summary = true ->
  JobSummary.Success
    (fst (BashRunner.runSteps host r jobEnv absWorkdir startTime before summary w)) = true ->
  BashRunner.runSteps host r jobEnv absWorkdir startTime (before ++ step :: after) summary w
  = BashRunner.runSteps host r jobEnv absWorkdir startTime (step :: after)
      (fst (BashRunner.runSteps host r jobEnv absWorkdir startTime before summary w))
      (snd (BashRunner.runSteps host r jobEnv absWorkdir startTime before summary w)).
Proof.
  intros Hs Hb. rewrite runSteps_app by exact Hs. cbv zeta. now rewrite Hb.
Qed.

(** A step that is skipped or that [RunStep] completes. *)
Lemma quiet_cons (step : Step.t) (steps : list Step.t) (summary : JobSummary.t) (w : World) :
  BashRunner.quiet host r jobEnv absWorkdir startTime (step :: steps) summary w ->
  BashRunner.jobTimedOut r startTime (clock w) = false
  /\ (BashRunner.shouldRunStep step jobEnv = true ->
      fst (BashRunner.RunStep host r step jobEnv absWorkdir w) = None)
  /\ BashRunner.quiet host r jobEnv absWorkdir startTime steps
       (if BashRunner.shouldRunStep step jobEnv
        then JobSummaryOps.completeStep summary
        else JobSummaryOps.skipStep summary)
       (if BashRunner.shouldRunStep step jobEnv
        then snd (BashRunner.RunStep host r step jobEnv absWorkdir w)
        else w).
Proof.
  intros Hq. destruct (Hq [] step steps eq_refl) as [Hout Hrun]. cbn in Hout, Hrun.
  split; [exact Hout |]. split; [exact Hrun |].
  intros before s after ->.
  specialize (Hq (step :: before) s after eq_refl). cbv zeta in Hq.
  cbn [BashRunner.runSteps] in Hq. rewrite bind_unfold in Hq.
  cbn [timeNow fst snd] in Hq. rewrite Hout in Hq.
  destruct (BashRunner.shouldRunStep step jobEnv); cbn [negb] in Hq; [| exact Hq].
  rewrite bind_unfold in Hq. rewrite (Hrun eq_refl) in Hq. exact Hq.
Qed.

Lemma quiet_of_cons (step : Step.t) (steps : list Step.t) (summary : JobSummary.t)
    (w : World) :
  BashRunner.jobTimedOut r startTime (clock w) = false ->
  (BashRunner.shouldRunStep step jobEnv = true ->
   fst (BashRunner.RunStep host r step jobEnv absWorkdir w) = None) ->
  BashRunner.quiet host r jobEnv absWorkdir startTime steps
    (if BashRunner.shouldRunStep step jobEnv
     then JobSummaryOps.completeStep summary
     else JobSummaryOps.skipStep summary)
    (if BashRunner.shouldRunStep step jobEnv
     then snd (BashRunner.RunStep host r step jobEnv absWorkdir w)
     else w) ->
  BashRunner.quiet host r jobEnv absWorkdir startTime (step :: steps) summary w.
Proof.
  intros Hout Hrun Hq [| s0 before] s after Heq; cbv zeta.
  - injection Heq as <- <-. cbn. split; assumption.
  - injection Heq as <- ->. specialize (Hq before s after eq_refl). cbv zeta in Hq.
    cbn [BashRunner.runSteps]. rewrite bind_unfold. cbn [timeNow fst snd]. rewrite Hout.
    destruct (BashRunner.shouldRunStep step jobEnv); cbn [negb]; [| exact Hq].
    rewrite bind_unfold. rewrite (Hrun eq_refl). exact Hq.
Qed.

Lemma quiet_nil (summary : JobSummary.t) (w : World) :
  BashRunner.quiet host r jobEnv absWorkdir startTime [] summary w.
Proof. intros [| s0 before] s after Heq; discriminate. Qed.

(** A loop that meets no failure and no timeout leaves the flag, the count
    of the failed steps and the errors of the summary as they were. *)
Lemma quiet_runSteps (steps : list Step.t) :
  forall (summary : JobSummary.t) (w : World),
    BashRunner.quiet host r jobEnv absWorkdir startTime steps summary w ->
    let s := fst (BashRunner.runSteps host r jobEnv absWorkdir startTime steps summary w) in
    JobSummary.Success s = JobSummary.Success summary
    /\ JobSummary.FailedSteps s = JobSummary.FailedSteps summary
    /\ JobSummary.Errors s = JobSummary.Errors summary.
Proof.
  induction steps as [| step steps IH]; intros summary w Hq; cbv zeta.
  - cbn. repeat split.
  - apply quiet_cons in Hq. destruct Hq as (Hout & Hrun & Hq).
    cbn [BashRunner.runSteps]. rewrite bind_unfold. cbn [timeNow fst snd]. rewrite Hout.
    destruct (BashRunner.shouldRunStep step jobEnv); cbn [negb].
    + rewrite bind_unfold.
      destruct (BashRunner.RunStep host r step jobEnv absWorkdir w) as [res w1] eqn:E.
      cbn [fst snd] in *. rewrite (Hrun eq_refl).
      apply (IH _ _ Hq).
    + apply (IH _ _ Hq).
Qed.

End Loop.

(** ** Steps without a directive *)

(** C9, as stated, fails: the one step of the job has neither [run] nor
    [uses], and its guard is [failure()]; [RunJob] counts it as skipped,
    not as completed. *)
Lemma guarded_empty_step_is_skipped :
  Step.Run Samples.skippedEmptyStep = ""
  /\ Step.Uses Samples.skippedEmptyStep = ""
  /\ fst (fst (BashRunner.runJobSummary Samples.quickHost
                 (BashRunner.NewBashRunner (Samples.config 30))
                 (Samples.jobOf "build" [Samples.skippedEmptyStep] [])
                 "." Samples.world0))
     = inr (JobSummary.mk "build" 1 0 0 1 0 true []).
Proof. vm_compute. repeat split. Qed.

(** A step without directive that the loop comes to after the job timeout
    is not counted at all. *)
Example late_empty_step_is_not_counted :
  fst (fst (BashRunner.runJobSummary Samples.slowHost
              (BashRunner.NewBashRunner (Samples.config 1))
              (Samples.jobOf "build" [Samples.runStep "true" false; Samples.emptyStep] [])
              "." Samples.world0))
  = inr (JobSummary.mk "build" 2 1 0 0 120000000000 false
           ["Job timeout exceeded (1 minutes)"]).
Proof. vm_compute. reflexivity. Qed.

(** C9 (amended): for a step whose [Run] and [Uses] are both empty,
    [RunStep] of the process backend returns nil and leaves the world as it
    was (no process, no sleep), whatever the runner, the environment and
    the directory.  When the loop of [RunJob] comes to such a step of the
    job, what [RunJob] returns is the outcome of the loop that, if the job
    has timed out, ends the job there; that otherwise counts the step as
    completed, or as skipped when its guard says so, and goes on with the
    steps after it in the same world.  Counting the step as completed adds
    one to the completed steps and leaves the failed steps and the flag of
    the job as they are: the step is never counted as failed and never
    fails the job. *)
Theorem RunStep_no_directive_is_success
    (host : Host) (r : BashRunner.t) (job : Job.t) (workdir absWorkdir : string)
    (w : World) (pre : list Step.t) (step : Step.t) (rest : list Step.t) :
  let r' := BashRunner.loopRunner host r job absWorkdir w in
  let jobEnv := BashRunner.jobEnvironment host r job in
  let before := BashRunner.atStep host r job absWorkdir w pre in
  let loop := BashRunner.runSteps host r' jobEnv absWorkdir (clock w) in
  Abs host workdir = inr absWorkdir ->
  statIsNotExist host absWorkdir = false ->
  Job.Steps job = pre ++ step :: rest ->
  Step.Run step = "" ->
  Step.Uses step = "" ->
  JobSummary.Success (fst before) = true ->
  (forall (r0 : BashRunner.t) (env : gmap string string) (dir : string) (w0 : World),
      BashRunner.RunStep host r0 step env dir w0 = (None, w0))
  /\ BashRunner.runJobSummary host r job workdir w
     = BashRunner.jobOutcome host r job absWorkdir w
         (if BashRunner.jobTimedOut r' (clock w) (clock (snd before))
          then (JobSummaryOps.failJob (fst before)
                  ("Job timeout exceeded ("
                   +:+ itoa (RunnerConfig.Timeout (BashRunner.config r')) +:+ " minutes)"),
                snd before)
          else if BashRunner.shouldRunStep step jobEnv
          then loop rest (JobSummaryOps.completeStep (fst before)) (snd before)
          else loop rest (JobSummaryOps.skipStep (fst before)) (snd before))
  /\ JobSummary.CompletedSteps (JobSummaryOps.completeStep (fst before))
     = JobSummary.CompletedSteps (fst before) + 1
  /\ JobSummary.FailedSteps (JobSummaryOps.completeStep (fst before))
     = JobSummary.FailedSteps (fst before)
  /\ JobSummary.Success (JobSummaryOps.completeStep (fst before)) = true.
Proof.
  intros r' jobEnv before loop Habs Hstat Hsteps Hrun Huses Hbefore.
  assert (Hstep : forall r0 env dir w0,
             BashRunner.RunStep host r0 step env dir w0 = (None, w0)).
  { intros r0 env dir w0. unfold BashRunner.RunStep. rewrite Huses, Hrun. reflexivity. }
  split; [exact Hstep |]. split; [| split; [reflexivity | split; [reflexivity | exact Hbefore]]].
  rewrite (runJobSummary_loop host r job workdir absWorkdir w Habs Hstat).
  f_equal. subst loop before r' jobEnv. unfold BashRunner.atStep in *. rewrite Hsteps.
  rewrite runSteps_at; [| reflexivity | exact Hbefore].
  set (before := BashRunner.runSteps _ _ _ _ _ pre _ _) in *.
  cbn [BashRunner.runSteps]. rewrite bind_unfold. cbn [timeNow fst snd].
  destruct (BashRunner.jobTimedOut _ (clock w) (clock (snd before))); [reflexivity |].
  destruct (BashRunner.shouldRunStep step _); cbn [negb]; [| reflexivity].
  rewrite bind_unfold, Hstep. reflexivity.
Qed.

(** A job whose second step has no directive: the step is completed, the
    job succeeds and nothing is run for the step. *)
Lemma RunStep_no_directive_is_success_witness :
  BashRunner.RunStep Samples.quickHost (BashRunner.NewBashRunner (Samples.config 30))
    Samples.emptyStep ∅ "." Samples.world0 = (None, Samples.world0)
  /\ fst (fst (BashRunner.runJobSummary Samples.quickHost
                 (BashRunner.NewBashRunner (Samples.config 30))
                 (Samples.jobOf "build" [Samples.runStep "true" false; Samples.emptyStep] [])
                 "." Samples.world0))
     = inr (JobSummary.mk "build" 2 2 0 0 0 true []).
Proof.
  destruct (RunStep_no_directive_is_success Samples.quickHost
              (BashRunner.NewBashRunner (Samples.config 30))
              (Samples.jobOf "build" [Samples.runStep "true" false; Samples.emptyStep] [])
              "." "." Samples.world0 [Samples.runStep "true" false] Samples.emptyStep []
              eq_refl eq_refl eq_refl eq_refl eq_refl eq_refl) as (H1 & H2 & _).
  split; [apply H1 |]. rewrite H2. vm_compute. reflexivity.
Defined.

(** ** What [RunJob] of the process backend returns *)

(** [RunJob] returns an error only for a working directory that cannot be
    resolved or does not exist; what the steps did has no part in it. *)
Lemma bash_RunJob_error_iff
    (host : Host) (r : BashRunner.t) (job : Job.t) (workdir : string) (w : World) :
  fst (fst (BashRunner.RunJob host r job workdir w)) = None
  <-> exists absWorkdir,
        Abs host workdir = inr absWorkdir /\ statIsNotExist host absWorkdir = false.
Proof.
  unfold BashRunner.RunJob, BashRunner.runJobSummary.
  rewrite !bind_unfold. cbn [timeNow fst snd].
  destruct (Abs host workdir) as [e | absWorkdir]; cbn.
  - split; [discriminate | intros (a & Ha & _); discriminate].
  - destruct (statIsNotExist host absWorkdir) eqn:Hstat; cbn.
    + split; [discriminate | intros (a & Ha & Hn); congruence].
    + split; [eauto | reflexivity].
Qed.

(** C1 at a failing input: the job [build] has the one step [run: false],
    which does not continue on error, and runs in an existing directory.
    The step fails and the summary of the job says so ([Success] is false,
    one failed step), yet [RunJob] returns nil, and the sequential scheduler
    reports one succeeded job, no failed one and no error. *)
Theorem bash_RunJob_nil_after_failed_step :
  fst (fst (BashRunner.runJobSummary Samples.quickHost
              (BashRunner.NewBashRunner (Samples.config 30))
              (Samples.jobOf "build" [Samples.runStep "false" false] [])
              "." Samples.world0))
  = inr (JobSummary.mk "build" 1 0 1 0 0 false
           ["Step 'false' failed: command failed: exit status 1"])
  /\ fst (fst (BashRunner.RunJob Samples.quickHost
                 (BashRunner.NewBashRunner (Samples.config 30))
                 (Samples.jobOf "build" [Samples.runStep "false" false] [])
                 "." Samples.world0))
     = None
  /\ fst (Handlers.runJobsSequential
            (Handlers.createRunner Samples.quickHost (Samples.daemonWith 0 false)
               (Samples.flags false false) (Samples.config 30))
            (Samples.flags false false)
            [("build", Samples.jobOf "build" [Samples.runStep "false" false] [])]
            "." Samples.world0)
     = Returned (Handlers.mkReport None 1 0 true).
Proof. vm_compute. repeat split. Qed.

(** ** The two schedulers *)

(** C2 at a failing input: the run has the flag continue-on-error, the
    container backend is selected and the one job [build] fails (its
    container exits with status 1).  Both schedulers count no success and
    one failure; the sequential one returns nil, the parallel one returns
    the error [1 job(s) failed]. *)
Theorem schedulers_differ_under_continue_on_error :
  fst (Handlers.runJobsSequential
         (Handlers.createRunner Samples.quickHost (Samples.daemonWith 1 false)
            (Samples.flags true true) (Samples.config 30))
         (Samples.flags true true)
         [("build", Samples.jobOf "build" [Samples.runStep "false" false] [])]
         "." Samples.world0)
  = Returned (Handlers.mkReport None 0 1 true)
  /\ fst (Handlers.runJobsParallel
            (Handlers.createRunner Samples.quickHost (Samples.daemonWith 1 false)
               (Samples.flags true true) (Samples.config 30))
            (Samples.flags true true)
            [("build", Samples.jobOf "build" [Samples.runStep "false" false] [])]
            "." Samples.world0)
     = Returned (Handlers.mkReport (Some (errorsNew "1 job(s) failed")) 0 1 true).
Proof. vm_compute. split; reflexivity. Qed.

Section Verdicts.

(** What the loop that drains the channel computes: the counts go up, and
    an error is remembered only when continuation was not requested. *)
Lemma collectResults_spec (continueOnError : bool) (results : list Handlers.jobResult) :
  forall (successCount failureCount : Z) (firstError : option error),
    exists (successCount' failureCount' : Z) (firstError' : option error),
      Handlers.collectResults continueOnError results successCount failureCount firstError
      = (successCount', failureCount', firstError')
      /\ successCount <= successCount'
      /\ failureCount <= failureCount'
      /\ (Forall (fun res => Handlers.err res = None) results ->
          failureCount' = failureCount /\ firstError' = firstError)
      /\ (~ Forall (fun res => Handlers.err res = None) results ->
          failureCount < failureCount'
          /\ (continueOnError = false -> firstError' <> None)).
Proof.
  induction results as [| res results IH]; intros sc fc fe.
  - exists sc, fc, fe. cbn [Handlers.collectResults].
    split; [reflexivity |]. split; [lia |]. split; [lia |]. split; [now intros _ |].
    intros Hnot. destruct Hnot. constructor.
  - cbn [Handlers.collectResults]. destruct (Handlers.err res) as [e |] eqn:He.
    + set (fe1 := match fe with None => _ | Some _ => fe end).
      destruct (IH sc (fc + 1) fe1) as (sc' & fc' & fe' & Heq & Hsc & Hfc & Hok & Hko).
      exists sc', fc', fe'. split; [exact Heq |]. split; [lia |]. split; [lia |]. split.
      * intros Hall. apply Forall_cons in Hall as [Hres _]. congruence.
      * intros _. split; [lia |]. intros ->.
        assert (Hfe1 : fe1 <> None) by (subst fe1; now destruct fe).
        destruct (decide (Forall (fun res => Handlers.err res = None) results)) as [Hall | Hnot].
        -- destruct (Hok Hall) as [_ ->]. exact Hfe1.
        -- now apply Hko.
    + destruct (IH (sc + 1) fc fe) as (sc' & fc' & fe' & Heq & Hsc & Hfc & Hok & Hko).
      exists sc', fc', fe'. split; [exact Heq |]. split; [lia |]. split; [lia |]. split.
      * intros Hall. apply Forall_cons in Hall as [_ Hall]. now apply Hok.
      * intros Hnot. apply Hko. intros Hall. apply Hnot. now constructor.
Qed.

(** The parallel scheduler returns nil only when no job failed, whether
    continuation was requested or not. *)
Lemma parallelVerdict_nil_iff (continueOnError : bool) (results : list Handlers.jobResult) :
  Handlers.returned (Handlers.parallelVerdict continueOnError results) = None
  <-> Forall (fun res => Handlers.err res = None) results.
Proof.
  unfold Handlers.parallelVerdict.
  destruct (collectResults_spec continueOnError results 0 0 None)
    as (sc & fc & fe & -> & _ & _ & Hok & Hko).
  destruct (decide (Forall (fun res => Handlers.err res = None) results)) as [Hall | Hnot].
  - destruct (Hok Hall) as [-> ->]. destruct (negb continueOnError); cbn; tauto.
  - destruct (Hko Hnot) as [Hfc Hfe]. split; [| tauto].
    destruct continueOnError; cbn [negb].
    + replace (0 <? fc) with true by (symmetry; now apply Z.ltb_lt). discriminate.
    + destruct fe as [e |]; [discriminate |]. now destruct Hfe.
Qed.

Variable newRunner : M (error + Runner.t).

(** When the loop of the sequential scheduler comes to its end, it has no
    error to return. *)
Lemma sequentialLoop_end (continueOnError : bool) (workdir : string)
    (jobs : list (string * Job.t)) :
  forall (successCount failureCount : Z) (w : World) (rep : Handlers.Report),
    fst (Handlers.sequentialLoop newRunner continueOnError workdir jobs
           successCount failureCount w) = Returned rep ->
    Handlers.printedCounts rep = true ->
    Handlers.returned rep = None /\ failureCount <= Handlers.failureCount rep.
Proof.
  induction jobs as [| [jobName job] jobs IH]; intros sc fc w rep.
  - cbn. intros [= <-] _. cbn. split; [reflexivity | lia].
  - cbn [Handlers.sequentialLoop]. rewrite bind_unfold.
    destruct (fst (newRunner w)) as [e | runner]; [intros [= <-]; discriminate |].
    rewrite bind_unfold.
    destruct (fst (Handlers.runAndCleanup runner _ workdir _)) as [[e |] |];
      [| apply IH | discriminate].
    destruct (negb continueOnError && negb (Job.AllowFailure _))%bool;
      [intros [= <-]; discriminate |].
    intros H1 H2. destruct (IH _ _ _ _ H1 H2) as [Hret Hfc]. split; [exact Hret | lia].
Qed.

(** With the flag continue-on-error, the sequential scheduler that prints
    its counts returns nil, whatever the jobs did. *)
Lemma runJobsSequential_continue (c : Flags.t) (jobs : list (string * Job.t))
    (workdir : string) (w : World) (rep : Handlers.Report) :
  Flags.continueOnError c = true ->
  fst (Handlers.runJobsSequential newRunner c jobs workdir w) = Returned rep ->
  Handlers.printedCounts rep = true ->
  Handlers.returned rep = None.
Proof.
  intros Hc. unfold Handlers.runJobsSequential. rewrite bind_unfold, Hc.
  destruct (fst (Handlers.sequentialLoop newRunner true workdir jobs 0 0 w))
    as [rep0 |] eqn:Hloop; [| discriminate].
  destruct (Handlers.printedCounts rep0) eqn:Hprinted.
  - rewrite andb_false_r. intros [= <-] _.
    now destruct (sequentialLoop_end true workdir jobs 0 0 w rep0 Hloop Hprinted).
  - intros [= <-]. congruence.
Qed.

End Verdicts.

(** ** The script of the container backend *)

Section Script.
Variable host : Host.

(** An iteration of the loop appends the lines of its step. *)
Lemma scriptSteps_cons (totalSteps : Z) (step : Step.t) (rest : list Step.t)
    (stepNum : Z) (commands : list string) :
  DockerRunner.scriptSteps host totalSteps (step :: rest) stepNum commands
  = DockerRunner.scriptSteps host totalSteps rest
      (DockerRunner.nextStepNum stepNum step)
      (commands ++ DockerRunner.stepLines host totalSteps stepNum step)%list.
Proof.
  cbn [DockerRunner.scriptSteps].
  unfold DockerRunner.stepLines, DockerRunner.nextStepNum.
  generalize (DockerRunner.stepBanner (stepNum + 1) totalSteps (Step.Name step)).
  generalize (map (fun kv : string * string =>
                     "export " +:+ fst kv +:+ "='" +:+ snd kv +:+ "'")
                  (rangeMap host (Step.Env step))).
  intros exports banner.
  destruct (negb (String.eqb (Step.Uses step) "")).
  - now rewrite <- !app_assoc.
  - destruct (String.eqb (Step.Run step) ""); [now rewrite app_nil_r |].
    destruct (negb (String.eqb (Step.WorkingDir step) ""));
      destruct (Step.ContinueOnErr step);
      rewrite <- ?app_assoc; cbn [app]; rewrite <- ?app_assoc; reflexivity.
Qed.

(** The loop only appends to the commands it is given. *)
Lemma scriptSteps_acc (totalSteps : Z) (steps : list Step.t) :
  forall (stepNum : Z) (commands : list string),
    DockerRunner.scriptSteps host totalSteps steps stepNum commands
    = (commands ++ DockerRunner.scriptSteps host totalSteps steps stepNum [])%list.
Proof.
  induction steps as [| step rest IH]; intros stepNum commands.
  - cbn [DockerRunner.scriptSteps]. now rewrite app_nil_r.
  - rewrite !scriptSteps_cons. rewrite IH. rewrite (IH _ ([] ++ _)%list).
    cbn [app]. now rewrite app_assoc.
Qed.

(** For a shell-command step that continues on error, the script has the
    command of the step on one line and [|| true] on the next. *)
Lemma suffix_on_a_line_of_its_own (r : DockerRunner.t) (job : Job.t) (step : Step.t) :
  In step (Job.Steps job) ->
  Step.Uses step = "" ->
  Step.Run step <> "" ->
  Step.ContinueOnErr step = true ->
  exists before after,
    DockerRunner.jobScriptLines host r job
    = (before ++ [Step.Run step; "|| true"] ++ after)%list.
Proof.
  intros Hin Huses Hrun Hcont. unfold DockerRunner.jobScriptLines.
  generalize (Z.of_nat (length (Job.Steps job))) as totalSteps.
  intros totalSteps.
  set (header := (_ ++ [""; "echo 'Setting up environment...'"; ""])%list).
  generalize header 0. clear header.
  induction (Job.Steps job) as [| s rest IH]; intros header stepNum; [destruct Hin |].
  rewrite scriptSteps_cons.
  destruct Hin as [-> | Hin]; [| apply (IH Hin)].
  rewrite scriptSteps_acc. unfold DockerRunner.stepLines.
  rewrite Huses, Hcont. cbn [String.eqb negb].
  destruct (String.eqb_spec (Step.Run step) "") as [E | _]; [contradiction |].
  match goal with
  | |- exists _ _, (((?h ++ ?b ++ ?c ++ ?e ++ _ ++ _ ++ ?d ++ ?x) ++ ?t) ++ ?tr)%list = _ =>
      exists (h ++ b ++ c ++ e)%list, (d ++ x ++ t ++ tr)%list
  end.
  rewrite <- !app_assoc. reflexivity.
Qed.

End Script.

(** C4 at a failing input: the job has the step [run: false] with
    continue-on-error and then the step [run: echo second].  In the
    generated script the suffix [|| true] stands on a line of its own after
    the command [false]; so under [set -e] the shell exits with status 1 at
    [false], and had the command succeeded the shell would exit with status
    2 at the stray [||].  In both cases the second step is not run and the
    container exits non-zero. *)
Theorem continue_on_error_suffix_does_not_guard :
  Contains
    (DockerRunner.buildJobScript Samples.quickHost
       (DockerRunner.mk (Samples.config 30) [])
       (Samples.jobOf "build"
          [Samples.runStep "false" true; Samples.runStep "echo second" false] []))
    ("false" +:+ nl +:+ "|| true" +:+ nl +:+ "echo 'Step completed'" +:+ nl) = true
  /\ Sh.sh_c (fun c => if String.eqb c "false" then 1 else 0)
       (DockerRunner.buildJobScript Samples.quickHost
          (DockerRunner.mk (Samples.config 30) [])
          (Samples.jobOf "build"
             [Samples.runStep "false" true; Samples.runStep "echo second" false] []))
     = Sh.mkRun 1
         ["set -e"; "echo 'Setting up environment...'"; "echo ''";
          "echo '[1/2] false'"; "echo '" +:+ Repeat "-" 60 +:+ "'"; "false"]
  /\ Sh.sh_c (fun c => if String.eqb c "false" then 1 else 0)
       (DockerRunner.buildJobScript Samples.quickHost
          (DockerRunner.mk (Samples.config 30) [])
          (Samples.jobOf "build"
             [Samples.runStep "true" true; Samples.runStep "echo second" false] []))
     = Sh.mkRun 2
         ["set -e"; "echo 'Setting up environment...'"; "echo ''";
          "echo '[1/2] true'"; "echo '" +:+ Repeat "-" 60 +:+ "'"; "true"].
Proof. vm_compute. repeat split. Qed.

(** ** Cleanup of the container backend *)

Section Cleanup.
Variable host : Host.
Variable daemon : Docker.Daemon.

Lemma sliceTo_Returned (s : string) (n : nat) (t : string) :
  sliceTo s n = Returned t -> (n <= String.length s)%nat.
Proof.
  unfold sliceTo. destruct (Nat.leb_spec n (String.length s)); [auto | discriminate].
Qed.

Lemma sliceTo_long (s : string) (n : nat) :
  (n <= String.length s)%nat -> sliceTo s n = Returned (String.substring 0 n s).
Proof.
  intros H. unfold sliceTo. destruct (Nat.leb_spec n (String.length s)); [reflexivity | lia].
Qed.

(** [NewDockerRunner] makes a runner that tracks no container. *)
Lemma NewDockerRunner_containers (cfg : RunnerConfig.t) (w w' : World) (r : DockerRunner.t) :
  DockerRunner.NewDockerRunner daemon cfg w = (inr r, w') ->
  DockerRunner.containers r = [].
Proof.
  unfold DockerRunner.NewDockerRunner.
  destruct (Docker.newClient daemon); [discriminate |].
  rewrite bind_unfold.
  destruct (fst (dockerCall Docker.Ping (Docker.ping daemon) w)) as [e |].
  - destruct (Contains (Error e) "permission denied"); [discriminate |].
    destruct (Contains (Error e) "cannot connect"); discriminate.
  - intros [= <- _]. reflexivity.
Qed.

(** [createContainer] returns an identifier only after it has taken its
    first twelve characters. *)
Lemma createContainer_long (r : DockerRunner.t) (job : Job.t) (imageName workdir : string)
    (w w' : World) (id : string) :
  DockerRunner.createContainer host daemon r job imageName workdir w
  = (Returned (inr id), w') ->
  (12 <= String.length id)%nat.
Proof.
  unfold DockerRunner.createContainer. rewrite !bind_unfold.
  cbn [timeNow fst snd].
  match goal with
  | |- context [fst (dockerCall ?c ?f ?w)] => destruct (fst (dockerCall c f w)) as [e | id']
  end; [discriminate |].
  destruct (sliceTo id' 12) eqn:Hslice; [| discriminate].
  intros [= <- _]. eapply sliceTo_Returned, Hslice.
Qed.

(** [RunJob] tracks at most one more container, of a long identifier. *)
Lemma RunJob_containers (r r' : DockerRunner.t) (job : Job.t) (workdir : string)
    (w w' : World) (res : Result (option error)) :
  DockerRunner.RunJob host daemon r job workdir w = (res, r', w') ->
  DockerRunner.containers r' = DockerRunner.containers r
  \/ exists id, (12 <= String.length id)%nat
                /\ DockerRunner.containers r' = (DockerRunner.containers r ++ [id])%list.
Proof.
  unfold DockerRunner.RunJob.
  destruct (RunnerConfig.DryRun (DockerRunner.config r)).
  { intros [= _ <- _]. now left. }
  rewrite bind_unfold.
  set (w1 := snd (DockerRunner.imageExists daemon _ w)).
  generalize (fst (DockerRunner.imageExists daemon (DockerRunner.getImageName job) w)).
  intros ex. rewrite bind_unfold.
  set (pull := if (_ || negb ex)%bool then _ else _).
  destruct (fst (pull w1)) as [e |].
  { intros [= _ <- _]. now left. }
  rewrite bind_unfold.
  destruct (DockerRunner.createContainer host daemon r job _ workdir (snd (pull w1)))
    as [[[e | id] |] w2] eqn:Hcreate; cbn [fst snd].
  - intros [= _ <- _]. now left.
  - apply createContainer_long in Hcreate.
    rewrite bind_unfold.
    match goal with
    | |- context [fst (dockerCall ?c ?f ?w)] => destruct (fst (dockerCall c f w))
    end.
    { intros [= _ <- _]. right. exists id. split; [exact Hcreate | reflexivity]. }
    rewrite !bind_unfold.
    match goal with
    | |- context [match fst ?x with Docker.WaitError _ => _ | _ => _ end] =>
        destruct (fst x) as [[e |] | code]
    end.
    + intros [= _ <- _]. right. exists id. split; [exact Hcreate | reflexivity].
    + intros [= _ <- _]. right. exists id. split; [exact Hcreate | reflexivity].
    + destruct (negb (code =? 0)).
      * rewrite bind_unfold. intros [= _ <- _]. right. exists id.
        split; [exact Hcreate | reflexivity].
      * intros [= _ <- _]. right. exists id. split; [exact Hcreate | reflexivity].
  - intros [= _ <- _]. now left.
Qed.

(** The loop of [Cleanup] runs to its end on long identifiers. *)
Lemma removeContainers_returns (ids : list string) :
  Forall (fun id => (12 <= String.length id)%nat) ids ->
  forall (errors : list string) (w : World),
    exists errors', fst (DockerRunner.removeContainers daemon ids errors w) = Returned errors'.
Proof.
  induction 1 as [| id ids Hid _ IH]; intros errors w.
  - exists errors. reflexivity.
  - cbn [DockerRunner.removeContainers]. rewrite (sliceTo_long _ _ Hid).
    rewrite !bind_unfold.
    match goal with
    | |- context [match fst ?x with Some _ => _ | None => _ end] => destruct (fst x)
    end; apply IH.
Qed.

(** [Cleanup] leaves the runner with no container, or as it was. *)
Lemma Cleanup_containers (r r' : DockerRunner.t) (w w' : World)
    (res : Result (option error)) :
  DockerRunner.Cleanup daemon r w = (res, r', w') ->
  DockerRunner.containers r' = [] \/ r' = r.
Proof.
  unfold DockerRunner.Cleanup.
  destruct (Nat.eqb (length (DockerRunner.containers r)) 0).
  { intros [= _ <- _]. now right. }
  rewrite bind_unfold.
  destruct (fst (DockerRunner.removeContainers daemon _ [] w)) as [errors |].
  - destruct (Nat.ltb 0 (length errors)); intros [= _ <- _]; now left.
  - intros [= _ <- _]. now right.
Qed.

(** The identifiers that a runner tracks are long. *)
Lemma reachable_longIds (r : DockerRunner.t) :
  reachable host daemon r -> longIds r.
Proof.
  induction 1 as [cfg w r w' Hnew | r job workdir w res r' w' _ IH Hrun
                  | r w res r' w' _ IH Hclean]; unfold longIds in *.
  - rewrite (NewDockerRunner_containers _ _ _ _ Hnew). constructor.
  - destruct (RunJob_containers _ _ _ _ _ _ _ Hrun) as [-> | (id & Hid & ->)];
      [exact IH |].
    apply Forall_app. split; [exact IH | repeat constructor; exact Hid].
  - destruct (Cleanup_containers _ _ _ _ _ Hclean) as [-> | ->]; [constructor | exact IH].
Qed.

(** C10: [Cleanup] of a container backend returns (possibly with an error
    that counts the removals that failed) and leaves the list of tracked
    containers empty, whatever the container daemon answers; a call of
    [Cleanup] right after it returns nil and makes no call to the daemon,
    so that the runner and the world stay as they are. *)
Theorem docker_Cleanup_resets_and_is_idempotent (r : DockerRunner.t) (w : World) :
  reachable host daemon r ->
  exists (res : option error) (r1 : DockerRunner.t) (w1 : World),
    DockerRunner.Cleanup daemon r w = (Returned res, r1, w1)
    /\ DockerRunner.containers r1 = []
    /\ DockerRunner.config r1 = DockerRunner.config r
    /\ DockerRunner.Cleanup daemon r1 w1 = (Returned None, r1, w1).
Proof.
  intros Hreach. apply reachable_longIds in Hreach. unfold longIds in Hreach.
  unfold DockerRunner.Cleanup at 1.
  destruct (DockerRunner.containers r) as [| id ids] eqn:Hids.
  - cbn [length Nat.eqb]. exists None, r, w. unfold DockerRunner.Cleanup.
    rewrite Hids. repeat split.
  - cbn [length Nat.eqb]. rewrite bind_unfold.
    destruct (removeContainers_returns _ Hreach [] w) as (errors & Herr).
    rewrite Herr.
    destruct (Nat.ltb 0 (length errors)); eexists _, _, _; repeat split.
Qed.

End Cleanup.

(** A runner that has run one job, on a daemon that fails to remove the
    container: the first [Cleanup] reports one error and resets the list,
    the second one does nothing. *)
Lemma docker_Cleanup_resets_and_is_idempotent_witness :
  exists (res : option error) (r1 : DockerRunner.t) (w1 : World),
    DockerRunner.Cleanup (Samples.daemonWith 1 true)
      (snd (fst Samples.afterRunJob)) (snd Samples.afterRunJob)
    = (Returned res, r1, w1)
    /\ DockerRunner.containers r1 = []
    /\ DockerRunner.config r1 = DockerRunner.config (snd (fst Samples.afterRunJob))
    /\ DockerRunner.Cleanup (Samples.daemonWith 1 true) r1 w1 = (Returned None, r1, w1).
Proof.
  apply (docker_Cleanup_resets_and_is_idempotent Samples.quickHost
           (Samples.daemonWith 1 true)).
  apply (reachable_RunJob Samples.quickHost (Samples.daemonWith 1 true)
           (DockerRunner.mk (Samples.config 30) [])
           (Samples.jobOf "build" [Samples.runStep "false" false] []) "."
           Samples.world0 (fst (fst Samples.afterRunJob)) _ (snd Samples.afterRunJob)).
  - apply (reachable_new _ _ (Samples.config 30) Samples.world0 _
             (snd (DockerRunner.NewDockerRunner (Samples.daemonWith 1 true)
                     (Samples.config 30) Samples.world0))).
    reflexivity.
  - reflexivity.
Defined.

(** ** The job-graph validator *)

Section Cycles.
Variable jobs : gmap string Job.t.

Lemma existsb_eqb_elem_of (x : string) (l : list string) :
  existsb (fun v => String.eqb v x) l = true <-> x ∈ l.
Proof.
  rewrite existsb_exists. split.
  - intros (v & Hv & E). apply String.eqb_eq in E. subst v.
    now apply list_elem_of_In.
  - intros H. exists x. split; [now apply list_elem_of_In | apply String.eqb_refl].
Qed.

Lemma needsEdge_spec (a b : string) :
  Handlers.needsEdge jobs a b = true
  <-> exists ja jb, jobs !! a = Some ja /\ b ∈ Job.Needs ja /\ jobs !! b = Some jb.
Proof.
  unfold Handlers.needsEdge. destruct (jobs !! a) as [ja |].
  - rewrite andb_true_iff, existsb_exists. split.
    + intros ((v & Hv & E) & Hb). apply String.eqb_eq in E. subst v.
      destruct (jobs !! b) as [jb |]; [| discriminate].
      exists ja, jb. repeat split. now apply list_elem_of_In.
    + intros (ja' & jb & [= <-] & Hin & ->). split; [| reflexivity].
      exists b. split; [now apply list_elem_of_In | apply String.eqb_refl].
  - split; [discriminate | intros (? & ? & [=] & _)].
Qed.

(** A chain can be extended at its end by an edge. *)
Lemma isChain_snoc (l : list string) (a b : string) :
  Handlers.isChain jobs (l ++ [a]) = true ->
  Handlers.needsEdge jobs a b = true ->
  Handlers.isChain jobs ((l ++ [a]) ++ [b]) = true.
Proof.
  intros Hchain Hedge. induction l as [| x l IH].
  - cbn. now rewrite Hedge.
  - cbn [app] in *. destruct (l ++ [a]) as [| y t] eqn:E.
    + destruct l; discriminate.
    + cbn [app Handlers.isChain] in *. apply andb_true_iff in Hchain as [H1 H2].
      rewrite H1. cbn [andb]. apply IH. exact H2.
Qed.

Lemma NoDup_snoc (l : list string) (x : string) :
  NoDup l -> x ∉ l -> NoDup (l ++ [x]).
Proof.
  intros Hnd Hx. apply NoDup_app. split; [exact Hnd |]. split.
  - intros y Hy Hy'. apply list_elem_of_singleton in Hy'. now subst.
  - apply NoDup_singleton.
Qed.

(** A path without repetition among the jobs is no longer than there are
    jobs. *)
Lemma visited_bound (visited : list string) :
  NoDup visited ->
  (forall v, v ∈ visited -> is_Some (jobs !! v)) ->
  (length visited <= size jobs)%nat.
Proof.
  intros Hnd Hin. rewrite <- (size_dom (D := gset string)).
  apply submseteq_length, NoDup_submseteq; [exact Hnd |].
  intros x Hx. apply elem_of_elements, elem_of_dom, Hin, Hx.
Qed.

Lemma needsLoop_total (check : string -> Job.t -> option (option error))
    (needs : list string) :
  (forall need dj, need ∈ needs -> jobs !! need = Some dj -> check need dj <> None) ->
  Handlers.needsLoop check jobs needs <> None.
Proof.
  induction needs as [| need rest IH]; intros Hcheck; [discriminate |].
  cbn [Handlers.needsLoop]. destruct (jobs !! need) as [dj |] eqn:Hdj.
  - pose proof (Hcheck need dj (list_elem_of_here _ _) Hdj) as Hn.
    destruct (check need dj) as [[e |] |]; [discriminate | | contradiction].
    apply IH. intros n d Hin. apply Hcheck. now apply list_elem_of_further.
  - apply IH. intros n d Hin. apply Hcheck. now apply list_elem_of_further.
Qed.

Lemma needsLoop_error (check : string -> Job.t -> option (option error))
    (needs : list string) (err : error) :
  Handlers.needsLoop check jobs needs = Some (Some err) ->
  exists need dj, need ∈ needs /\ jobs !! need = Some dj
                  /\ check need dj = Some (Some err).
Proof.
  induction needs as [| need rest IH]; [discriminate |].
  cbn [Handlers.needsLoop]. destruct (jobs !! need) as [dj |] eqn:Hdj.
  - destruct (check need dj) as [[e |] |] eqn:Hc.
    + intros [= ->]. exists need, dj.
      repeat split; [apply list_elem_of_here | exact Hdj | exact Hc].
    + intros H. destruct (IH H) as (n & d & Hin & Hd & Hcd).
      exists n, d. repeat split; [now apply list_elem_of_further | exact Hd | exact Hcd].
    + discriminate.
  - intros H. destruct (IH H) as (n & d & Hin & Hd & Hcd).
    exists n, d. repeat split; [now apply list_elem_of_further | exact Hd | exact Hcd].
Qed.

Lemma needsLoop_nil (check : string -> Job.t -> option (option error))
    (needs : list string) :
  Handlers.needsLoop check jobs needs = Some None ->
  forall need dj, need ∈ needs -> jobs !! need = Some dj -> check need dj = Some None.
Proof.
  induction needs as [| need rest IH]; intros Hloop n d Hin Hd.
  - now apply elem_of_nil in Hin.
  - cbn [Handlers.needsLoop] in Hloop. apply elem_of_cons in Hin.
    destruct (jobs !! need) as [dj |] eqn:Hdj.
    + destruct (check need dj) as [[e |] |] eqn:Hc; try discriminate.
      destruct Hin as [-> | Hin]; [congruence | now apply IH].
    + destruct Hin as [-> | Hin]; [congruence | now apply IH].
Qed.

(** The traversal ends: with the fuel that [validatePipeline] gives it, the
    check returns. *)
Lemma checkCircularDependencies_total (fuel : nat) :
  forall (jobName : string) (job : Job.t) (visited : list string),
    jobs !! jobName = Some job ->
    NoDup visited ->
    (forall v, v ∈ visited -> is_Some (jobs !! v)) ->
    (size jobs < fuel + length visited)%nat ->
    Handlers.checkCircularDependencies fuel jobName job jobs visited <> None.
Proof.
  induction fuel as [| fuel IH]; intros jobName job visited Hjob Hnd Hin Hfuel.
  - pose proof (visited_bound visited Hnd Hin). lia.
  - cbn [Handlers.checkCircularDependencies].
    destruct (existsb _ visited) eqn:Hvis; [discriminate |].
    assert (Hnotin : jobName ∉ visited).
    { intros H. apply existsb_eqb_elem_of in H. congruence. }
    apply needsLoop_total. intros need dj _ Hdj. apply IH.
    + exact Hdj.
    + now apply NoDup_snoc.
    + intros v Hv. apply elem_of_app in Hv as [Hv | Hv]; [now apply Hin |].
      apply list_elem_of_singleton in Hv. subst v. eauto.
    + rewrite length_app. cbn [length]. lia.
Qed.

(** The error of the check names a chain that extends the path it was given
    and closes on a job of the chain. *)
Lemma checkCircularDependencies_error (fuel : nat) :
  forall (jobName : string) (job : Job.t) (visited : list string) (err : error),
    jobs !! jobName = Some job ->
    Handlers.isChain jobs (visited ++ [jobName]) = true ->
    NoDup visited ->
    Handlers.checkCircularDependencies fuel jobName job jobs visited = Some (Some err) ->
    exists (ext : list string) (x : string),
      Error err = "circular dependency detected: "
                  +:+ Join ((visited ++ ext) ++ [x]) " -> "
      /\ Handlers.isChain jobs ((visited ++ ext) ++ [x]) = true
      /\ NoDup (visited ++ ext)
      /\ x ∈ visited ++ ext
      /\ (visited = [] -> exists ext', ext = jobName :: ext').
Proof.
  induction fuel as [| fuel IH]; intros jobName job visited err Hjob Hchain Hnd;
    [discriminate |].
  cbn [Handlers.checkCircularDependencies].
  destruct (existsb _ visited) eqn:Hvis.
  - intros [= <-]. exists [], jobName. rewrite app_nil_r.
    repeat split; [exact Hchain | exact Hnd | now apply existsb_eqb_elem_of |].
    intros ->. discriminate.
  - intros Hloop.
    assert (Hnotin : jobName ∉ visited).
    { intros H. apply existsb_eqb_elem_of in H. congruence. }
    apply needsLoop_error in Hloop as (need & dj & Hneed & Hdj & Hcheck).
    apply IH in Hcheck as (ext & x & Hmsg & Hch & Hnd' & Hx & _).
    + exists (jobName :: ext), x.
      replace ((visited ++ [jobName]) ++ ext) with (visited ++ jobName :: ext)
        in Hmsg, Hch, Hnd', Hx by (now rewrite <- app_assoc).
      repeat split; try assumption. intros _. now exists ext.
    + exact Hdj.
    + apply isChain_snoc; [exact Hchain |].
      apply needsEdge_spec. exists job, dj. repeat split; assumption.
    + now apply NoDup_snoc.
Qed.

(** When the check returns nil, no chain that starts at the job comes back
    to a job it has passed or to a job of the path. *)
Lemma checkCircularDependencies_nil (fuel : nat) :
  forall (jobName : string) (job : Job.t) (visited walk : list string),
    jobs !! jobName = Some job ->
    Handlers.checkCircularDependencies fuel jobName job jobs visited = Some None ->
    Handlers.isChain jobs (jobName :: walk) = true ->
    NoDup (jobName :: walk) /\ (forall v, v ∈ jobName :: walk -> v ∉ visited).
Proof.
  induction fuel as [| fuel IH]; intros jobName job visited walk Hjob; [discriminate |].
  cbn [Handlers.checkCircularDependencies].
  destruct (existsb _ visited) eqn:Hvis; [discriminate |].
  assert (Hnotin : jobName ∉ visited).
  { intros H. apply existsb_eqb_elem_of in H. congruence. }
  intros Hloop Hchain. destruct walk as [| b walk].
  - split; [apply NoDup_singleton |].
    intros v Hv. apply list_elem_of_singleton in Hv. now subst.
  - cbn [Handlers.isChain] in Hchain. apply andb_true_iff in Hchain as [Hedge Hchain].
    apply needsEdge_spec in Hedge as (ja & jb & Hja & Hb & Hjb).
    assert (ja = job) as -> by congruence.
    pose proof (needsLoop_nil _ _ Hloop b jb Hb Hjb) as Hcheck.
    destruct (IH b jb _ walk Hjb Hcheck Hchain) as [Hnd Hfresh].
    split.
    + apply NoDup_cons. split; [| exact Hnd]. intros Hin. apply (Hfresh _ Hin).
      apply elem_of_app. right. now apply list_elem_of_singleton.
    + intros v Hv. apply elem_of_cons in Hv as [-> | Hv]; [exact Hnotin |].
      intros Hvis'. apply (Hfresh _ Hv). apply elem_of_app. now left.
Qed.

(** A chain that comes back to its first job repeats a job. *)
Lemma closed_chain_repeats (a : string) (mid : list string) :
  ~ NoDup (a :: mid ++ [a]).
Proof.
  intros H. apply NoDup_cons in H as [H _]. apply H, elem_of_app. right.
  now apply list_elem_of_singleton.
Qed.

(** From a job on a cycle, the check returns an error. *)
Lemma checkCircularDependencies_finds (a : string) (ja : Job.t) (mid : list string) :
  jobs !! a = Some ja ->
  Handlers.isChain jobs (a :: mid ++ [a]) = true ->
  exists err,
    Handlers.checkCircularDependencies (S (size jobs)) a ja jobs [] = Some (Some err).
Proof.
  intros Hja Hchain.
  destruct (Handlers.checkCircularDependencies (S (size jobs)) a ja jobs [])
    as [[err |] |] eqn:Hcheck.
  - now exists err.
  - destruct (checkCircularDependencies_nil _ _ _ _ _ Hja Hcheck Hchain) as [Hnd _].
    now apply closed_chain_repeats in Hnd.
  - exfalso. revert Hcheck. apply checkCircularDependencies_total.
    + exact Hja.
    + constructor.
    + intros v Hv. now apply elem_of_nil in Hv.
    + cbn [length]. lia.
Qed.

End Cycles.

Section Validate.
Variable host : Host.

(** The errors of a job are among the errors of the pipeline. *)
Lemma validatePipeline_job (pipeline : Pipeline.t) (strict : bool)
    (jobName : string) (job : Job.t) (msg : string) :
  Pipeline.Jobs pipeline !! jobName = Some job ->
  In msg (Handlers.validateJob host pipeline strict jobName job) ->
  In msg (Handlers.validatePipeline host (Some pipeline) strict).
Proof.
  intros Hjob Hmsg. unfold Handlers.validatePipeline.
  apply in_app_iff. right. apply in_app_iff. right.
  apply in_concat. exists (Handlers.validateJob host pipeline strict jobName job).
  split; [| exact Hmsg].
  apply in_map_iff. exists (jobName, job). split; [reflexivity |].
  apply list_elem_of_In. rewrite (rangeMap_perm host).
  now apply elem_of_map_to_list.
Qed.

(** The error of the cycle check of a job is among the errors of the job. *)
Lemma validateJob_cycle (pipeline : Pipeline.t) (strict : bool)
    (jobName : string) (job : Job.t) (err : error) :
  Handlers.checkCircularDependencies (S (size (Pipeline.Jobs pipeline))) jobName job
    (Pipeline.Jobs pipeline) [] = Some (Some err) ->
  In (Error err) (Handlers.validateJob host pipeline strict jobName job).
Proof.
  intros Hcheck. unfold Handlers.validateJob. rewrite Hcheck.
  apply in_app_iff. right. apply in_app_iff. right. apply in_app_iff. right.
  apply in_app_iff. left. now left.
Qed.

(** C7: when the [needs] relation of a pipeline has a cycle (a chain of
    jobs, each needing the next, that comes back to its first job [a]),
    the traversal from [a], which carries the path from [a], ends, and the
    list that [validatePipeline] returns has the error of that traversal:
    its message is [circular dependency detected: ] followed by the names,
    joined by [ -> ], of a chain of [needs] that starts at [a], passes no
    job twice and then ends with a job [x] it has passed: the cycle from [x]
    to [x] in the order of the traversal, after the path from [a] to [x]. *)
Theorem validatePipeline_reports_cycle (pipeline : Pipeline.t) (strict : bool)
    (a : string) (mid : list string) :
  Handlers.isChain (Pipeline.Jobs pipeline) (a :: mid ++ [a]) = true ->
  exists (pre : list string) (x : string) (cycle : list string),
    In ("circular dependency detected: " +:+ Join (pre ++ x :: cycle ++ [x]) " -> ")
       (Handlers.validatePipeline host (Some pipeline) strict)
    /\ Handlers.isChain (Pipeline.Jobs pipeline) (pre ++ x :: cycle ++ [x]) = true
    /\ NoDup (pre ++ x :: cycle)
    /\ hd_error (pre ++ x :: cycle) = Some a.
Proof.
  intros Hchain. set (jobs := Pipeline.Jobs pipeline) in *.
  assert (Hja : exists ja, jobs !! a = Some ja).
  { destruct (mid ++ [a]) as [| b t] eqn:E; [destruct mid; discriminate |].
    cbn [Handlers.isChain] in Hchain. apply andb_true_iff in Hchain as [Hedge _].
    apply needsEdge_spec in Hedge as (ja & _ & Hja & _). now exists ja. }
  destruct Hja as (ja & Hja).
  destruct (checkCircularDependencies_finds jobs a ja mid Hja Hchain) as (err & Hcheck).
  destruct (checkCircularDependencies_error jobs _ a ja [] err Hja eq_refl
              NoDup_nil_2 Hcheck) as (ext & x & Hmsg & Hch & Hnd & Hx & Hhd).
  cbn [app] in Hmsg, Hch, Hnd, Hx.
  destruct (Hhd eq_refl) as (ext' & Hext).
  apply list_elem_of_split in Hx as (pre & cycle & Hsplit).
  exists pre, x, cycle.
  replace (pre ++ x :: cycle ++ [x]) with (ext ++ [x])
    by (rewrite Hsplit, <- app_assoc; reflexivity).
  rewrite <- Hsplit. repeat split.
  - rewrite <- Hmsg. eapply validatePipeline_job; [exact Hja |].
    now apply validateJob_cycle.
  - exact Hch.
  - exact Hnd.
  - rewrite Hext. reflexivity.
Qed.

End Validate.

(** The pipeline in which [b] and [c] need each other: the three
    traversals report the cycle, the one from [a] after the path to it. *)
Example validatePipeline_cyclicPipeline :
  Handlers.validatePipeline Samples.quickHost (Some Samples.cyclicPipeline) false
  = ["circular dependency detected: c -> b -> c";
     "circular dependency detected: a -> b -> c -> b";
     "circular dependency detected: b -> c -> b"].
Proof. vm_compute. reflexivity. Qed.

Lemma validatePipeline_reports_cycle_witness :
  exists (pre : list string) (x : string) (cycle : list string),
    In ("circular dependency detected: " +:+ Join (pre ++ x :: cycle ++ [x]) " -> ")
       (Handlers.validatePipeline Samples.quickHost (Some Samples.cyclicPipeline) true)
    /\ Handlers.isChain (Pipeline.Jobs Samples.cyclicPipeline)
         (pre ++ x :: cycle ++ [x]) = true
    /\ NoDup (pre ++ x :: cycle)
    /\ hd_error (pre ++ x :: cycle) = Some "b".
Proof.
  apply (validatePipeline_reports_cycle Samples.quickHost Samples.cyclicPipeline
           true "b" ["c"]).
  vm_compute. reflexivity.
Defined.
(** ** Retries *)

Section Retry.
Variable host : Host.
Variable r : BashRunner.t.

Lemma executeCommand_world (cmd : Cmd.t) (stepName : string) (w : World) :
  fst (BashRunner.executeCommand host r cmd stepName w)
  = BashRunner.executeResult r (fst (runProcess host (calls w) cmd))
  /\ events (snd (BashRunner.executeCommand host r cmd stepName w))
     = events w ++ [EvSpawn cmd]
  /\ calls (snd (BashRunner.executeCommand host r cmd stepName w)) = S (calls w).
Proof. repeat split. Qed.

Variable cmd : Cmd.t.
Variable step : Step.t.
Variable policy : RetryPolicy.t.
Variable maxAttempts : Z.

(** The loop: it makes [k] tries, at most [n]; all but the last one fail;
    it returns nil when the last one succeeds, and after [n] failures the
    error of the last one, wrapped. *)
Lemma retryLoop_log (n : nat) :
  forall (attempt : Z) (lastErr : option error) (w : World),
    1 <= attempt ->
    exists k : nat,
      (k <= n)%nat
      /\ events (snd (BashRunner.retryLoop host r cmd step policy maxAttempts n
                        attempt lastErr w))
         = events w ++ triesLog (BashRunner.cloneCommand host cmd)
                          (pauseLog host policy) (negb (1 <? attempt)) k
      /\ (forall i, (S i < k)%nat ->
            BashRunner.executeResult r
              (fst (runProcess host (calls w + i) (BashRunner.cloneCommand host cmd)))
            <> None)
      /\ match fst (BashRunner.retryLoop host r cmd step policy maxAttempts n
                      attempt lastErr w) with
         | None =>
             exists j, k = S j
               /\ BashRunner.executeResult r
                    (fst (runProcess host (calls w + j) (BashRunner.cloneCommand host cmd)))
                  = None
         | Some e =>
             k = n
             /\ e = BashRunner.retryError maxAttempts
                      (match k with
                       | O => lastErr
                       | S j => BashRunner.executeResult r
                                  (fst (runProcess host (calls w + j)
                                          (BashRunner.cloneCommand host cmd)))
                       end)
             /\ (forall j, k = S j ->
                   BashRunner.executeResult r
                     (fst (runProcess host (calls w + j)
                             (BashRunner.cloneCommand host cmd)))
                   <> None)
         end.
Proof.
  induction n as [| n IH]; intros attempt lastErr w Hattempt.
  - exists O. cbn. rewrite app_nil_r.
    split; [lia |]. split; [reflexivity |]. split; [intros i Hi; lia |].
    split; [reflexivity |]. split; [reflexivity | intros j Hj; discriminate].
  - cbn [BashRunner.retryLoop]. rewrite bind_unfold.
    set (pauseM := if 1 <? attempt then _ else _).
    assert (Hpause : events (snd (pauseM w))
                     = events w ++ (if negb (1 <? attempt) then [] else pauseLog host policy)
                     /\ calls (snd (pauseM w)) = calls w).
    { subst pauseM. unfold pauseLog. destruct (1 <? attempt); cbn [negb].
      - destruct (String.eqb (RetryPolicy.Delay policy) "");
          [cbn; now rewrite app_nil_r |].
        destruct (ParseDuration host (RetryPolicy.Delay policy));
          cbn; [auto | now rewrite app_nil_r].
      - cbn. now rewrite app_nil_r. }
    destruct Hpause as [Hev Hcalls].
    set (w1 := snd (pauseM w)) in *. rewrite bind_unfold.
    destruct (executeCommand_world (BashRunner.cloneCommand host cmd) (Step.Name step) w1)
      as (Hres & Hev2 & Hcalls2).
    set (w2 := snd (BashRunner.executeCommand host r _ (Step.Name step) w1)) in *.
    rewrite Hres, Hcalls.
    destruct (BashRunner.executeResult r
                (fst (runProcess host (calls w) (BashRunner.cloneCommand host cmd))))
      as [e |] eqn:Hout.
    + destruct (IH (attempt + 1) (Some e) w2 ltac:(lia)) as (k & Hk & Hlog & Hfail & Hfin).
      exists (S k). split; [lia |]. split; [| split].
      * rewrite Hlog, Hev2, Hev. cbn [triesLog].
        replace (negb (1 <? attempt + 1)) with false.
        2:{ symmetry. apply negb_false_iff, Z.ltb_lt. lia. }
        now rewrite <- !app_assoc.
      * intros [| i] Hi.
        -- rewrite Nat.add_0_r, Hout. discriminate.
        -- specialize (Hfail i ltac:(lia)). rewrite Hcalls2, Hcalls in Hfail.
           now replace (calls w + S i)%nat with (S (calls w) + i)%nat by lia.
      * rewrite Hcalls2, Hcalls in Hfin.
        destruct (fst (BashRunner.retryLoop host r cmd step policy maxAttempts n
                         (attempt + 1) (Some e) w2)) as [e' |].
        -- destruct Hfin as (-> & -> & Hlast). split; [reflexivity |]. split.
           ++ f_equal. destruct n as [| j]; [now rewrite Nat.add_0_r, Hout |].
              now replace (calls w + S j)%nat with (S (calls w) + j)%nat by lia.
           ++ intros j [= <-]. destruct n as [| j].
              ** rewrite Nat.add_0_r, Hout. discriminate.
              ** specialize (Hlast j eq_refl).
                 now replace (calls w + S j)%nat with (S (calls w) + j)%nat by lia.
        -- destruct Hfin as (j & -> & Hj). exists (S j). split; [reflexivity |].
           now replace (calls w + S j)%nat with (S (calls w) + j)%nat by lia.
    + exists 1%nat. split; [lia |]. split; [| split].
      * cbn [ret snd triesLog]. rewrite Hev2, Hev. now rewrite <- !app_assoc.
      * intros i Hi. lia.
      * cbn [ret fst]. exists O. now rewrite Nat.add_0_r.
Qed.

End Retry.



(** A step that fails three times, with a delay of one second: two sleeps,
    each before a retry, and the error of the last try, wrapped. *)
Example RunStep_retries_three_failures :
  let r := BashRunner.NewBashRunner (Samples.config 30) in
  let step := Samples.retryStep "false" 3 "1s" in
  let c := BashRunner.cloneCommand Samples.quickHost
             (BashRunner.stepCommand Samples.quickHost r step ∅ ".") in
  BashRunner.RunStep Samples.quickHost r step ∅ "." Samples.world0
  = (Some (Errorf_w "all 3 attempts failed, last error: "
             (errorsNew "command failed: exit status 1")),
     mkWorld 2000000000 3
       [EvSpawn c; EvSleep 1000000000; EvSpawn c; EvSleep 1000000000; EvSpawn c]).
Proof. vm_compute. reflexivity. Qed.


(** ** The environment of a step *)

Section EnvEntries.

Lemma isVarName_cons (a : ascii) (k : string) :
  isVarName (String a k) = true -> a <> "="%char /\ isVarName k = true.
Proof.
  unfold isVarName. cbn [list_ascii_of_string existsb]. rewrite negb_orb, andb_true_iff.
  intros [Ha Hk]. split; [| exact Hk]. intros ->. discriminate.
Qed.

Lemma append_nil_l (s : string) : "" +:+ s = s.
Proof. reflexivity. Qed.

Lemma append_cons (a : ascii) (k s : string) : String a k +:+ s = String a (k +:+ s).
Proof. reflexivity. Qed.

Lemma substring_all (s : string) : String.substring 0 (String.length s) s = s.
Proof. induction s as [| c s IH]; [reflexivity |]. cbn. now rewrite IH. Qed.

(** An entry [k'=v] is an entry for the name [k] only if [k'] is [k]. *)
Lemma entry_for (k k' v : string) :
  isVarName k = true -> isVarName k' = true ->
  String.prefix (k +:+ "=") (fmtKV (k', v)) = true -> k = k'.
Proof.
  unfold fmtKV. cbn [fst snd]. revert k'.
  induction k as [| a k IH]; intros [| b k'] Hk Hk';
    rewrite ?append_cons, ?append_nil_l; cbn [String.prefix].
  - reflexivity.
  - apply isVarName_cons in Hk' as [Hb _].
    destruct (ascii_dec "=" b) as [<- |]; intros H; [contradiction | discriminate H].
  - apply isVarName_cons in Hk as [Ha _].
    destruct (ascii_dec a "=") as [-> |]; intros H; [contradiction | discriminate H].
  - apply isVarName_cons in Hk as [_ Hk]. apply isVarName_cons in Hk' as [_ Hk'].
    destruct (ascii_dec a b) as [-> |]; intros H; [| discriminate H].
    f_equal. now apply IH.
Qed.

(** The entry [k=v] gives the value [v] to the name [k]. *)
Lemma entry_value (k v : string) :
  String.prefix (k +:+ "=") (fmtKV (k, v)) = true
  /\ String.substring (String.length k + 1)
       (String.length (fmtKV (k, v)) - (String.length k + 1)) (fmtKV (k, v)) = v.
Proof.
  unfold fmtKV. cbn [fst snd].
  induction k as [| a k [IH1 IH2]]; rewrite ?append_cons, ?append_nil_l;
    cbn [String.prefix String.length String.substring Nat.add Nat.sub].
  - destruct (ascii_dec "=" "=") as [_ | N]; [| contradiction].
    split; [now destruct v |]. rewrite Nat.sub_0_r. apply substring_all.
  - destruct (ascii_dec a a) as [_ | N]; [| contradiction]. split; [exact IH1 | exact IH2].
Qed.

Lemma lookupEnv_cons (k k' v : string) (rest : list string) :
  isVarName k = true -> isVarName k' = true ->
  lookupEnv (fmtKV (k', v) :: rest) k
  = match lookupEnv rest k with
    | Some x => Some x
    | None => if decide (k' = k) then Some v else None
    end.
Proof.
  intros Hk Hk'. cbn [lookupEnv]. destruct (lookupEnv rest k); [reflexivity |].
  destruct (decide (k' = k)) as [-> | Hne].
  - destruct (entry_value k v) as [-> ->]. reflexivity.
  - destruct (String.prefix (k +:+ "=") (fmtKV (k', v))) eqn:Hp; [| reflexivity].
    apply entry_for in Hp; [congruence | assumption | assumption].
Qed.

Lemma lookupEnv_app (l1 l2 : list string) (k : string) :
  lookupEnv (l1 ++ l2) k
  = match lookupEnv l2 k with
    | Some v => Some v
    | None => lookupEnv l1 k
    end.
Proof.
  induction l1 as [| e l1 IH]; cbn [app lookupEnv].
  - now destruct (lookupEnv l2 k).
  - rewrite IH. now destruct (lookupEnv l2 k).
Qed.

(** The entries made from a list of pairs with distinct names. *)
Lemma lookupEnv_pairs (l : list (string * string)) (k : string) :
  isVarName k = true ->
  (forall k' v, (k', v) ∈ l -> isVarName k' = true) ->
  NoDup (l.*1) ->
  lookupEnv (map fmtKV l) k = (list_to_map l : gmap string string) !! k.
Proof.
  intros Hk. induction l as [| [k' v] l IH]; intros Hnames Hnd; [reflexivity |].
  cbn [map]. rewrite lookupEnv_cons; [| exact Hk | eapply Hnames, list_elem_of_here].
  cbn [fmap list_fmap fst] in Hnd. apply NoDup_cons in Hnd as [Hfresh Hnd].
  rewrite IH; [| intros k'' v'' Hin; eapply Hnames, list_elem_of_further, Hin | exact Hnd].
  rewrite list_to_map_cons. destruct (decide (k' = k)) as [-> | Hne].
  - rewrite lookup_insert_eq.
    now rewrite (not_elem_of_list_to_map_1 _ _ Hfresh).
  - rewrite lookup_insert_ne by exact Hne.
    now destruct (list_to_map l !! k).
Qed.

(** [varNames], key by key. *)
Lemma varNames_lookup (m : gmap string string) :
  varNames m <-> forall k v, m !! k = Some v -> isVarName k = true.
Proof.
  unfold varNames. rewrite forallb_forall. split.
  - intros H k v Hk. apply (H (k, v)), list_elem_of_In, elem_of_map_to_list, Hk.
  - intros H [k v] Hin. apply (H k v), elem_of_map_to_list, list_elem_of_In, Hin.
Qed.

Lemma varNames_insert (k v : string) (m : gmap string string) :
  isVarName k = true -> varNames m -> varNames (<[k := v]> m).
Proof.
  rewrite !varNames_lookup. intros Hk Hm k' v'.
  destruct (decide (k = k')) as [<- | Hne]; [auto |].
  rewrite lookup_insert_ne by exact Hne. apply Hm.
Qed.

Variable host : Host.

Lemma rangeMap_NoDup (m : gmap string string) : NoDup ((rangeMap host m).*1).
Proof. rewrite (rangeMap_perm host). apply NoDup_fst_map_to_list. Qed.

Lemma rangeMap_to_map (m : gmap string string) : list_to_map (rangeMap host m) = m.
Proof.
  rewrite (list_to_map_proper _ (map_to_list m)).
  - apply list_to_map_to_list.
  - apply rangeMap_NoDup.
  - apply rangeMap_perm.
Qed.

(** The entries made from a map: the map itself. *)
Lemma lookupEnv_map (m : gmap string string) (k : string) :
  isVarName k = true -> varNames m ->
  lookupEnv (map fmtKV (rangeMap host m)) k = m !! k.
Proof.
  intros Hk Hm. rewrite lookupEnv_pairs.
  - now rewrite rangeMap_to_map.
  - exact Hk.
  - intros k' v Hin. apply varNames_lookup with (k := k') (v := v) in Hm; [exact Hm |].
    rewrite (rangeMap_perm host) in Hin. now apply elem_of_map_to_list.
  - apply rangeMap_NoDup.
Qed.

(** Writing the entries of a list into a map, one after the other. *)
Lemma foldl_insert_lookup (l : list (string * string)) :
  forall (acc : gmap string string) (k : string),
    NoDup (l.*1) ->
    foldl (fun result kv => <[fst kv := snd kv]> result) acc l !! k
    = match (list_to_map l : gmap string string) !! k with
      | Some v => Some v
      | None => acc !! k
      end.
Proof.
  induction l as [| [k' v'] l IH]; intros acc k Hnd; [reflexivity |].
  cbn [fmap list_fmap fst] in Hnd. apply NoDup_cons in Hnd as [Hfresh Hnd].
  cbn [foldl fst snd]. rewrite (IH _ _ Hnd), list_to_map_cons.
  destruct (decide (k' = k)) as [-> | Hne].
  - rewrite !lookup_insert_eq. now rewrite (not_elem_of_list_to_map_1 _ _ Hfresh).
  - now rewrite !lookup_insert_ne by exact Hne.
Qed.

(** [mergeEnvironments(a, b)]: the entries of [b] win over those of [a]. *)
Lemma mergeEnvironments_lookup (a b : gmap string string) (k : string) :
  BashRunner.mergeEnvironments host [a; b] !! k
  = match b !! k with
    | Some v => Some v
    | None => a !! k
    end.
Proof.
  unfold BashRunner.mergeEnvironments. cbn [foldl].
  rewrite !foldl_insert_lookup by apply rangeMap_NoDup.
  rewrite !rangeMap_to_map. rewrite lookup_empty. now destruct (a !! k).
Qed.

Lemma mergeEnvironments_varNames (a b : gmap string string) :
  varNames a -> varNames b -> varNames (BashRunner.mergeEnvironments host [a; b]).
Proof.
  rewrite !varNames_lookup. intros Ha Hb k v. rewrite mergeEnvironments_lookup.
  destruct (b !! k) as [vb |] eqn:Hbk.
  - intros _. now apply (Hb k vb).
  - apply Ha.
Qed.

(** The environment of a step, variable by variable: the layers. *)
Lemma buildStepEnvironment_lookup (r : BashRunner.t) (jobEnv stepEnv : gmap string string)
    (k : string) :
  isVarName k = true ->
  varNames (BashRunner.environment r) -> varNames jobEnv -> varNames stepEnv ->
  lookupEnv (BashRunner.buildStepEnvironment host r jobEnv stepEnv) k
  = match stepEnv !! k with
    | Some v => Some v
    | None =>
        match jobEnv !! k with
        | Some v => Some v
        | None =>
            match BashRunner.environment r !! k with
            | Some v => Some v
            | None => lookupEnv (Environ host) k
            end
        end
    end.
Proof.
  intros Hk Hr Hjob Hstep. unfold BashRunner.buildStepEnvironment.
  rewrite !lookupEnv_app, !lookupEnv_map by assumption. reflexivity.
Qed.

(** The markers that the backend injects. *)
Lemma setupJobEnvironment_markers (r : BashRunner.t) (job : Job.t) (workdir : string)
    (w : World) :
  let r' := fst (BashRunner.setupJobEnvironment host r job workdir w) in
  BashRunner.config r' = BashRunner.config r
  /\ BashRunner.environment r' !! "CI" = Some "true"
  /\ BashRunner.environment r' !! "GIT_CI" = Some "true"
  /\ BashRunner.environment r' !! "BASH_RUNNER" = Some "true"
  /\ BashRunner.environment r' !! "JOB_NAME" = Some (Job.Name job)
  /\ BashRunner.environment r' !! "WORKSPACE" = Some workdir
  /\ (varNames (BashRunner.environment r) -> varNames (BashRunner.environment r')).
Proof.
  unfold BashRunner.setupJobEnvironment. rewrite !bind_unfold.
  set (branch := fst (BashRunner.getGitBranch host workdir w)).
  set (commit := fst (BashRunner.getGitCommit host workdir _)).
  cbn [ret fst BashRunner.config BashRunner.environment].
  split; [reflexivity |].
  destruct (String.eqb branch ""), (String.eqb commit "");
    (repeat split;
     [ | | | | | intros Hr; repeat (apply varNames_insert; [reflexivity |]); exact Hr ]);
    repeat (rewrite lookup_insert_ne by discriminate); apply lookup_insert_eq.
Qed.

(** The commands of a shell-command step carry the environment that
    [buildStepEnvironment] makes. *)
Lemma triesLog_spawn (c cmd : Cmd.t) (policy : RetryPolicy.t) (first : bool) (k : nat) :
  In (EvSpawn cmd) (triesLog c (pauseLog host policy) first k) -> cmd = c.
Proof.
  revert first. induction k as [| k IH]; intros first; [intros [] |].
  cbn [triesLog]. rewrite !in_app_iff. intros [Hin | [[[= <-] | []] | Hin]].
  - destruct first; [destruct Hin |]. unfold pauseLog in Hin.
    destruct (String.eqb (RetryPolicy.Delay policy) ""); [destruct Hin |].
    destruct (ParseDuration host (RetryPolicy.Delay policy));
      [destruct Hin as [[=] | []] | destruct Hin].
  - reflexivity.
  - now apply IH in Hin.
Qed.

Lemma RunStep_spawn_env (r : BashRunner.t) (step : Step.t) (env : gmap string string)
    (workdir : string) (w : World) (new : list Event) (cmd : Cmd.t) :
  Step.Uses step = "" ->
  events (snd (BashRunner.RunStep host r step env workdir w)) = events w ++ new ->
  In (EvSpawn cmd) new ->
  Cmd.Env cmd = BashRunner.buildStepEnvironment host r env (Step.Env step).
Proof.
  intros Huses. unfold BashRunner.RunStep. rewrite Huses. cbn [String.eqb negb].
  assert (Hnone : events w = events w ++ new -> In (EvSpawn cmd) new -> 
                  Cmd.Env cmd = BashRunner.buildStepEnvironment host r env (Step.Env step)).
  { intros H. rewrite <- (app_nil_r (events w)) in H at 1.
    apply app_inv_head in H. subst new. intros []. }
  destruct (String.eqb (Step.Run step) ""); [exact Hnone |].
  destruct (RunnerConfig.DryRun (BashRunner.config r)); [exact Hnone |].
  clear Hnone.
  assert (Henv : Cmd.Env (BashRunner.stepCommand host r step env workdir)
                 = BashRunner.buildStepEnvironment host r env (Step.Env step)).
  { unfold BashRunner.stepCommand. destruct (0 <? Step.TimeoutMin step); reflexivity. }
  assert (Hone : events (snd (BashRunner.executeCommand host r
                                (BashRunner.stepCommand host r step env workdir)
                                (Step.Name step) w)) = events w ++ new ->
                 In (EvSpawn cmd) new ->
                 Cmd.Env cmd = BashRunner.buildStepEnvironment host r env (Step.Env step)).
  { cbn [BashRunner.executeCommand bind ret spawn fst snd events]. intros H.
    apply app_inv_head in H. subst new. intros [[= <-] | []]. exact Henv. }
  destruct (Step.RetryPolicy step) as [policy |]; [| exact Hone].
  destruct (1 <? RetryPolicy.MaxAttempts policy); [| exact Hone].
  unfold BashRunner.executeWithRetry.
  set (maxAttempts := if _ <=? 0 then 1 else _).
  destruct (retryLoop_log host r (BashRunner.stepCommand host r step env workdir) step
              policy maxAttempts (Z.to_nat maxAttempts) 1 None w ltac:(lia))
    as (k & _ & Hlog & _).
  rewrite Hlog. intros H. apply app_inv_head in H. subst new. intros Hin.
  apply triesLog_spawn in Hin. subst cmd. exact Henv.
Qed.

End EnvEntries.

(** C5, as stated, fails: the pipeline sets [FOO] in its environment, the
    job and the step do not set it, and the scheduler runs the job of the
    pipeline on the process backend; the command of the step is run, and no
    command that is run has [FOO] in its environment. *)
Lemma pipeline_environment_not_passed :
  Pipeline.Environment Samples.fooPipeline !! "FOO" = Some "bar"
  /\ Samples.ranScript "echo $FOO"
       (events (snd (Handlers.runJobsSequential
                       (Handlers.createRunner Samples.quickHost (Samples.daemonWith 0 false)
                          (Samples.flags false false) (Samples.config 30))
                       (Samples.flags false false)
                       (rangeMap Samples.quickHost (Pipeline.Jobs Samples.fooPipeline))
                       "." Samples.world0))) = true
  /\ Samples.unsetIn "FOO"
       (events (snd (Handlers.runJobsSequential
                       (Handlers.createRunner Samples.quickHost (Samples.daemonWith 0 false)
                          (Samples.flags false false) (Samples.config 30))
                       (Samples.flags false false)
                       (rangeMap Samples.quickHost (Pipeline.Jobs Samples.fooPipeline))
                       "." Samples.world0))) = true.
Proof. vm_compute. repeat split. Qed.

(** [RunStep] with the runner and the environment of the job that
    [RunJob] makes: the layers of the environment of its commands. *)
Lemma RunStep_environment_layers (host : Host) (r0 : BashRunner.t) (job : Job.t)
    (absWorkdir : string) (w0 : World) (step : Step.t) (workdir : string) (w : World)
    (new : list Event) (cmd : Cmd.t) (k : string) :
  let r := fst (BashRunner.setupJobEnvironment host r0 job absWorkdir w0) in
  let cfgEnv := RunnerConfig.Environment (BashRunner.config r0) in
  let jobEnv := BashRunner.mergeEnvironments host [Job.Environment job; cfgEnv] in
  Step.Uses step = "" ->
  events (snd (BashRunner.RunStep host r step jobEnv workdir w)) = events w ++ new ->
  In (EvSpawn cmd) new ->
  isVarName k = true ->
  varNames (BashRunner.environment r0) ->
  varNames (Job.Environment job) ->
  varNames cfgEnv ->
  varNames (Step.Env step) ->
  lookupEnv (Cmd.Env cmd) k
  = match Step.Env step !! k with
    | Some v => Some v
    | None =>
        match cfgEnv !! k with
        | Some v => Some v
        | None =>
            match Job.Environment job !! k with
            | Some v => Some v
            | None =>
                match BashRunner.environment r !! k with
                | Some v => Some v
                | None => lookupEnv (Environ host) k
                end
            end
        end
    end.
Proof.
  intros r cfgEnv jobEnv Huses Hlog Hin Hk Hr0 Hjob Hcfg Hstep.
  destruct (setupJobEnvironment_markers host r0 job absWorkdir w0)
    as (_ & HCI & HGIT & HBASH & HJOB & HWS & Hr).
  fold r in HCI, HGIT, HBASH, HJOB, HWS, Hr.
  rewrite (RunStep_spawn_env host r step jobEnv workdir w new cmd Huses Hlog Hin).
  rewrite buildStepEnvironment_lookup;
    [| exact Hk | exact (Hr Hr0) | now apply mergeEnvironments_varNames | exact Hstep].
  subst jobEnv. rewrite mergeEnvironments_lookup.
  destruct (Step.Env step !! k); [reflexivity |].
  destruct (cfgEnv !! k); [reflexivity |].
  now destruct (Job.Environment job !! k).
Qed.


(** ** The log of the runs *)

Lemma logs_ret {A : Type} (a : A) : logs (ret a).
Proof. intros w. exists []. cbn. now rewrite app_nil_r. Qed.

Lemma logs_bind {A B : Type} (m : M A) (k : A -> M B) :
  logs m -> (forall a, logs (k a)) -> logs (bind m k).
Proof.
  intros Hm Hk w. rewrite bind_unfold.
  destruct (Hm w) as [new1 H1]. destruct (Hk (fst (m w)) (snd (m w))) as [new2 H2].
  exists (new1 ++ new2). now rewrite H2, H1, app_assoc.
Qed.

Lemma logs_timeNow : logs timeNow.
Proof. intros w. exists []. cbn. now rewrite app_nil_r. Qed.

Lemma logs_timeSleep (d : Z) : logs (timeSleep d).
Proof. intros w. now exists [EvSleep d]. Qed.

Lemma logs_spawn (host : Host) (cmd : Cmd.t) : logs (spawn host cmd).
Proof. intros w. now exists [EvSpawn cmd]. Qed.

Section Logs.
Variable host : Host.
Variable r : BashRunner.t.

Lemma logs_executeCommand (cmd : Cmd.t) (stepName : string) :
  logs (BashRunner.executeCommand host r cmd stepName).
Proof.
  apply logs_bind; [apply logs_spawn | intros o; apply logs_ret].
Qed.

Lemma logs_retryLoop (cmd : Cmd.t) (step : Step.t) (policy : RetryPolicy.t)
    (maxAttempts : Z) (n : nat) :
  forall (attempt : Z) (lastErr : option error),
    logs (BashRunner.retryLoop host r cmd step policy maxAttempts n attempt lastErr).
Proof.
  induction n as [| n IH]; intros attempt lastErr; cbn [BashRunner.retryLoop].
  - apply logs_ret.
  - apply logs_bind.
    + destruct (1 <? attempt); [| apply logs_ret].
      destruct (String.eqb (RetryPolicy.Delay policy) ""); [apply logs_ret |].
      destruct (ParseDuration host (RetryPolicy.Delay policy));
        [apply logs_timeSleep | apply logs_ret].
    + intros _. apply logs_bind; [apply logs_executeCommand |].
      intros [e |]; [apply IH | apply logs_ret].
Qed.

Lemma logs_runActionStep (step : Step.t) (env : gmap string string) (workdir : string) :
  logs (BashRunner.runActionStep host r step env workdir).
Proof.
  unfold BashRunner.runActionStep.
  destruct (String.eqb (hd "" (Split (Step.Uses step) "@")) "actions/checkout").
  - unfold BashRunner.runCheckoutAction.
    destruct (RunnerConfig.DryRun (BashRunner.config r)); [apply logs_ret |].
    apply logs_bind; [apply logs_spawn |].
    intros o. destruct (outcomeError o); [apply logs_ret |].
    apply logs_bind; [apply logs_spawn |].
    intros o'. destruct (outcomeError o'); apply logs_ret.
  - destruct (_ || _ || _)%bool; [| apply logs_ret].
    unfold BashRunner.runSetupAction.
    destruct (RunnerConfig.DryRun (BashRunner.config r)); [apply logs_ret |].
    apply logs_bind; [apply logs_spawn | intros _; apply logs_ret].
Qed.

Lemma logs_RunStep (step : Step.t) (env : gmap string string) (workdir : string) :
  logs (BashRunner.RunStep host r step env workdir).
Proof.
  unfold BashRunner.RunStep.
  destruct (negb (String.eqb (Step.Uses step) "")); [apply logs_runActionStep |].
  destruct (String.eqb (Step.Run step) ""); [apply logs_ret |].
  destruct (RunnerConfig.DryRun (BashRunner.config r)); [apply logs_ret |].
  destruct (Step.RetryPolicy step) as [policy |]; [| apply logs_executeCommand].
  destruct (1 <? RetryPolicy.MaxAttempts policy); [| apply logs_executeCommand].
  apply logs_retryLoop.
Qed.

Lemma logs_runSteps (jobEnv : gmap string string) (absWorkdir : string)
    (startTime : N) (steps : list Step.t) :
  forall summary : JobSummary.t,
    logs (BashRunner.runSteps host r jobEnv absWorkdir startTime steps summary).
Proof.
  induction steps as [| step rest IH]; intros summary; cbn [BashRunner.runSteps].
  - apply logs_ret.
  - apply logs_bind; [apply logs_timeNow |].
    intros now. destruct (BashRunner.jobTimedOut r startTime now); [apply logs_ret |].
    destruct (negb (BashRunner.shouldRunStep step jobEnv)); [apply IH |].
    apply logs_bind; [apply logs_RunStep |].
    intros [e |]; [| apply IH].
    destruct (Step.ContinueOnErr step); [apply IH | apply logs_ret].
Qed.

End Logs.

(** C5 (amended).  The loop of [RunJob] comes to a shell-command step of
    the job and runs it: the part [new] of the log of [RunJob] is what the
    step does, and every command in it has an environment built in layers:
    the environment of the process, then the markers of the backend ([CI],
    [GIT_CI], [BASH_RUNNER], [JOB_NAME], [WORKSPACE] and what git tells),
    which are the environment of the runner that [RunJob] leaves, then the
    environment of the job, then the environment of the runner
    configuration (the command line), then the environment of the step; a
    later layer overrides the earlier ones key by key.  The environment of
    the pipeline is no layer: [RunJob] is not given the pipeline. *)
Theorem step_environment_layers (host : Host) (r : BashRunner.t) (job : Job.t)
    (workdir absWorkdir : string) (w : World) (pre : list Step.t) (step : Step.t)
    (rest : list Step.t) (k : string) :
  let r' := BashRunner.loopRunner host r job absWorkdir w in
  let cfgEnv := RunnerConfig.Environment (BashRunner.config r) in
  let jobEnv := BashRunner.jobEnvironment host r job in
  let before := BashRunner.atStep host r job absWorkdir w pre in
  let tried := BashRunner.RunStep host r' step jobEnv absWorkdir (snd before) in
  let ran := BashRunner.runJobSummary host r job workdir w in
  Abs host workdir = inr absWorkdir ->
  statIsNotExist host absWorkdir = false ->
  Job.Steps job = pre ++ step :: rest ->
  JobSummary.Success (fst before) = true ->
  BashRunner.jobTimedOut r' (clock w) (clock (snd before)) = false ->
  BashRunner.shouldRunStep step jobEnv = true ->
  Step.Uses step = "" ->
  isVarName k = true ->
  varNames (BashRunner.environment r) ->
  varNames (Job.Environment job) ->
  varNames cfgEnv ->
  varNames (Step.Env step) ->
  exists new later : list Event,
    events (snd tried) = events (snd before) ++ new
    /\ events (snd ran) = events (snd before) ++ new ++ later
    /\ (forall cmd : Cmd.t,
          In (EvSpawn cmd) new ->
          lookupEnv (Cmd.Env cmd) k
          = match Step.Env step !! k with
            | Some v => Some v
            | None =>
                match cfgEnv !! k with
                | Some v => Some v
                | None =>
                    match Job.Environment job !! k with
                    | Some v => Some v
                    | None =>
                        match BashRunner.environment (snd (fst ran)) !! k with
                        | Some v => Some v
                        | None => lookupEnv (Environ host) k
                        end
                    end
                end
            end)
    /\ BashRunner.environment (snd (fst ran)) !! "CI" = Some "true"
    /\ BashRunner.environment (snd (fst ran)) !! "GIT_CI" = Some "true"
    /\ BashRunner.environment (snd (fst ran)) !! "BASH_RUNNER" = Some "true"
    /\ BashRunner.environment (snd (fst ran)) !! "JOB_NAME" = Some (Job.Name job)
    /\ BashRunner.environment (snd (fst ran)) !! "WORKSPACE" = Some absWorkdir.
Proof.
  intros r' cfgEnv jobEnv before tried ran Habs Hstat Hsteps Hbefore Hout Hguard Huses
         Hk Hr Hjob Hcfg Hstep.
  assert (Hran : ran = BashRunner.jobOutcome host r job absWorkdir w
                         (BashRunner.atStep host r job absWorkdir w (Job.Steps job)))
    by (apply runJobSummary_loop; assumption).
  destruct (logs_RunStep host r' step jobEnv absWorkdir (snd before)) as [new Hnew].
  fold tried in Hnew.
  assert (Hlater : exists later,
             events (snd (BashRunner.atStep host r job absWorkdir w (Job.Steps job)))
             = events (snd tried) ++ later).
  { subst tried before r' jobEnv. unfold BashRunner.atStep in *. rewrite Hsteps.
    rewrite runSteps_at; [| reflexivity | exact Hbefore].
    set (before := BashRunner.runSteps _ _ _ _ _ pre _ _) in *.
    cbn [BashRunner.runSteps]. rewrite bind_unfold. cbn [timeNow fst snd].
    rewrite Hout, Hguard. cbn [negb]. rewrite bind_unfold.
    destruct (fst (BashRunner.RunStep _ _ step _ _ (snd before))) as [err |].
    - destruct (Step.ContinueOnErr step).
      + apply logs_runSteps.
      + exists []. cbn. now rewrite app_nil_r.
    - apply logs_runSteps. }
  destruct Hlater as [later Hlater].
  exists new, later.
  split; [exact Hnew |].
  split; [rewrite Hran; cbn [BashRunner.jobOutcome snd]; now rewrite Hlater, Hnew, app_assoc |].
  assert (Hrunner : snd (fst ran) = r') by (now rewrite Hran).
  rewrite Hrunner.
  destruct (setupJobEnvironment_markers host r job absWorkdir w)
    as (_ & HCI & HGIT & HBASH & HJOB & HWS & Hr').
  split; [| repeat split; assumption].
  intros cmd Hin.
  apply (RunStep_environment_layers host r job absWorkdir w step absWorkdir (snd before)
           new cmd k Huses Hnew Hin Hk Hr Hjob Hcfg Hstep).
Qed.

(** The job sets [LEVEL], [REGION] and [STAGE], the command line sets
    [LEVEL] and [REGION], the step sets [LEVEL]: the command of the step
    sees the [LEVEL] of the step, the [REGION] of the command line, the
    [STAGE] of the job and the marker [CI]. *)
Example layered_environment :
  match events (snd (BashRunner.RunJob Samples.quickHost
                       (BashRunner.NewBashRunner Samples.layeredConfig)
                       Samples.layeredJob "." Samples.world0)) with
  | [_; _; EvSpawn cmd] =>
      lookupEnv (Cmd.Env cmd) "LEVEL" = Some "step"
      /\ lookupEnv (Cmd.Env cmd) "REGION" = Some "cli"
      /\ lookupEnv (Cmd.Env cmd) "STAGE" = Some "job"
      /\ lookupEnv (Cmd.Env cmd) "CI" = Some "true"
      /\ lookupEnv (Cmd.Env cmd) "JOB_NAME" = Some "build"
      /\ lookupEnv (Cmd.Env cmd) "FOO" = None
  | _ => False
  end.
Proof. vm_compute. repeat split. Qed.

Lemma step_environment_layers_witness :
  exists new later : list Event,
    events (snd (BashRunner.RunStep Samples.quickHost
                   (BashRunner.loopRunner Samples.quickHost
                      (BashRunner.NewBashRunner Samples.layeredConfig)
                      Samples.layeredJob "." Samples.world0)
                   Samples.layeredStep
                   (BashRunner.jobEnvironment Samples.quickHost
                      (BashRunner.NewBashRunner Samples.layeredConfig) Samples.layeredJob)
                   "."
                   (snd (BashRunner.atStep Samples.quickHost
                           (BashRunner.NewBashRunner Samples.layeredConfig)
                           Samples.layeredJob "." Samples.world0 []))))
    = events (snd (BashRunner.atStep Samples.quickHost
                     (BashRunner.NewBashRunner Samples.layeredConfig)
                     Samples.layeredJob "." Samples.world0 []))
      ++ new
    /\ events (snd (BashRunner.runJobSummary Samples.quickHost
                      (BashRunner.NewBashRunner Samples.layeredConfig)
                      Samples.layeredJob "." Samples.world0))
       = events (snd (BashRunner.atStep Samples.quickHost
                        (BashRunner.NewBashRunner Samples.layeredConfig)
                        Samples.layeredJob "." Samples.world0 []))
         ++ new ++ later
    /\ forall cmd : Cmd.t,
         In (EvSpawn cmd) new -> lookupEnv (Cmd.Env cmd) "REGION" = Some "cli".
Proof.
  destruct (step_environment_layers Samples.quickHost
              (BashRunner.NewBashRunner Samples.layeredConfig) Samples.layeredJob
              "." "." Samples.world0 [] Samples.layeredStep [] "REGION"
              eq_refl eq_refl eq_refl eq_refl eq_refl eq_refl eq_refl eq_refl
              eq_refl eq_refl eq_refl eq_refl)
    as (new & later & H1 & H2 & H3 & _).
  exists new, later. split; [exact H1 |]. split; [exact H2 |].
  intros cmd Hin. rewrite (H3 cmd Hin). reflexivity.
Defined.

(** ** Steps that fail *)

(** C3, as stated, fails: both steps of the job have continue-on-error and
    the first one, the only one to fail, takes two minutes; the runner has
    a job timeout of one minute, so that the check before the second step
    ends the loop: one failed step, and [Success] is false. *)
Lemma continue_on_error_job_times_out :
  Forall (fun s => Step.ContinueOnErr s = true)
    (Job.Steps (Samples.jobOf "build"
                  [Samples.runStep "false" true; Samples.runStep "echo second" true] []))
  /\ fst (fst (BashRunner.runJobSummary Samples.slowHost
                 (BashRunner.NewBashRunner (Samples.config 1))
                 (Samples.jobOf "build"
                    [Samples.runStep "false" true; Samples.runStep "echo second" true] [])
                 "." Samples.world0))
     = inr (JobSummary.mk "build" 2 0 1 0 120000000000 false
              ["Job timeout exceeded (1 minutes)"]).
Proof.
  split; [repeat constructor |]. vm_compute. reflexivity.
Qed.

(** The same job within the default timeout of thirty minutes: the job
    succeeds with one failed step, the second step is run. *)
Example continue_on_error_job_succeeds :
  fst (fst (BashRunner.runJobSummary Samples.slowHost
              (BashRunner.NewBashRunner (Samples.config 30))
              (Samples.jobOf "build"
                 [Samples.runStep "false" true; Samples.runStep "echo second" true] [])
              "." Samples.world0))
  = inr (JobSummary.mk "build" 2 1 1 0 240000000000 true []).
Proof. vm_compute. reflexivity. Qed.

(** C3 (amended).  The loop of [RunJob] comes to a step of the job, within
    the job timeout, and [RunStep] returns an error for it.  The step is
    counted as failed.  With continue-on-error the flag of the job stays as
    it is and what [RunJob] returns is the outcome of the loop that goes on
    with the steps after the step, in the world the step has left; hence,
    when no step before and no step after the step fails and the job
    timeout does not fire, the summary of the job has [Success] true,
    [FailedSteps] 1 and no error.  Without continue-on-error what
    [RunJob] returns is the summary marked as failed, with the error of the
    step, and the world the step has left: nothing is run after the
    step. *)
Theorem failed_step_policy (host : Host) (r : BashRunner.t) (job : Job.t)
    (workdir absWorkdir : string) (w : World) (pre : list Step.t) (step : Step.t)
    (rest : list Step.t) (e : error) :
  let r' := BashRunner.loopRunner host r job absWorkdir w in
  let jobEnv := BashRunner.jobEnvironment host r job in
  let before := BashRunner.atStep host r job absWorkdir w pre in
  let tried := BashRunner.RunStep host r' step jobEnv absWorkdir (snd before) in
  let failed := JobSummaryOps.failStep (fst before) in
  let loop := BashRunner.runSteps host r' jobEnv absWorkdir (clock w) in
  let quiet := BashRunner.quiet host r' jobEnv absWorkdir (clock w) in
  Abs host workdir = inr absWorkdir ->
  statIsNotExist host absWorkdir = false ->
  Job.Steps job = pre ++ step :: rest ->
  JobSummary.Success (fst before) = true ->
  BashRunner.jobTimedOut r' (clock w) (clock (snd before)) = false ->
  BashRunner.shouldRunStep step jobEnv = true ->
  fst tried = Some e ->
  JobSummary.FailedSteps failed = JobSummary.FailedSteps (fst before) + 1
  /\ JobSummary.Success failed = true
  /\ (if Step.ContinueOnErr step
      then
        BashRunner.runJobSummary host r job workdir w
        = BashRunner.jobOutcome host r job absWorkdir w (loop rest failed (snd tried))
        /\ (quiet pre (BashRunner.initialSummary job)
                  (snd (BashRunner.setupJobEnvironment host r job absWorkdir w)) ->
            quiet rest failed (snd tried) ->
            exists summary : JobSummary.t,
              fst (fst (BashRunner.runJobSummary host r job workdir w)) = inr summary
              /\ JobSummary.Success summary = true
              /\ JobSummary.FailedSteps summary = 1
              /\ JobSummary.Errors summary = [])
      else
        BashRunner.runJobSummary host r job workdir w
        = BashRunner.jobOutcome host r job absWorkdir w
            (JobSummaryOps.failJob failed
               ("Step '" +:+ Step.Name step +:+ "' failed: " +:+ Error e),
             snd tried)).
Proof.
  intros r' jobEnv before tried failed loop quiet Habs Hstat Hsteps Hbefore Hout Hguard
         Htried.
  split; [reflexivity |]. split; [exact Hbefore |].
  assert (Hrun : BashRunner.runJobSummary host r job workdir w
                 = BashRunner.jobOutcome host r job absWorkdir w
                     (if Step.ContinueOnErr step
                      then loop rest failed (snd tried)
                      else (JobSummaryOps.failJob failed
                              ("Step '" +:+ Step.Name step +:+ "' failed: " +:+ Error e),
                            snd tried))).
  { rewrite (runJobSummary_loop host r job workdir absWorkdir w Habs Hstat).
    f_equal. subst loop failed tried before r' jobEnv.
    unfold BashRunner.atStep in *. rewrite Hsteps.
    rewrite runSteps_at; [| reflexivity | exact Hbefore].
    set (before := BashRunner.runSteps _ _ _ _ _ pre _ _) in *.
    cbn [BashRunner.runSteps]. rewrite bind_unfold. cbn [timeNow fst snd].
    rewrite Hout, Hguard. cbn [negb]. rewrite bind_unfold. rewrite Htried.
    destruct (Step.ContinueOnErr step); reflexivity. }
  destruct (Step.ContinueOnErr step); [| exact Hrun].
  split; [exact Hrun |].
  intros Hpre Hrest. rewrite Hrun.
  exists (JobSummaryOps.withDuration (fst (loop rest failed (snd tried)))
            (clock (snd (loop rest failed (snd tried))) - clock w)%N).
  split; [reflexivity |].
  destruct (quiet_runSteps host r' jobEnv absWorkdir (clock w) rest failed (snd tried) Hrest)
    as (Hs & Hf & He).
  destruct (quiet_runSteps host r' jobEnv absWorkdir (clock w) pre
              (BashRunner.initialSummary job) _ Hpre) as (_ & Hf0 & He0).
  fold loop in Hs, Hf, He. cbn [JobSummaryOps.withDuration JobSummary.Success
                                 JobSummary.FailedSteps JobSummary.Errors].
  rewrite Hs, Hf, He.
  change (BashRunner.runSteps host r' jobEnv absWorkdir (clock w) pre
            (BashRunner.initialSummary job)
            (snd (BashRunner.setupJobEnvironment host r job absWorkdir w)))
    with before in Hf0, He0.
  subst failed. cbn [JobSummaryOps.failStep JobSummary.Success JobSummary.FailedSteps
                      JobSummary.Errors].
  rewrite Hf0, He0. split; [exact Hbefore |]. split; reflexivity.
Qed.

(** A job of three steps: the first has no directive, the second fails
    with continue-on-error, the third is run. *)
Lemma failed_step_policy_witness :
  fst (fst (BashRunner.runJobSummary Samples.quickHost
              (BashRunner.NewBashRunner (Samples.config 30))
              (Samples.jobOf "build"
                 [Samples.emptyStep; Samples.runStep "false" true;
                  Samples.runStep "echo second" false] [])
              "." Samples.world0))
  = inr (JobSummary.mk "build" 3 2 1 0 0 true [])
  /\ exists summary : JobSummary.t,
       fst (fst (BashRunner.runJobSummary Samples.quickHost
                   (BashRunner.NewBashRunner (Samples.config 30))
                   (Samples.jobOf "build"
                      [Samples.emptyStep; Samples.runStep "false" true;
                       Samples.runStep "echo second" false] [])
                   "." Samples.world0)) = inr summary
       /\ JobSummary.Success summary = true
       /\ JobSummary.FailedSteps summary = 1
       /\ JobSummary.Errors summary = [].
Proof.
  destruct (failed_step_policy Samples.quickHost
              (BashRunner.NewBashRunner (Samples.config 30))
              (Samples.jobOf "build"
                 [Samples.emptyStep; Samples.runStep "false" true;
                  Samples.runStep "echo second" false] [])
              "." "." Samples.world0 [Samples.emptyStep] (Samples.runStep "false" true)
              [Samples.runStep "echo second" false]
              (errorsNew "command failed: exit status 1")
              eq_refl eq_refl eq_refl eq_refl eq_refl eq_refl eq_refl)
    as (_ & _ & H).
  cbn [Samples.runStep Step.ContinueOnErr] in H. destruct H as [Hrun Hence].
  split.
  - rewrite Hrun. vm_compute. reflexivity.
  - apply Hence.
    + apply quiet_of_cons; [vm_compute; reflexivity | intros _; vm_compute; reflexivity |].
      apply quiet_nil.
    + apply quiet_of_cons; [vm_compute; reflexivity | intros _; vm_compute; reflexivity |].
      apply quiet_nil.
Defined.

(** * More of the engine *)

(** ** The native process backend: the summary of a job *)

Section Summary.
Variable host : Host.
Variable r : BashRunner.t.
Variable jobEnv : gmap string string.
Variable absWorkdir : string.
Variable startTime : N.

(** One pass of the loop: the counters only grow, by at most one for each
    step, and by exactly one for each step when the flag is still true at
    the end. *)
Lemma runSteps_counters (steps : list Step.t) :
  forall (summary : JobSummary.t) (w : World),
    let s := fst (BashRunner.runSteps host r jobEnv absWorkdir startTime steps summary w) in
    let total (x : JobSummary.t) :=
      JobSummary.CompletedSteps x + JobSummary.FailedSteps x + JobSummary.SkippedSteps x in
    JobSummary.CompletedSteps summary <= JobSummary.CompletedSteps s
    /\ JobSummary.FailedSteps summary <= JobSummary.FailedSteps s
    /\ JobSummary.SkippedSteps summary <= JobSummary.SkippedSteps s
    /\ total s <= total summary + Z.of_nat (length steps)
    /\ JobSummary.TotalSteps s = JobSummary.TotalSteps summary
    /\ JobSummary.JobName s = JobSummary.JobName summary
    /\ (JobSummary.Success s = true ->
        JobSummary.Success summary = true
        /\ total s = total summary + Z.of_nat (length steps)).
Proof.
  induction steps as [| step rest IH]; intros summary w; cbv zeta.
  - cbn. repeat split; try lia; auto.
  - cbn [BashRunner.runSteps]. rewrite bind_unfold. cbn [timeNow fst snd].
    cbn [length]. rewrite Nat2Z.inj_succ.
    assert (Hnext : forall (summary' : JobSummary.t) (w' : World) (a b c : Z),
               JobSummary.CompletedSteps summary' = JobSummary.CompletedSteps summary + a ->
               JobSummary.FailedSteps summary' = JobSummary.FailedSteps summary + b ->
               JobSummary.SkippedSteps summary' = JobSummary.SkippedSteps summary + c ->
               0 <= a -> 0 <= b -> 0 <= c -> a + b + c = 1 ->
               JobSummary.TotalSteps summary' = JobSummary.TotalSteps summary ->
               JobSummary.JobName summary' = JobSummary.JobName summary ->
               JobSummary.Success summary' = JobSummary.Success summary ->
               let s := fst (BashRunner.runSteps host r jobEnv absWorkdir startTime rest
                               summary' w') in
               JobSummary.CompletedSteps summary <= JobSummary.CompletedSteps s
               /\ JobSummary.FailedSteps summary <= JobSummary.FailedSteps s
               /\ JobSummary.SkippedSteps summary <= JobSummary.SkippedSteps s
               /\ JobSummary.CompletedSteps s + JobSummary.FailedSteps s
                  + JobSummary.SkippedSteps s
                  <= JobSummary.CompletedSteps summary + JobSummary.FailedSteps summary
                     + JobSummary.SkippedSteps summary + Z.succ (Z.of_nat (length rest))
               /\ JobSummary.TotalSteps s = JobSummary.TotalSteps summary
               /\ JobSummary.JobName s = JobSummary.JobName summary
               /\ (JobSummary.Success s = true ->
                   JobSummary.Success summary = true
                   /\ JobSummary.CompletedSteps s + JobSummary.FailedSteps s
                      + JobSummary.SkippedSteps s
                      = JobSummary.CompletedSteps summary + JobSummary.FailedSteps summary
                        + JobSummary.SkippedSteps summary
                        + Z.succ (Z.of_nat (length rest)))).
    { intros summary' w' a b c Ea Eb Ec Ha Hb Hc Habc Et En Es s.
      destruct (IH summary' w') as (H1 & H2 & H3 & H4 & H5 & H6 & H7). fold s in H1, H2, H3, H4, H5, H6, H7.
      split; [lia |]. split; [lia |]. split; [lia |]. split; [lia |].
      split; [congruence |]. split; [congruence |].
      intros Hs. destruct (H7 Hs) as [H8 H9]. split; [congruence | lia]. }
    destruct (BashRunner.jobTimedOut r startTime (clock w)).
    { cbn. repeat split; try lia; discriminate. }
    destruct (negb (BashRunner.shouldRunStep step jobEnv)).
    { apply (Hnext _ _ 0 0 1); cbn; lia || reflexivity. }
    rewrite bind_unfold.
    destruct (BashRunner.RunStep host r step jobEnv absWorkdir w) as [[err |] w1];
      cbn [fst snd].
    + destruct (Step.ContinueOnErr step).
      * apply (Hnext _ _ 0 1 0); cbn; lia || reflexivity.
      * cbn. repeat split; try lia; discriminate.
    + apply (Hnext _ _ 1 0 0); cbn; lia || reflexivity.
Qed.

(** The flag of the summary is only ever cleared together with an error
    added to the summary. *)
Lemma runSteps_errors (steps : list Step.t) :
  forall (summary : JobSummary.t) (w : World),
    (JobSummary.Success summary = false -> JobSummary.Errors summary <> []) ->
    JobSummary.Success
      (fst (BashRunner.runSteps host r jobEnv absWorkdir startTime steps summary w)) = false ->
    JobSummary.Errors
      (fst (BashRunner.runSteps host r jobEnv absWorkdir startTime steps summary w)) <> [].
Proof.
  induction steps as [| step rest IH]; intros summary w Hinv; [exact Hinv |].
  cbn [BashRunner.runSteps]. rewrite bind_unfold. cbn [timeNow fst snd].
  destruct (BashRunner.jobTimedOut r startTime (clock w)).
  { intros _. cbn. now destruct (JobSummary.Errors summary). }
  destruct (negb (BashRunner.shouldRunStep step jobEnv)); [apply IH; exact Hinv |].
  rewrite bind_unfold.
  destruct (BashRunner.RunStep host r step jobEnv absWorkdir w) as [[err |] w1];
    cbn [fst snd]; [| apply IH; exact Hinv].
  destruct (Step.ContinueOnErr step); [apply IH; exact Hinv |].
  intros _. cbn. now destruct (JobSummary.Errors summary).
Qed.

End Summary.

(** X1: The summary of a job that [RunJob] of the process backend has run: no
    counter is negative; the completed, failed and skipped steps together
    never exceed [TotalSteps], which is the number of steps of the job; and
    they account for every step when the job succeeded. *)
Theorem summary_accounts_for_steps (host : Host) (r : BashRunner.t) (job : Job.t)
    (workdir : string) (w : World) (s : JobSummary.t) :
  fst (fst (BashRunner.runJobSummary host r job workdir w)) = inr s ->
  0 <= JobSummary.CompletedSteps s
  /\ 0 <= JobSummary.FailedSteps s
  /\ 0 <= JobSummary.SkippedSteps s
  /\ JobSummary.CompletedSteps s + JobSummary.FailedSteps s + JobSummary.SkippedSteps s
     <= JobSummary.TotalSteps s
  /\ JobSummary.TotalSteps s = Z.of_nat (length (Job.Steps job))
  /\ JobSummary.JobName s = Job.Name job
  /\ (if JobSummary.Success s
      then JobSummary.CompletedSteps s + JobSummary.FailedSteps s
           + JobSummary.SkippedSteps s = JobSummary.TotalSteps s
      else JobSummary.Errors s <> []).
Proof.
  unfold BashRunner.runJobSummary. rewrite bind_unfold. cbn [timeNow fst snd].
  destruct (Abs host workdir) as [err | absWorkdir]; [discriminate |].
  destruct (statIsNotExist host absWorkdir); [discriminate |].
  rewrite !bind_unfold. cbn [ret fst snd timeNow].
  set (r' := fst (BashRunner.setupJobEnvironment host r job absWorkdir w)).
  set (w' := snd (BashRunner.setupJobEnvironment host r job absWorkdir w)).
  set (jobEnv := BashRunner.mergeEnvironments host _).
  intros [= <-].
  pose proof (runSteps_counters host r' jobEnv absWorkdir (clock w) (Job.Steps job)
                (BashRunner.initialSummary job) w') as H.
  pose proof (runSteps_errors host r' jobEnv absWorkdir (clock w) (Job.Steps job)
                (BashRunner.initialSummary job) w') as He.
  cbv zeta in H.
  cbn [BashRunner.initialSummary JobSummary.CompletedSteps JobSummary.FailedSteps
       JobSummary.SkippedSteps JobSummary.TotalSteps JobSummary.JobName
       JobSummary.Success] in H.
  destruct H as (H1 & H2 & H3 & H4 & H5 & H6 & H7).
  cbn [JobSummaryOps.withDuration JobSummary.CompletedSteps JobSummary.FailedSteps
       JobSummary.SkippedSteps JobSummary.TotalSteps JobSummary.JobName
       JobSummary.Success JobSummary.Errors].
  split; [lia |]. split; [lia |]. split; [lia |]. split; [lia |].
  split; [rewrite H5; reflexivity |]. split; [rewrite H6; reflexivity |].
  destruct (JobSummary.Success _) eqn:Hs.
  - destruct (H7 eq_refl) as [_ H9]. lia.
  - apply He; [discriminate | reflexivity].
Qed.

(** A job of four steps: one skipped, one failed with continue-on-error,
    one failed without, and one that the loop does not come to. *)
Lemma summary_accounts_for_steps_witness :
  fst (fst (BashRunner.runJobSummary Samples.quickHost
              (BashRunner.NewBashRunner (Samples.config 30))
              (Samples.jobOf "build"
                 [Samples.guardedStep "failure()"; Samples.runStep "false" true;
                  Samples.runStep "false" false; Samples.runStep "true" false] [])
              "." Samples.world0))
  = inr (JobSummary.mk "build" 4 0 2 1 0 false
           ["Step 'false' failed: command failed: exit status 1"])
  /\ 0 + 2 + 1 <= 4.
Proof.
  split; [vm_compute; reflexivity |].
  destruct (summary_accounts_for_steps Samples.quickHost
              (BashRunner.NewBashRunner (Samples.config 30))
              (Samples.jobOf "build"
                 [Samples.guardedStep "failure()"; Samples.runStep "false" true;
                  Samples.runStep "false" false; Samples.runStep "true" false] [])
              "." Samples.world0
              (JobSummary.mk "build" 4 0 2 1 0 false
                 ["Step 'false' failed: command failed: exit status 1"])
              eq_refl) as (_ & _ & _ & H4 & _).
  exact H4.
Defined.

(** ** The native process backend: what is run, and where *)

Section Steps.
Variable host : Host.

(** In a dry run [RunStep] runs nothing. *)
Lemma dry_RunStep (r : BashRunner.t) (step : Step.t) (env : gmap string string)
    (workdir : string) (w : World) :
  RunnerConfig.DryRun (BashRunner.config r) = true ->
  BashRunner.RunStep host r step env workdir w = (None, w).
Proof.
  intros Hdry. unfold BashRunner.RunStep, BashRunner.runActionStep,
    BashRunner.runCheckoutAction, BashRunner.runSetupAction.
  rewrite Hdry.
  destruct (negb (String.eqb (Step.Uses step) "")).
  - destruct (String.eqb _ "actions/checkout"); [reflexivity |].
    destruct (_ || _ || _)%bool; reflexivity.
  - destruct (String.eqb (Step.Run step) ""); reflexivity.
Qed.

(** ... and so does the loop, in which no step fails. *)
Lemma dry_runSteps (r : BashRunner.t) (jobEnv : gmap string string) (absWorkdir : string)
    (startTime : N) (steps : list Step.t) :
  RunnerConfig.DryRun (BashRunner.config r) = true ->
  forall (summary : JobSummary.t) (w : World),
    snd (BashRunner.runSteps host r jobEnv absWorkdir startTime steps summary w) = w
    /\ JobSummary.FailedSteps
         (fst (BashRunner.runSteps host r jobEnv absWorkdir startTime steps summary w))
       = JobSummary.FailedSteps summary.
Proof.
  intros Hdry. induction steps as [| step rest IH]; intros summary w; [now split |].
  cbn [BashRunner.runSteps]. rewrite bind_unfold. cbn [timeNow fst snd].
  destruct (BashRunner.jobTimedOut r startTime (clock w)); [now split |].
  destruct (negb (BashRunner.shouldRunStep step jobEnv)).
  { destruct (IH (JobSummaryOps.skipStep summary) w) as [-> ->]. now split. }
  rewrite bind_unfold, dry_RunStep by exact Hdry. cbn [fst snd].
  destruct (IH (JobSummaryOps.completeStep summary) w) as [-> ->]. now split.
Qed.

(** X2: A dry run of a job starts no process for its steps and sleeps never:
    the log of [RunJob] gains the two queries that [setupJobEnvironment]
    puts to git, and nothing else; no step is counted as failed. *)
Theorem dry_run_runs_no_step (r : BashRunner.t) (job : Job.t)
    (workdir absWorkdir : string) (w : World) :
  RunnerConfig.DryRun (BashRunner.config r) = true ->
  Abs host workdir = inr absWorkdir ->
  statIsNotExist host absWorkdir = false ->
  events (snd (BashRunner.RunJob host r job workdir w))
  = events w
    ++ [EvSpawn (Cmd.withDir (Command host "git" ["rev-parse"; "--abbrev-ref"; "HEAD"])
                   absWorkdir);
        EvSpawn (Cmd.withDir (Command host "git" ["rev-parse"; "HEAD"]) absWorkdir)]
  /\ (forall (step : Step.t) (env : gmap string string) (dir : string) (w0 : World),
        BashRunner.RunStep host r step env dir w0 = (None, w0))
  /\ exists s : JobSummary.t,
       fst (fst (BashRunner.runJobSummary host r job workdir w)) = inr s
       /\ JobSummary.FailedSteps s = 0.
Proof.
  intros Hdry Habs Hstat.
  assert (Hcfg : RunnerConfig.DryRun
                   (BashRunner.config (BashRunner.loopRunner host r job absWorkdir w))
                 = true).
  { unfold BashRunner.loopRunner.
    destruct (setupJobEnvironment_markers host r job absWorkdir w) as [-> _].
    exact Hdry. }
  destruct (dry_runSteps (BashRunner.loopRunner host r job absWorkdir w)
              (BashRunner.jobEnvironment host r job) absWorkdir (clock w) (Job.Steps job)
              Hcfg (BashRunner.initialSummary job)
              (snd (BashRunner.setupJobEnvironment host r job absWorkdir w)))
    as [Hw Hf].
  split; [| split].
  - unfold BashRunner.RunJob. rewrite bind_unfold.
    rewrite (runJobSummary_loop host r job workdir absWorkdir w Habs Hstat).
    cbn [BashRunner.jobOutcome fst snd ret]. unfold BashRunner.atStep. rewrite Hw.
    unfold BashRunner.setupJobEnvironment, BashRunner.getGitBranch,
      BashRunner.getGitCommit.
    rewrite !bind_unfold. cbn [spawn fst snd events].
    destruct (fst (runProcess host (calls w) _));
      rewrite ?bind_unfold; cbn [ret spawn fst snd events calls];
      destruct (fst (runProcess host (S (calls w)) _));
      cbn [ret fst snd events]; now rewrite <- app_assoc.
  - intros step env dir w0. now apply dry_RunStep.
  - rewrite (runJobSummary_loop host r job workdir absWorkdir w Habs Hstat).
    eexists. split; [reflexivity |]. cbn [JobSummaryOps.withDuration JobSummary.FailedSteps].
    unfold BashRunner.atStep. exact Hf.
Qed.

(** X3: A job that [RunJob] rejects has started nothing: [RunJob] returns an
    error only for a working directory that does not resolve or does not
    exist, and then the world and the runner are as they were. *)
Theorem rejected_job_starts_nothing (r : BashRunner.t) (job : Job.t) (workdir : string)
    (w : World) (e : error) :
  fst (fst (BashRunner.RunJob host r job workdir w)) = Some e ->
  BashRunner.RunJob host r job workdir w = (Some e, r, w)
  /\ match Abs host workdir with
     | inl cause => e = Errorf_w "invalid workdir: " cause
     | inr absWorkdir =>
         statIsNotExist host absWorkdir = true
         /\ e = errorsNew ("workdir does not exist: " +:+ absWorkdir)
     end.
Proof.
  unfold BashRunner.RunJob, BashRunner.runJobSummary.
  rewrite !bind_unfold. cbn [timeNow fst snd].
  destruct (Abs host workdir) as [cause | absWorkdir].
  - cbn [ret fst snd]. intros [= <-]. now split.
  - destruct (statIsNotExist host absWorkdir).
    + cbn [ret fst snd]. intros [= <-]. now split.
    + rewrite !bind_unfold. cbn [ret fst snd]. discriminate.
Qed.

(** X4: An action step can fail in one way only: it is a checkout, the run is
    not a dry run, and the fetch, the second command of the checkout,
    fails.  An action that the backend does not know returns nil and
    leaves the world as it was, whatever else the step says. *)
Theorem action_step_fails_only_on_fetch (r : BashRunner.t) (step : Step.t)
    (env : gmap string string) (workdir : string) (w : World) :
  Step.Uses step <> "" ->
  let action := hd "" (Split (Step.Uses step) "@") in
  let res := BashRunner.RunStep host r step env workdir w in
  (fst res = None
   \/ (action = "actions/checkout"
       /\ RunnerConfig.DryRun (BashRunner.config r) = false
       /\ exists cause : error,
            outcomeError (fst (runProcess host (S (calls w))
                                 (Cmd.withDir
                                    (Command host "git" ["fetch"; "--all"; "--tags"])
                                    workdir))) = Some cause
            /\ fst res = Some (Errorf_w "git fetch failed: " cause)))
  /\ (if (String.eqb action "actions/checkout" || String.eqb action "actions/setup-go"
          || String.eqb action "actions/setup-node"
          || String.eqb action "actions/setup-python")%bool
      then (length (events (snd res)) <= length (events w) + 2)%nat
      else res = (None, w)).
Proof.
  intros Huses action res. subst res. unfold BashRunner.RunStep.
  replace (negb (String.eqb (Step.Uses step) "")) with true.
  2:{ symmetry. apply negb_true_iff, String.eqb_neq. exact Huses. }
  unfold BashRunner.runActionStep. fold action.
  destruct (String.eqb action "actions/checkout") eqn:Hco.
  - apply String.eqb_eq in Hco. cbn [orb].
    unfold BashRunner.runCheckoutAction.
    destruct (RunnerConfig.DryRun (BashRunner.config r)).
    { cbn [ret fst snd]. split; [now left | lia]. }
    rewrite bind_unfold. cbn [spawn fst snd].
    destruct (outcomeError (fst (runProcess host (calls w) _))).
    { cbn [ret fst snd events]. split; [now left |]. rewrite length_app. cbn. lia. }
    rewrite bind_unfold. cbn [spawn fst snd calls events].
    destruct (outcomeError (fst (runProcess host (S (calls w)) _))) as [cause |] eqn:Hfetch.
    + cbn [ret fst snd events]. split.
      * right. split; [exact Hco |]. split; [reflexivity |]. exists cause. now split.
      * rewrite !length_app. cbn. lia.
    + cbn [ret fst snd events]. split; [now left |]. rewrite !length_app. cbn. lia.
  - cbn [orb].
    destruct (String.eqb action "actions/setup-go" || String.eqb action "actions/setup-node"
              || String.eqb action "actions/setup-python")%bool.
    + unfold BashRunner.runSetupAction.
      destruct (RunnerConfig.DryRun (BashRunner.config r)).
      { cbn [ret fst snd]. split; [now left | lia]. }
      rewrite bind_unfold. cbn [spawn ret fst snd events]. split; [now left |].
      rewrite length_app. cbn. lia.
    + cbn [ret fst snd]. split; [now left | reflexivity].
Qed.

End Steps.

Lemma dry_run_runs_no_step_witness :
  exists s : JobSummary.t,
    fst (fst (BashRunner.runJobSummary Samples.quickHost
                (BashRunner.NewBashRunner Samples.dryConfig)
                (Samples.jobOf "build"
                   [Samples.runStep "false" false; Samples.checkoutRetryStep] [])
                "." Samples.world0)) = inr s
    /\ JobSummary.FailedSteps s = 0.
Proof.
  exact (proj2 (proj2 (dry_run_runs_no_step Samples.quickHost
                         (BashRunner.NewBashRunner Samples.dryConfig)
                         (Samples.jobOf "build"
                            [Samples.runStep "false" false; Samples.checkoutRetryStep] [])
                         "." "." Samples.world0 eq_refl eq_refl eq_refl))).
Defined.

Lemma rejected_job_starts_nothing_witness :
  BashRunner.RunJob Samples.noDirHost (BashRunner.NewBashRunner (Samples.config 30))
    (Samples.jobOf "build" [Samples.runStep "true" false] []) "/srv/ci" Samples.world0
  = (Some (errorsNew "workdir does not exist: /srv/ci"),
     BashRunner.NewBashRunner (Samples.config 30), Samples.world0).
Proof.
  exact (proj1 (rejected_job_starts_nothing Samples.noDirHost
                  (BashRunner.NewBashRunner (Samples.config 30))
                  (Samples.jobOf "build" [Samples.runStep "true" false] [])
                  "/srv/ci" Samples.world0
                  (errorsNew "workdir does not exist: /srv/ci") eq_refl)).
Defined.

(** A step that names an action the backend does not know, with a command
    beside it that would fail: nothing is run. *)
Lemma action_step_fails_only_on_fetch_witness :
  BashRunner.RunStep Samples.quickHost (BashRunner.NewBashRunner (Samples.config 30))
    Samples.cacheStep ∅ "." Samples.world0
  = (None, Samples.world0).
Proof.
  exact (proj2 (action_step_fails_only_on_fetch Samples.quickHost
                  (BashRunner.NewBashRunner (Samples.config 30))
                  Samples.cacheStep ∅ "." Samples.world0 ltac:(discriminate))).
Defined.

Section Commands.
Variable host : Host.
Variable r : BashRunner.t.

(** The commands that [RunStep] hands to the host for a shell-command
    step: the command of the step or, for a step that is retried, the
    command made from it for a try. *)
Lemma RunStep_spawn_cmd (step : Step.t) (env : gmap string string) (workdir : string)
    (w : World) (new : list Event) (cmd : Cmd.t) :
  Step.Uses step = "" ->
  events (snd (BashRunner.RunStep host r step env workdir w)) = events w ++ new ->
  In (EvSpawn cmd) new ->
  cmd = (if match Step.RetryPolicy step with
            | Some policy => 1 <? RetryPolicy.MaxAttempts policy
            | None => false
            end
         then BashRunner.cloneCommand host (BashRunner.stepCommand host r step env workdir)
         else BashRunner.stepCommand host r step env workdir).
Proof.
  intros Huses. unfold BashRunner.RunStep. rewrite Huses. cbn [String.eqb negb].
  assert (Hnone : forall c : Cmd.t,
             events w = events w ++ new -> In (EvSpawn cmd) new -> cmd = c).
  { intros c H. rewrite <- (app_nil_r (events w)) in H at 1.
    apply app_inv_head in H. subst new. intros []. }
  destruct (String.eqb (Step.Run step) ""); [apply Hnone |].
  destruct (RunnerConfig.DryRun (BashRunner.config r)); [apply Hnone |].
  clear Hnone.
  assert (Hone : events (snd (BashRunner.executeCommand host r
                                (BashRunner.stepCommand host r step env workdir)
                                (Step.Name step) w)) = events w ++ new ->
                 In (EvSpawn cmd) new ->
                 cmd = BashRunner.stepCommand host r step env workdir).
  { cbn [BashRunner.executeCommand bind ret spawn fst snd events]. intros H.
    apply app_inv_head in H. subst new. now intros [[= <-] | []]. }
  destruct (Step.RetryPolicy step) as [policy |]; [| exact Hone].
  destruct (1 <? RetryPolicy.MaxAttempts policy); [| exact Hone].
  unfold BashRunner.executeWithRetry.
  set (maxAttempts := if _ <=? 0 then 1 else _).
  destruct (retryLoop_log host r (BashRunner.stepCommand host r step env workdir) step
              policy maxAttempts (Z.to_nat maxAttempts) 1 None w ltac:(lia))
    as (k & _ & Hlog & _).
  rewrite Hlog. intros H. apply app_inv_head in H. subst new. intros Hin.
  now apply triesLog_spawn in Hin.
Qed.

(** X5: Where and for how long the command of a shell-command step runs.  A
    step without a time limit runs in its working directory under the
    directory of the job; a step with a time limit runs in the directory of
    the job, whatever its working directory.  The time limit binds the
    command of a step that is not retried; the commands of a step that is
    retried have none.  The time limit is one that a [Duration] holds. *)
Theorem step_directory_and_time_limit (step : Step.t) (env : gmap string string)
    (workdir : string) (w : World) (new : list Event) (cmd : Cmd.t) :
  Step.TimeoutMin step * Minute <= 9223372036854775807 ->
  Step.Uses step = "" ->
  events (snd (BashRunner.RunStep host r step env workdir w)) = events w ++ new ->
  In (EvSpawn cmd) new ->
  Cmd.Dir cmd
  = (if (0 <? Step.TimeoutMin step) || String.eqb (Step.WorkingDir step) ""
     then workdir
     else filepathJoin host workdir (Step.WorkingDir step))
  /\ Cmd.CtxTimeout cmd
     = (if match Step.RetryPolicy step with
           | Some policy => 1 <? RetryPolicy.MaxAttempts policy
           | None => false
           end
        then None
        else if 0 <? Step.TimeoutMin step
        then Some (Step.TimeoutMin step * Minute)
        else None)
  /\ List.last (Cmd.Args cmd) "" = Step.Run step.
Proof.
  intros _ Huses Hlog Hin.
  rewrite (RunStep_spawn_cmd step env workdir w new cmd Huses Hlog Hin).
  assert (Hlast : forall (name : string) (args : list string),
             List.last (Cmd.Args (Command host name (args ++ [Step.Run step]))) ""
             = Step.Run step).
  { intros name args. cbn [Command Cmd.Args].
    change (name :: args ++ [Step.Run step]) with ((name :: args) ++ [Step.Run step]).
    apply List.last_last. }
  assert (Hargs : exists (name : string) (args : list string),
             BashRunner.prepareCommand host
               (BashRunner.getShell host (Step.Shell step)) (Step.Run step)
             = Command host name (args ++ [Step.Run step])).
  { unfold BashRunner.prepareCommand.
    destruct (String.eqb _ "bash"); [now exists "bash", ["-eo"; "pipefail"; "-c"] |].
    destruct (String.eqb _ "sh"); [now exists "sh", ["-e"; "-c"] |].
    destruct (_ || _)%bool; [now exists "pwsh", ["-Command"] |].
    destruct (_ || _)%bool; [now exists "python3", ["-c"] |].
    destruct (String.eqb _ "node"); [now exists "node", ["-e"] |].
    now exists (BashRunner.getShell host (Step.Shell step)), ["-c"]. }
  destruct Hargs as (name & args & Hargs).
  unfold BashRunner.cloneCommand, BashRunner.stepCommand. rewrite Hargs.
  destruct (Step.RetryPolicy step) as [policy |];
    [destruct (1 <? RetryPolicy.MaxAttempts policy) |];
    destruct (0 <? Step.TimeoutMin step);
    destruct (String.eqb (Step.WorkingDir step) "");
    cbn [negb orb Cmd.withDir Cmd.withEnv Cmd.Dir Cmd.CtxTimeout Cmd.Args Cmd.Path
         Command CommandContext tl];
    (split; [reflexivity |]); (split; [reflexivity |]);
    change (?n :: args ++ [Step.Run step]) with ((n :: args) ++ [Step.Run step]);
    apply List.last_last.
Qed.

(** X6: [mergeEnvironments]: one map after the other is laid over the result,
    so that the order in which the entries of a map are visited makes no
    difference. *)
Theorem mergeEnvironments_union (envs : list (gmap string string)) :
  BashRunner.mergeEnvironments host envs = foldl (fun result env => env ∪ result) ∅ envs.
Proof.
  unfold BashRunner.mergeEnvironments.
  generalize (∅ : gmap string string) as acc.
  induction envs as [| env envs IH]; intros acc; [reflexivity |].
  cbn [foldl]. rewrite <- IH. f_equal.
  apply map_eq. intros k.
  rewrite foldl_insert_lookup by apply rangeMap_NoDup.
  rewrite rangeMap_to_map, lookup_union.
  destruct (env !! k), (acc !! k); reflexivity.
Qed.

End Commands.

(** A step with a working directory and a time limit of five minutes: its
    command runs in the directory of the job. *)
Lemma step_directory_and_time_limit_witness :
  Cmd.Dir (BashRunner.stepCommand Samples.quickHost
             (BashRunner.NewBashRunner (Samples.config 30)) (Samples.limitedStep 0) ∅ "/w")
  = "/w"
  /\ Cmd.CtxTimeout (BashRunner.stepCommand Samples.quickHost
                       (BashRunner.NewBashRunner (Samples.config 30))
                       (Samples.limitedStep 0) ∅ "/w")
     = Some 300000000000.
Proof.
  destruct (step_directory_and_time_limit Samples.quickHost
              (BashRunner.NewBashRunner (Samples.config 30)) (Samples.limitedStep 0) ∅ "/w"
              Samples.world0
              [EvSpawn (BashRunner.stepCommand Samples.quickHost
                          (BashRunner.NewBashRunner (Samples.config 30))
                          (Samples.limitedStep 0) ∅ "/w")]
              (BashRunner.stepCommand Samples.quickHost
                 (BashRunner.NewBashRunner (Samples.config 30))
                 (Samples.limitedStep 0) ∅ "/w")
              ltac:(vm_compute; discriminate) eq_refl eq_refl (or_introl eq_refl))
    as (H1 & H2 & _).
  split; [exact H1 | exact H2].
Defined.

(** The same step with three attempts: the tries have no time limit. *)
Example retried_step_has_no_time_limit :
  match events (snd (BashRunner.RunStep Samples.quickHost
                       (BashRunner.NewBashRunner (Samples.config 30))
                       (Samples.limitedStep 3) ∅ "/w" Samples.world0)) with
  | [EvSpawn cmd] => Cmd.CtxTimeout cmd = None /\ Cmd.Dir cmd = "/w"
  | _ => False
  end.
Proof. vm_compute. split; reflexivity. Qed.

(** ** The container backend: images, scripts, mounts *)

(** X7: Every job has an image: the image of its container, else its own
    image, else one that stands for its [runs-on], which is never the
    empty name; a job that says nothing runs on [ubuntu:22.04]. *)
Theorem getImageName_never_empty (job : Job.t) :
  String.eqb (DockerRunner.getImageName job) "" = false
  /\ (if match Job.Container job with
         | Some c => negb (String.eqb (Container.Image c) "")
         | None => false
         end
      then Some (DockerRunner.getImageName job) = option_map Container.Image (Job.Container job)
      else if negb (String.eqb (Job.Image job) "")
      then DockerRunner.getImageName job = Job.Image job
      else if String.eqb (Job.RunsOn job) ""
      then DockerRunner.getImageName job = "ubuntu:22.04"
      else In (DockerRunner.getImageName job)
              (map snd DockerRunner.imageMap
               ++ ["ubuntu:22.04"; "debian:latest"; "alpine:latest"; "node:lts-slim";
                   "python:3-slim"; "golang:alpine"])).
Proof.
  assert (Htable : forall kv, In kv DockerRunner.imageMap -> String.eqb (snd kv) "" = false).
  { intros kv Hin.
    assert (H : forallb (fun kv => negb (String.eqb (snd kv) "")) DockerRunner.imageMap = true)
      by reflexivity.
    rewrite forallb_forall in H. apply negb_true_iff. now apply H. }
  unfold DockerRunner.getImageName.
  destruct (Job.Container job) as [c |].
  - destruct (String.eqb (Container.Image c) "") eqn:Hc; cbn [negb].
    + destruct (String.eqb (Job.Image job) "") eqn:Hi; cbn [negb];
        [| split; [exact Hi | reflexivity]].
      destruct (String.eqb (Job.RunsOn job) "") eqn:Hr.
      * apply String.eqb_eq in Hr. rewrite Hr. split; reflexivity.
      * destruct (find _ DockerRunner.imageMap) as [kv |] eqn:Hfind.
        -- apply find_some in Hfind as [Hin _]. split.
           ++ now apply Htable.
           ++ apply in_or_app. left. now apply in_map.
        -- repeat match goal with
                  | |- context [if ?b then _ else _] => destruct b
                  end; split; try reflexivity; apply in_or_app; right; cbn; tauto.
    + split; [exact Hc | reflexivity].
  - destruct (String.eqb (Job.Image job) "") eqn:Hi; cbn [negb];
      [| split; [exact Hi | reflexivity]].
    destruct (String.eqb (Job.RunsOn job) "") eqn:Hr.
    + apply String.eqb_eq in Hr. rewrite Hr. split; reflexivity.
    + destruct (find _ DockerRunner.imageMap) as [kv |] eqn:Hfind.
      * apply find_some in Hfind as [Hin _]. split.
        -- now apply Htable.
        -- apply in_or_app. left. now apply in_map.
      * repeat match goal with
               | |- context [if ?b then _ else _] => destruct b
               end; split; try reflexivity; apply in_or_app; right; cbn; tauto.
Qed.

Section Scripts.
Variable host : Host.

(** The lines of a shell-command step have its command among them. *)
Lemma stepLines_command (totalSteps stepNum : Z) (step : Step.t) :
  shellStep step = true ->
  [Step.Run step] `sublist_of` DockerRunner.stepLines host totalSteps stepNum step.
Proof.
  unfold shellStep, DockerRunner.stepLines. intros H.
  apply andb_true_iff in H as [Huses Hrun]. rewrite Huses. cbn [negb].
  apply negb_true_iff in Hrun. rewrite Hrun.
  apply sublist_inserts_l. apply sublist_inserts_l. apply sublist_inserts_l.
  apply sublist_inserts_r. reflexivity.
Qed.

Lemma scriptSteps_commands (totalSteps : Z) (steps : list Step.t) :
  forall stepNum : Z,
    map Step.Run (List.filter shellStep steps)
    `sublist_of` DockerRunner.scriptSteps host totalSteps steps stepNum [].
Proof.
  induction steps as [| step rest IH]; intros stepNum; [constructor |].
  rewrite scriptSteps_cons, scriptSteps_acc. cbn [app List.filter].
  destruct (shellStep step) eqn:Hshell.
  - cbn [map]. change (Step.Run step :: ?l) with ([Step.Run step] ++ l).
    apply sublist_app; [now apply stepLines_command | apply IH].
  - apply sublist_inserts_l, IH.
Qed.

(** X8: The generated script begins with the two lines that make a shell stop
    at the first command that fails, ends with the line that reports
    success, and has the commands of the shell-command steps of the job on
    lines of their own, in the order of the steps. *)
Theorem script_runs_commands_in_order (r : DockerRunner.t) (job : Job.t) :
  map Step.Run (List.filter shellStep (Job.Steps job))
  `sublist_of` DockerRunner.jobScriptLines host r job
  /\ take 2 (DockerRunner.jobScriptLines host r job) = ["#!/bin/sh"; "set -e"]
  /\ List.last (DockerRunner.jobScriptLines host r job) ""
     = "echo 'All steps completed successfully!'".
Proof.
  unfold DockerRunner.jobScriptLines.
  cbn zeta. rewrite scriptSteps_acc.
  split; [| split].
  - apply sublist_inserts_r, sublist_inserts_l, scriptSteps_commands.
  - destruct (RunnerConfig.Verbose (DockerRunner.config r)); reflexivity.
  - change ["" ; "echo ''"; "echo 'All steps completed successfully!'"]
      with ([""; "echo ''"] ++ ["echo 'All steps completed successfully!'"]).
    rewrite app_assoc. apply List.last_last.
Qed.

End Scripts.

Section Removal.
Variable daemon : Docker.Daemon.



End Removal.


Section Jobs.
Variable host : Host.
Variable daemon : Docker.Daemon.

(** X10: Whatever becomes of the stream of the logs of the container, the
    outcome of the job, the containers of the runner and the world are the
    same: an error of [streamLogs] is never returned. *)
Theorem log_errors_do_not_fail_the_job (logs : nat -> string -> Docker.LogsResult)
    (r : DockerRunner.t) (job : Job.t) (workdir : string) (w : World) :
  DockerRunner.RunJob host (withLogs daemon logs) r job workdir w
  = DockerRunner.RunJob host daemon r job workdir w.
Proof.
  unfold DockerRunner.RunJob.
  destruct (RunnerConfig.DryRun (DockerRunner.config r)); [reflexivity |].
  assert (Hexists : DockerRunner.imageExists (withLogs daemon logs)
                      (DockerRunner.getImageName job) w
                    = DockerRunner.imageExists daemon (DockerRunner.getImageName job) w)
    by reflexivity.
  rewrite !bind_unfold. rewrite Hexists.
  destruct (DockerRunner.imageExists daemon (DockerRunner.getImageName job) w)
    as [exists_ w1]. cbn [fst snd].
  assert (Hpull : DockerRunner.pullImage (withLogs daemon logs)
                    (DockerRunner.getImageName job)
                  = DockerRunner.pullImage daemon (DockerRunner.getImageName job))
    by reflexivity.
  rewrite Hpull.
  match goal with
  | |- context [fst (?m w1)] => destruct (m w1) as [[err |] w2]
  end; cbn [fst snd]; [reflexivity |].
  assert (Hcreate : DockerRunner.createContainer host (withLogs daemon logs) r job
                      (DockerRunner.getImageName job) workdir
                    = DockerRunner.createContainer host daemon r job
                        (DockerRunner.getImageName job) workdir) by reflexivity.
  rewrite Hcreate. rewrite !bind_unfold.
  destruct (DockerRunner.createContainer host daemon r job
              (DockerRunner.getImageName job) workdir w2)
    as [[[err | id] |] w3]; cbn [fst snd]; [reflexivity | | reflexivity].
  rewrite !bind_unfold.
  cbn [withLogs Docker.containerStart dockerCall fst snd].
  destruct (Docker.containerStart daemon (calls w3) id); [reflexivity |].
  set (w4 := mkWorld _ _ _).
  rewrite !bind_unfold.
  assert (Hlogs : snd (DockerRunner.streamLogs (withLogs daemon logs) id w4)
                  = snd (DockerRunner.streamLogs daemon id w4)).
  { unfold DockerRunner.streamLogs. rewrite !bind_unfold.
    cbn [withLogs Docker.containerLogs dockerCall fst snd calls].
    destruct (logs _ id), (Docker.containerLogs daemon _ id); reflexivity. }
  rewrite Hlogs. reflexivity.
Qed.


End Jobs.


Section Counts.
Variable newRunner : M (error + Runner.t).

Lemma sequentialLoop_counts (continueOnError : bool) (workdir : string)
    (jobs : list (string * Job.t)) :
  forall (successCount failureCount : Z) (w : World) (rep : Handlers.Report),
    fst (Handlers.sequentialLoop newRunner continueOnError workdir jobs
           successCount failureCount w) = Returned rep ->
    successCount <= Handlers.successCount rep
    /\ failureCount <= Handlers.failureCount rep
    /\ Handlers.successCount rep + Handlers.failureCount rep
       <= successCount + failureCount + Z.of_nat (length jobs)
    /\ (if Handlers.printedCounts rep
        then Handlers.successCount rep + Handlers.failureCount rep
             = successCount + failureCount + Z.of_nat (length jobs)
             /\ Handlers.returned rep = None
        else exists e, Handlers.returned rep = Some e).
Proof.
  induction jobs as [| [jobName job] jobs IH]; intros sc fc w rep.
  - cbn. intros [= <-]. cbn.
    split; [lia |]. split; [lia |]. split; [lia |]. split; [lia | reflexivity].
  - cbn [Handlers.sequentialLoop]. rewrite bind_unfold.
    destruct (fst (newRunner w)) as [e | runner].
    { intros [= <-]. cbn [Handlers.successCount Handlers.failureCount
                           Handlers.printedCounts Handlers.returned length].
      split; [lia |]. split; [lia |]. split; [lia | eauto]. }
    rewrite bind_unfold.
    destruct (fst (Handlers.runAndCleanup runner _ workdir _)) as [[e |] |];
      [| | discriminate].
    + destruct (negb continueOnError && negb (Job.AllowFailure _))%bool.
      * intros [= <-]. cbn [Handlers.successCount Handlers.failureCount
                             Handlers.printedCounts Handlers.returned length].
        split; [lia |]. split; [lia |]. split; [lia | eauto].
      * intros H. destruct (IH _ _ _ _ H) as (H1 & H2 & H3 & H4).
        cbn [length]. split; [lia |]. split; [lia |]. split; [lia |].
        destruct (Handlers.printedCounts rep); [| exact H4].
        destruct H4 as [H4 H5]. split; [lia | exact H5].
    + intros H. destruct (IH _ _ _ _ H) as (H1 & H2 & H3 & H4).
      cbn [length]. split; [lia |]. split; [lia |]. split; [lia |].
      destruct (Handlers.printedCounts rep); [| exact H4].
      destruct H4 as [H4 H5]. split; [lia | exact H5].
Qed.

(** X12: The counts of the sequential scheduler: no job is counted twice, and
    when the closing lines are printed every job has been counted once; a
    run that stops before them returns an error. *)
Theorem sequential_scheduler_counts (c : Flags.t) (jobs : list (string * Job.t))
    (workdir : string) (w : World) (rep : Handlers.Report) :
  fst (Handlers.runJobsSequential newRunner c jobs workdir w) = Returned rep ->
  0 <= Handlers.successCount rep
  /\ 0 <= Handlers.failureCount rep
  /\ Handlers.successCount rep + Handlers.failureCount rep <= Z.of_nat (length jobs)
  /\ (if Handlers.printedCounts rep
      then Handlers.successCount rep + Handlers.failureCount rep = Z.of_nat (length jobs)
      else exists e, Handlers.returned rep = Some e).
Proof.
  unfold Handlers.runJobsSequential. rewrite bind_unfold.
  destruct (fst (Handlers.sequentialLoop newRunner _ workdir jobs 0 0 w))
    as [rep0 |] eqn:Hloop; [| discriminate].
  destruct (sequentialLoop_counts _ _ _ _ _ _ _ Hloop) as (H1 & H2 & H3 & H4).
  destruct (Handlers.printedCounts rep0) eqn:Hprinted.
  - destruct H4 as [H4 _].
    destruct (_ && _)%bool; intros [= <-];
      cbn [Handlers.successCount Handlers.failureCount Handlers.printedCounts];
      try rewrite Hprinted; (split; [lia |]; split; [lia |]; split; lia).
  - intros [= <-]. rewrite Hprinted. split; [lia |]. split; [lia |]. split; [lia |].
    exact H4.
Qed.


Lemma runWorkers_length (workdir : string) (schedule : list (string * Job.t)) :
  forall (w : World) (results : list Handlers.jobResult),
    fst (Handlers.runWorkers newRunner workdir schedule w) = Returned results ->
    map Handlers.name results = map fst schedule.
Proof.
  induction schedule as [| [jobName job] schedule IH]; intros w results.
  - cbn. now intros [= <-].
  - cbn [Handlers.runWorkers]. rewrite bind_unfold.
    destruct (Handlers.jobWorker newRunner workdir jobName job w) as [[result |] w1] eqn:Hw;
      cbn [fst snd]; [| discriminate].
    rewrite bind_unfold.
    destruct (fst (Handlers.runWorkers newRunner workdir schedule w1)) as [more |] eqn:Hmore;
      [| discriminate].
    intros [= <-]. cbn [map fst]. f_equal; [| now apply (IH w1)].
    revert Hw. unfold Handlers.jobWorker. rewrite bind_unfold.
    destruct (fst (newRunner w)); [now intros [= <- _] |].
    rewrite bind_unfold.
    destruct (fst (Handlers.runAndCleanup _ _ _ _)); [now intros [= <- _] | discriminate].
Qed.

End Counts.

(** The loop that drains the channel, in closed form: the results with an
    error are counted as failures, the others as successes, and the error
    kept is the first one received. *)
Lemma collectResults_counts (continueOnError : bool) (results : list Handlers.jobResult) :
  forall (successCount failureCount : Z) (firstError : option error),
    Handlers.collectResults continueOnError results successCount failureCount firstError
    = (successCount
       + Z.of_nat (length (List.filter (fun res => negb (bool_decide (Handlers.err res <> None)))
                             results)),
       failureCount
       + Z.of_nat (length (List.filter (fun res => bool_decide (Handlers.err res <> None))
                             results)),
       match firstError with
       | Some e => Some e
       | None =>
           if continueOnError then None
           else match List.find (fun res => bool_decide (Handlers.err res <> None)) results with
                | Some res => Handlers.err res
                | None => None
                end
       end).
Proof.
  induction results as [| res results IH]; intros sc fc fe.
  - cbn. rewrite !Z.add_0_r. destruct fe, continueOnError; reflexivity.
  - cbn [Handlers.collectResults List.filter List.find].
    destruct (Handlers.err res) as [e |] eqn:He.
    + rewrite IH. rewrite bool_decide_true by discriminate. cbn [negb length].
      rewrite He. f_equal; [f_equal; lia |].
      destruct fe; [reflexivity |]. destruct continueOnError; reflexivity.
    + rewrite IH. rewrite bool_decide_false by tauto. cbn [negb length].
      f_equal. f_equal; lia.
Qed.

Section Parallel.
Variable newRunner : M (error + Runner.t).

(** X14: The parallel scheduler counts every job of the schedule once, as a
    success or as a failure, whatever the order of the workers; it returns
    nil exactly when no job failed.  Without the flag continue-on-error the
    error it returns wraps the error of the first failed job to report. *)
Theorem parallel_scheduler_counts (c : Flags.t) (schedule : list (string * Job.t))
    (workdir : string) (w : World) (rep : Handlers.Report) :
  fst (Handlers.runJobsParallel newRunner c schedule workdir w) = Returned rep ->
  exists results : list Handlers.jobResult,
    fst (Handlers.runWorkers newRunner workdir schedule w) = Returned results
    /\ map Handlers.name results = map fst schedule
    /\ Handlers.printedCounts rep = true
    /\ Handlers.failureCount rep
       = Z.of_nat (length (List.filter (fun res => bool_decide (Handlers.err res <> None))
                             results))
    /\ Handlers.successCount rep + Handlers.failureCount rep = Z.of_nat (length schedule)
    /\ Handlers.returned rep
       = match List.find (fun res => bool_decide (Handlers.err res <> None)) results with
         | None => None
         | Some res =>
             if Flags.continueOnError c
             then Some (errorsNew (itoa (Handlers.failureCount rep) +:+ " job(s) failed"))
             else match Handlers.err res with
                  | Some e => Some (Errorf_w "pipeline failed: " e)
                  | None => None
                  end
         end.
Proof.
  unfold Handlers.runJobsParallel. rewrite bind_unfold.
  destruct (fst (Handlers.runWorkers newRunner workdir schedule w)) as [results |] eqn:Hw;
    [| discriminate].
  intros [= <-]. exists results. split; [reflexivity |].
  pose proof (runWorkers_length newRunner workdir schedule w results Hw) as Hnames.
  split; [exact Hnames |].
  assert (Hlen : length schedule = length results).
  { rewrite <- (length_map fst schedule), <- Hnames. now rewrite length_map. }
  unfold Handlers.parallelVerdict. rewrite collectResults_counts.
  assert (Hsplit : (length (List.filter
                              (fun res => negb (bool_decide (Handlers.err res <> None)))
                              results)
                    + length (List.filter
                                (fun res => bool_decide (Handlers.err res <> None)) results)
                    = length results)%nat).
  { clear. induction results as [| res results IH]; [reflexivity |].
    cbn [List.filter]. destruct (bool_decide _); cbn [negb length]; lia. }
  set (failed := fun res : Handlers.jobResult => bool_decide (Handlers.err res <> None))
    in *.
  assert (Hfind : match List.find failed results with
                  | Some res => exists e, Handlers.err res = Some e
                                          /\ (0 < length (List.filter failed results))%nat
                  | None => length (List.filter failed results) = 0%nat
                  end).
  { clear. induction results as [| res results IH]; [reflexivity |].
    cbn [List.find List.filter]. destruct (failed res) eqn:Hf.
    - unfold failed in Hf. apply bool_decide_eq_true in Hf.
      destruct (Handlers.err res) as [e |]; [| congruence].
      exists e. split; [reflexivity |]. cbn [length]. lia.
    - exact IH. }
  rewrite !Z.add_0_l.
  destruct (List.find failed results) as [res |].
  - destruct Hfind as (e & He & Hpos). rewrite He.
    destruct (Flags.continueOnError c); cbn [negb].
    + replace (0 <? Z.of_nat (length (List.filter failed results))) with true
        by (symmetry; apply Z.ltb_lt; lia).
      cbn [Handlers.printedCounts Handlers.failureCount Handlers.successCount
           Handlers.returned].
      split; [reflexivity |]. split; [reflexivity |]. split; [lia | reflexivity].
    + cbn [Handlers.printedCounts Handlers.failureCount Handlers.successCount
           Handlers.returned].
      split; [reflexivity |]. split; [reflexivity |]. split; [lia | reflexivity].
  - rewrite Hfind.
    assert (Hnone : (if negb (Flags.continueOnError c) then
                       (if Flags.continueOnError c then None else @None error)
                     else None) = None) by (now destruct (Flags.continueOnError c)).
    rewrite Hnone. rewrite Hfind in Hsplit. change (Z.of_nat 0) with 0.
    change (0 <? 0) with false.
    cbn [Handlers.printedCounts Handlers.failureCount Handlers.successCount
         Handlers.returned].
    split; [reflexivity |]. split; [reflexivity |]. split; [lia | reflexivity].
Qed.

End Parallel.

Lemma sequential_scheduler_counts_witness :
  0 <= Handlers.successCount (Handlers.mkReport None 1 0 true)
  /\ 0 <= Handlers.failureCount (Handlers.mkReport None 1 0 true)
  /\ Handlers.successCount (Handlers.mkReport None 1 0 true)
     + Handlers.failureCount (Handlers.mkReport None 1 0 true)
     <= Z.of_nat (length [("build", Samples.jobOf "build" [Samples.runStep "make" false] [])])
  /\ (if Handlers.printedCounts (Handlers.mkReport None 1 0 true)
      then Handlers.successCount (Handlers.mkReport None 1 0 true)
           + Handlers.failureCount (Handlers.mkReport None 1 0 true)
           = Z.of_nat (length [("build",
                                Samples.jobOf "build" [Samples.runStep "make" false] [])])
      else exists e, Handlers.returned (Handlers.mkReport None 1 0 true) = Some e).
Proof.
  apply (sequential_scheduler_counts
           (Handlers.createRunner Samples.quickHost (Samples.daemonWith 0 false)
              (Samples.flags false false) (Samples.config 30))
           (Samples.flags false false)
           [("build", Samples.jobOf "build" [Samples.runStep "make" false] [])]
           "." Samples.world0).
  vm_compute. reflexivity.
Defined.

(** A job with [allow_failure] fails in a container that exits with status
    1: the sequential scheduler goes on to the end of the jobs, prints its
    counts and returns the error [1 job(s) failed].  When a job without
    [allow_failure] follows and fails too, the run stops there. *)
Example allowed_failure_is_returned_at_the_end :
  fst (Handlers.runJobsSequential
         (Handlers.createRunner Samples.quickHost (Samples.daemonWith 1 false)
            (Samples.flags true false) (Samples.config 30))
         (Samples.flags true false)
         [("lint", Samples.allowedJob "lint")] "." Samples.world0)
  = Returned (Handlers.mkReport (Some (errorsNew "1 job(s) failed")) 0 1 true)
  /\ fst (Handlers.runJobsSequential
            (Handlers.createRunner Samples.quickHost (Samples.daemonWith 1 false)
               (Samples.flags true false) (Samples.config 30))
            (Samples.flags true false)
            [("lint", Samples.allowedJob "lint");
             ("build", Samples.jobOf "build" [Samples.runStep "false" false] []);
             ("test", Samples.jobOf "test" [Samples.runStep "make test" false] [])]
            "." Samples.world0)
     = Returned (Handlers.mkReport
                   (Some (Wrapped "job 'build' failed: container exited with status 1"
                            (errorsNew "container exited with status 1")))
                   0 2 false).
Proof. vm_compute. split; reflexivity. Qed.


Lemma parallel_scheduler_counts_witness :
  exists results : list Handlers.jobResult,
    fst (Handlers.runWorkers
           (Handlers.createRunner Samples.quickHost (Samples.daemonWith 1 false)
              (Samples.flags true false) (Samples.config 30))
           "." [("lint", Samples.allowedJob "lint");
                ("build", Samples.jobOf "build" [Samples.runStep "make" false] [])]
           Samples.world0) = Returned results
    /\ map Handlers.name results = ["lint"; "build"]
    /\ Handlers.printedCounts
         (Handlers.mkReport
            (Some (Wrapped "pipeline failed: container exited with status 1"
                     (errorsNew "container exited with status 1"))) 0 2 true) = true
    /\ 2 = Z.of_nat (length (List.filter
                               (fun res => bool_decide (Handlers.err res <> None)) results))
    /\ 0 + 2 = 2
    /\ Some (Wrapped "pipeline failed: container exited with status 1"
               (errorsNew "container exited with status 1"))
       = match List.find (fun res => bool_decide (Handlers.err res <> None)) results with
         | None => None
         | Some res =>
             if Flags.continueOnError (Samples.flags true false)
             then Some (errorsNew (itoa 2 +:+ " job(s) failed"))
             else match Handlers.err res with
                  | Some e => Some (Errorf_w "pipeline failed: " e)
                  | None => None
                  end
         end.
Proof.
  apply (parallel_scheduler_counts
           (Handlers.createRunner Samples.quickHost (Samples.daemonWith 1 false)
              (Samples.flags true false) (Samples.config 30))
           (Samples.flags true false)
           [("lint", Samples.allowedJob "lint");
            ("build", Samples.jobOf "build" [Samples.runStep "make" false] [])]
           "." Samples.world0
           (Handlers.mkReport
              (Some (Wrapped "pipeline failed: container exited with status 1"
                       (errorsNew "container exited with status 1"))) 0 2 true)).
  vm_compute. reflexivity.
Defined.

(** ** The selection of the jobs *)

Lemma Contains_star (s : string) :
  Contains s "*" = negb (lacks "*"%char s).
Proof.
  induction s as [| c s IH]; [reflexivity |].
  cbn [Contains String.prefix lacks list_ascii_of_string forallb] in *.
  rewrite IH. unfold lacks.
  destruct (Ascii.eqb_spec c "*"%char) as [-> | Hne].
  - destruct (ascii_dec "*"%char "*"%char) as [_ | E]; [| congruence].
    now destruct s.
  - destruct (ascii_dec "*"%char c) as [E | _]; [congruence |].
    cbn [negb andb orb]. reflexivity.
Qed.

(** X15: On the name of a job that has no star, a pattern with a star matches
    when the name contains the pattern without its stars, wherever the
    stars were; a pattern without a star matches its own name only. *)
Theorem matchPattern_searches_a_substring (name pattern : string) :
  lacks "*"%char name = true ->
  Select.matchPattern name pattern
  = if lacks "*"%char pattern then String.eqb pattern name
    else Contains name (ReplaceAll pattern "*"%char "").
Proof.
  intros Hname. unfold Select.matchPattern. rewrite Contains_star.
  destruct (String.eqb_spec pattern name) as [-> | Hne].
  - now rewrite Hname.
  - now destruct (lacks "*"%char pattern).
Qed.

Lemma matchPattern_searches_a_substring_witness :
  Select.matchPattern "deploy-to-prod" "deploy*prod" = false
  /\ Select.matchPattern "redeploy-prod" "deploy-*" = true.
Proof.
  split.
  - rewrite (matchPattern_searches_a_substring "deploy-to-prod" "deploy*prod" eq_refl).
    reflexivity.
  - rewrite (matchPattern_searches_a_substring "redeploy-prod" "deploy-*" eq_refl).
    reflexivity.
Defined.

Section Selecting.
Variable host : Host.

Lemma rangeMap_NoDup_any {V : Type} (m : gmap string V) : NoDup ((rangeMap host m).*1).
Proof. rewrite (rangeMap_perm host). apply NoDup_fst_map_to_list. Qed.

Lemma rangeMap_to_map_any {V : Type} (m : gmap string V) :
  list_to_map (rangeMap host m) = m.
Proof.
  rewrite (list_to_map_proper _ (map_to_list m)).
  - apply list_to_map_to_list.
  - apply rangeMap_NoDup_any.
  - apply rangeMap_perm.
Qed.

(** A loop over the entries of a map that copies those that pass a test. *)
Lemma foldl_copy_lookup {V : Type} (keep : string -> V -> bool)
    (f : gmap string V -> string * V -> gmap string V) :
  (forall acc kv, f acc kv = if keep (fst kv) (snd kv) then <[fst kv := snd kv]> acc else acc) ->
  forall (l : list (string * V)) (acc : gmap string V) (k : string),
    NoDup (l.*1) ->
    foldl f acc l !! k
    = match (list_to_map l : gmap string V) !! k with
      | Some v => if keep k v then Some v else acc !! k
      | None => acc !! k
      end.
Proof.
  intros Hf. induction l as [| [k' v'] l IH]; intros acc k Hnd; [reflexivity |].
  cbn [fmap list_fmap fst] in Hnd. apply NoDup_cons in Hnd as [Hfresh Hnd].
  cbn [foldl]. rewrite (IH _ _ Hnd), list_to_map_cons, Hf. cbn [fst snd].
  destruct (decide (k' = k)) as [-> | Hne].
  - rewrite lookup_insert_eq.
    assert (Hk : (list_to_map l : gmap string V) !! k = None).
    { apply not_elem_of_list_to_map_1. exact Hfresh. }
    rewrite Hk. destruct (keep k v'); [now rewrite lookup_insert_eq | reflexivity].
  - rewrite lookup_insert_ne by exact Hne.
    destruct (list_to_map l !! k) as [v |]; [destruct (keep k v) |];
      try reflexivity;
      (destruct (keep k' v'); [now rewrite lookup_insert_ne by exact Hne | reflexivity]).
Qed.

Lemma copy_lookup {V : Type} (keep : string -> V -> bool)
    (f : gmap string V -> string * V -> gmap string V) (m : gmap string V) (k : string) :
  (forall acc kv, f acc kv = if keep (fst kv) (snd kv) then <[fst kv := snd kv]> acc else acc) ->
  foldl f ∅ (rangeMap host m) !! k
  = match m !! k with
    | Some v => if keep k v then Some v else None
    | None => None
    end.
Proof.
  intros Hf. rewrite (foldl_copy_lookup keep f Hf) by apply rangeMap_NoDup_any.
  rewrite rangeMap_to_map_any, lookup_empty. reflexivity.
Qed.

(** X16: [filterJobs] keeps the jobs that match a pattern of [only], if there is
    one, and no pattern of [except]: a job that matches both lists is left
    out, and the order in which the map is visited makes no difference. *)
Theorem filterJobs_keeps (jobs : gmap string Job.t) (only except : list string)
    (name : string) :
  Select.filterJobs host jobs only except !! name
  = match jobs !! name with
    | Some job =>
        if ((Nat.eqb (length only) 0 || existsb (Select.matchPattern name) only)
            && negb (existsb (Select.matchPattern name) except))%bool
        then Some job
        else None
    | None => None
    end.
Proof.
  unfold Select.filterJobs.
  destruct only as [| o only], except as [| e except]; cbn [length Nat.eqb andb].
  - cbn. now destruct (jobs !! name).
  - rewrite (copy_lookup
               (fun name (_ : Job.t) => negb (existsb (Select.matchPattern name) (e :: except)))).
    + reflexivity.
    + intros acc kv. cbn [Nat.ltb Nat.leb andb length].
      now destruct (existsb _ (e :: except)).
  - rewrite (copy_lookup
               (fun name (_ : Job.t) => existsb (Select.matchPattern name) (o :: only))).
    + cbn [orb existsb negb]. destruct (jobs !! name); [| reflexivity].
      now rewrite andb_true_r.
    + intros acc kv. cbn [Nat.ltb Nat.leb andb length].
      now destruct (existsb _ (o :: only)).
  - rewrite (copy_lookup
               (fun name (_ : Job.t) =>
                  (existsb (Select.matchPattern name) (o :: only)
                   && negb (existsb (Select.matchPattern name) (e :: except)))%bool)).
    + reflexivity.
    + intros acc kv. cbn [Nat.ltb Nat.leb andb length].
      now destruct (existsb _ (o :: only)), (existsb _ (e :: except)).
Qed.

(** [getJobsByStage]: the jobs of the stage. *)
Lemma getJobsByStage_lookup (pipeline : Pipeline.t) (stage name : string) :
  Select.getJobsByStage host pipeline stage !! name
  = match Pipeline.Jobs pipeline !! name with
    | Some job => if String.eqb (Job.Stage job) stage then Some job else None
    | None => None
    end.
Proof.
  unfold Select.getJobsByStage.
  now rewrite (copy_lookup (fun _ job => String.eqb (Job.Stage job) stage)).
Qed.

(** X17: The jobs selected are jobs of the pipeline, under their names. *)
Theorem selectJobsToRun_selects_from_the_pipeline (c : Selection.t) (pipeline : Pipeline.t) :
  Select.selectJobsToRun host c pipeline ⊆ Pipeline.Jobs pipeline.
Proof.
  apply map_subseteq_spec. intros name job.
  unfold Select.selectJobsToRun.
  destruct (negb (String.eqb (Selection.job c) "")).
  - destruct (Pipeline.Jobs pipeline !! Selection.job c) as [j |] eqn:Hj.
    + intros H. apply lookup_singleton_Some in H as [<- <-]. exact Hj.
    + destruct (Nat.ltb 0 (size _)); [| now rewrite lookup_empty].
      rewrite (copy_lookup (fun name (_ : Job.t) =>
                              Select.matchPattern name (Selection.job c)))
        by reflexivity.
      destruct (Pipeline.Jobs pipeline !! name); [| discriminate].
      now destruct (Select.matchPattern name (Selection.job c)).
  - assert (Hfilter : forall jobs : gmap string Job.t,
               (forall j, jobs !! name = Some j -> Pipeline.Jobs pipeline !! name = Some j) ->
               Select.filterJobs host jobs (Selection.only c) (Selection.except c) !! name
               = Some job ->
               Pipeline.Jobs pipeline !! name = Some job).
    { intros jobs Hjobs. rewrite filterJobs_keeps.
      destruct (jobs !! name) as [j |] eqn:Hj; [| discriminate].
      destruct (_ && _)%bool; [| discriminate].
      intros [= <-]. now apply Hjobs. }
    destruct (negb (String.eqb (Selection.stage c) "")).
    + destruct (Nat.eqb (size _) 0); [now rewrite lookup_empty |].
      apply Hfilter. intros j. rewrite getJobsByStage_lookup.
      destruct (Pipeline.Jobs pipeline !! name); [| discriminate].
      now destruct (String.eqb _ _).
    + now apply Hfilter.
Qed.

(** X18: A job named by the flag [--job] is selected alone: the flags
    [--stage], [--only] and [--except] are not looked at. *)
Theorem named_job_is_selected_alone (c : Selection.t) (pipeline : Pipeline.t) (job : Job.t) :
  String.eqb (Selection.job c) "" = false ->
  Pipeline.Jobs pipeline !! Selection.job c = Some job ->
  Select.selectJobsToRun host c pipeline = {[ Selection.job c := job ]}.
Proof.
  intros Hname Hjob. unfold Select.selectJobsToRun. now rewrite Hname, Hjob.
Qed.

End Selecting.

Lemma named_job_is_selected_alone_witness :
  Select.selectJobsToRun Samples.quickHost
    (Selection.mk "lint" "deploy" ["build*"] ["lint"])
    (Samples.pipelineOf [("lint", Samples.allowedJob "lint");
                         ("build", Samples.jobOf "build" [] [])] ∅)
  = {[ "lint" := Samples.allowedJob "lint" ]}.
Proof.
  apply (named_job_is_selected_alone Samples.quickHost
           (Selection.mk "lint" "deploy" ["build*"] ["lint"])
           (Samples.pipelineOf [("lint", Samples.allowedJob "lint");
                                ("build", Samples.jobOf "build" [] [])] ∅)
           (Samples.allowedJob "lint")).
  - reflexivity.
  - vm_compute. reflexivity.
Defined.

(** ** The environment of the command line *)

Lemma lastChar_cons (c : ascii) (s : string) :
  lastChar (String c s) = match lastChar s with None => Some c | last => last end.
Proof. reflexivity. Qed.

Lemma lastChar_None (s : string) : lastChar s = None -> s = "".
Proof.
  destruct s as [| c s]; [reflexivity |]. rewrite lastChar_cons.
  now destruct (lastChar s).
Qed.

Lemma lastChar_append (s : string) (c : ascii) (t : string) :
  lastChar (s +:+ String c t) = lastChar (String c t).
Proof.
  induction s as [| a s IH]; [now rewrite append_nil_l |].
  rewrite append_cons, lastChar_cons, IH. rewrite lastChar_cons.
  now destruct (lastChar t).
Qed.

(** Trimming takes nothing from a text whose ends are not in the set. *)
Lemma trimLeft_keeps (s : string) :
  match firstChar s with Some c => isSpace c = false | None => True end ->
  trimLeft s = s.
Proof. destruct s as [| c s]; [reflexivity |]. cbn. now intros ->. Qed.

Lemma trimRight_keeps (s : string) :
  match lastChar s with Some c => isSpace c = false | None => True end ->
  trimRight s = s.
Proof.
  induction s as [| c s IH]; [reflexivity |].
  rewrite lastChar_cons. cbn [trimRight].
  destruct (lastChar s) as [l |] eqn:Hl.
  - intros H. rewrite (IH H). destruct s; [discriminate | reflexivity].
  - intros ->. apply lastChar_None in Hl as ->. reflexivity.
Qed.

Lemma TrimSpace_keeps (s : string) :
  match firstChar s with Some c => isSpace c = false | None => True end ->
  match lastChar s with Some c => isSpace c = false | None => True end ->
  TrimSpace s = s.
Proof.
  intros H1 H2. unfold TrimSpace. rewrite (trimLeft_keeps s H1). now apply trimRight_keeps.
Qed.

Lemma trimLeftCut_keeps (cutset : list ascii) (s : string) :
  match firstChar s with Some c => existsb (Ascii.eqb c) cutset = false | None => True end ->
  trimLeftCut cutset s = s.
Proof. destruct s as [| c s]; [reflexivity |]. cbn. now intros ->. Qed.

Lemma trimRightCut_keeps (cutset : list ascii) (s : string) :
  match lastChar s with Some c => existsb (Ascii.eqb c) cutset = false | None => True end ->
  trimRightCut cutset s = s.
Proof.
  induction s as [| c s IH]; [reflexivity |].
  rewrite lastChar_cons. cbn [trimRightCut].
  destruct (lastChar s) as [l |] eqn:Hl.
  - intros H. rewrite (IH H). destruct s; [discriminate | reflexivity].
  - intros ->. apply lastChar_None in Hl as ->. reflexivity.
Qed.

Lemma edge_space (c : option ascii) :
  EnvFile.edge c = true ->
  match c with Some c => isSpace c = false | None => True end.
Proof.
  destruct c as [c |]; [| easy]. unfold EnvFile.edge.
  intros H. apply negb_true_iff in H. now apply orb_false_iff in H as [H%orb_false_iff _].
Qed.

Lemma edge_quote (c : option ascii) :
  EnvFile.edge c = true ->
  match c with
  | Some c => existsb (Ascii.eqb c) [dquote; squote] = false
  | None => True
  end.
Proof.
  destruct c as [c |]; [| easy]. unfold EnvFile.edge.
  intros H. apply negb_true_iff in H. apply orb_false_iff in H as [H Hs].
  apply orb_false_iff in H as [_ Hd]. cbn [existsb]. now rewrite Hd, Hs.
Qed.

(** A value keeps its text through [TrimSpace] and [Trim]. *)
Lemma envValue_kept (v : string) :
  EnvFile.envValue v = true -> Trim (TrimSpace v) [dquote; squote] = v.
Proof.
  unfold EnvFile.envValue. intros H.
  apply andb_true_iff in H as [H Hlast]. apply andb_true_iff in H as [_ Hfirst].
  rewrite TrimSpace_keeps by now apply edge_space.
  unfold Trim. rewrite trimLeftCut_keeps by now apply edge_quote.
  apply trimRightCut_keeps. now apply edge_quote.
Qed.

Lemma envKey_chars (k : string) :
  EnvFile.envKey k = true ->
  k <> ""
  /\ Forall (fun c => isSpace c = false /\ Ascii.eqb c "="%char = false)
       (list_ascii_of_string k)
  /\ HasPrefix k "#" = false.
Proof.
  unfold EnvFile.envKey. intros H.
  apply andb_true_iff in H as [H Hhash]. apply andb_true_iff in H as [Hne Hall].
  split; [now destruct k |]. split; [| now apply negb_true_iff in Hhash].
  apply List.Forall_forall. intros c Hc.
  pose proof (proj1 (forallb_forall _ _) Hall c Hc) as H.
  apply andb_true_iff in H as [H Heq]. apply andb_true_iff in H as [_ Hsp].
  split; now apply negb_true_iff.
Qed.

Lemma lastChar_In (s : string) (c : ascii) :
  lastChar s = Some c -> List.In c (list_ascii_of_string s).
Proof.
  induction s as [| a s IH]; [discriminate |].
  rewrite lastChar_cons. cbn [list_ascii_of_string].
  destruct (lastChar s) as [l |].
  - intros [= <-]. right. now apply IH.
  - intros [= <-]. now left.
Qed.

Lemma envKey_kept (k : string) : EnvFile.envKey k = true -> TrimSpace k = k.
Proof.
  intros H. destruct (envKey_chars k H) as (_ & Hall & _).
  apply TrimSpace_keeps.
  - destruct k as [| c k]; [easy |]. cbn [firstChar].
    apply List.Forall_inv in Hall. apply Hall.
  - destruct (lastChar k) as [c |] eqn:Hl; [| easy].
    apply lastChar_In in Hl.
    exact (proj1 (proj1 (List.Forall_forall _ _) Hall c Hl)).
Qed.

(** [SplitN] cuts at the first separator. *)
Lemma SplitN2_first (k v : string) (sep : ascii) :
  lacks sep k = true -> SplitN2 (k +:+ String sep v) sep = [k; v].
Proof.
  induction k as [| c k IH]; intros H.
  - rewrite append_nil_l. cbn [SplitN2]. now rewrite Ascii.eqb_refl.
  - rewrite append_cons. cbn [SplitN2].
    unfold lacks in H. cbn [list_ascii_of_string forallb] in H.
    apply andb_true_iff in H as [Hc Hk]. apply negb_true_iff in Hc. rewrite Hc.
    now rewrite (IH Hk).
Qed.

Lemma SplitN2_none (s : string) (sep : ascii) :
  lacks sep s = true -> SplitN2 s sep = [s].
Proof.
  induction s as [| c s IH]; intros H; [reflexivity |].
  cbn [SplitN2]. unfold lacks in H. cbn [list_ascii_of_string forallb] in H.
  apply andb_true_iff in H as [Hc Hs]. apply negb_true_iff in Hc. rewrite Hc.
  now rewrite (IH Hs).
Qed.

Lemma envKey_lacks (k : string) : EnvFile.envKey k = true -> lacks "="%char k = true.
Proof.
  intros H. destruct (envKey_chars k H) as (_ & Hall & _).
  unfold lacks. apply forallb_forall. intros c Hc.
  apply negb_true_iff. exact (proj2 (proj1 (List.Forall_forall _ _) Hall c Hc)).
Qed.

(** The line [k=v] of an env file. *)
Lemma envLine_kept (k v : string) :
  EnvFile.envKey k = true -> EnvFile.envValue v = true ->
  TrimSpace (fmtKV (k, v)) = fmtKV (k, v)
  /\ String.eqb (fmtKV (k, v)) "" = false
  /\ HasPrefix (fmtKV (k, v)) "#" = false.
Proof.
  intros Hk Hv. destruct (envKey_chars k Hk) as (Hne & Hall & Hhash).
  unfold fmtKV. cbn [fst snd].
  destruct k as [| c k]; [congruence |]. rewrite !append_cons.
  split; [| split].
  - apply TrimSpace_keeps.
    + cbn [firstChar]. apply List.Forall_inv in Hall. apply Hall.
    + rewrite <- append_cons.
      change ("=" +:+ v) with (String "="%char v). rewrite lastChar_append.
      rewrite lastChar_cons, ?append_nil_l.
      unfold EnvFile.envValue in Hv. apply andb_true_iff in Hv as [_ Hlast].
      destruct (lastChar v); [now apply (edge_space (Some a)) | reflexivity].
  - reflexivity.
  - unfold HasPrefix in *. cbn [String.prefix] in *. 
    destruct (ascii_dec "#"%char c); [| reflexivity].
    now destruct k.
Qed.

Lemma lacks_append (c : ascii) (s t : string) :
  lacks c (s +:+ t) = (lacks c s && lacks c t)%bool.
Proof.
  induction s as [| a s IH]; [now rewrite append_nil_l |].
  rewrite append_cons. unfold lacks in *. cbn [list_ascii_of_string forallb].
  now rewrite IH, andb_assoc.
Qed.

(** [Split] undoes [Join] on lines without a line feed. *)
Lemma Split_line (line rest : string) (sep : ascii) :
  lacks sep line = true ->
  Split (line +:+ String sep rest) sep = line :: Split rest sep.
Proof.
  induction line as [| c line IH]; intros H.
  - rewrite append_nil_l. cbn [Split]. now rewrite Ascii.eqb_refl.
  - rewrite append_cons. cbn [Split].
    unfold lacks in H. cbn [list_ascii_of_string forallb] in H.
    apply andb_true_iff in H as [Hc Hl]. apply negb_true_iff in Hc. rewrite Hc.
    now rewrite (IH Hl).
Qed.

Lemma Split_none (line : string) (sep : ascii) :
  lacks sep line = true -> Split line sep = [line].
Proof.
  induction line as [| c line IH]; intros H; [reflexivity |].
  cbn [Split]. unfold lacks in H. cbn [list_ascii_of_string forallb] in H.
  apply andb_true_iff in H as [Hc Hl]. apply negb_true_iff in Hc. rewrite Hc.
  now rewrite (IH Hl).
Qed.

Lemma Split_Join (lines : list string) :
  forallb (lacks (ascii_of_nat 10)) lines = true ->
  Split (Join lines nl) (ascii_of_nat 10) = match lines with [] => [""] | _ => lines end.
Proof.
  induction lines as [| line lines IH]; [reflexivity |].
  cbn [forallb]. intros H. apply andb_true_iff in H as [Hline Hlines].
  unfold Join in *. cbn [String.concat].
  destruct lines as [| line' lines]; [now apply Split_none |].
  unfold nl at 1. rewrite append_cons, append_nil_l.
  rewrite (Split_line _ _ _ Hline). f_equal. now apply IH.
Qed.

Section Env.
Variable host : Host.
Variable ReadFile : string -> error + string.

Lemma envLines_entries (kvs : list (string * string)) :
  forallb (fun kv => EnvFile.envKey (fst kv) && EnvFile.envValue (snd kv))%bool kvs = true ->
  forall env : gmap string string,
    EnvFile.envLines (map fmtKV kvs) env
    = foldl (fun env kv => <[fst kv := snd kv]> env) env kvs.
Proof.
  induction kvs as [| [k v] kvs IH]; intros H env; [reflexivity |].
  cbn [forallb fst snd] in H. apply andb_true_iff in H as [Hkv Hkvs].
  apply andb_true_iff in Hkv as [Hk Hv].
  cbn [map EnvFile.envLines foldl fst snd].
  destruct (envLine_kept k v Hk Hv) as (-> & -> & ->). cbn [orb].
  unfold fmtKV at 1. cbn [fst snd].
  change ("=" +:+ v) with (String "="%char v).
  rewrite (SplitN2_first k v _ (envKey_lacks k Hk)).
  rewrite (envKey_kept k Hk), (envValue_kept v Hv). now apply IH.
Qed.

Lemma envValue_lacks (v : string) :
  EnvFile.envValue v = true -> lacks (ascii_of_nat 10) v = true.
Proof.
  unfold EnvFile.envValue. intros H.
  apply andb_true_iff in H as [H _]. apply andb_true_iff in H as [H _].
  unfold lacks. apply forallb_forall. intros c Hc.
  pose proof (proj1 (forallb_forall _ _) H c Hc) as Hc'.
  now apply andb_true_iff in Hc' as [_ Hc'].
Qed.

Lemma envKey_lacks_nl (k : string) :
  EnvFile.envKey k = true -> lacks (ascii_of_nat 10) k = true.
Proof.
  intros H. destruct (envKey_chars k H) as (_ & Hall & _).
  unfold lacks. apply forallb_forall. intros c Hc.
  pose proof (proj1 (proj1 (List.Forall_forall _ _) Hall c Hc)) as Hsp.
  apply negb_true_iff. destruct (Ascii.eqb_spec c (ascii_of_nat 10)) as [-> | _];
    [discriminate | reflexivity].
Qed.

(** X19: An env file written one entry a line, [KEY=value], is read back entry
    by entry, a later line for a key replacing an earlier one. *)
Theorem loadEnvFile_reads_back (filename : string) (kvs : list (string * string)) :
  forallb (fun kv => EnvFile.envKey (fst kv) && EnvFile.envValue (snd kv))%bool kvs = true ->
  ReadFile filename = inr (Join (map fmtKV kvs) nl) ->
  EnvFile.loadEnvFile ReadFile filename
  = inr (foldl (fun env kv => <[fst kv := snd kv]> env) ∅ kvs).
Proof.
  intros Hkvs Hread. unfold EnvFile.loadEnvFile. rewrite Hread. f_equal.
  rewrite Split_Join.
  - destruct kvs as [| kv kvs]; [reflexivity |].
    change (match map fmtKV (kv :: kvs) with [] => [""] | _ => map fmtKV (kv :: kvs) end)
      with (map fmtKV (kv :: kvs)).
    now apply envLines_entries.
  - apply forallb_forall. intros line Hline.
    apply in_map_iff in Hline as ([k v] & <- & Hin).
    pose proof (proj1 (forallb_forall _ _) Hkvs _ Hin) as Hkv. cbn [fst snd] in Hkv.
    apply andb_true_iff in Hkv as [Hk Hv].
    unfold fmtKV. cbn [fst snd]. rewrite !lacks_append.
    rewrite (envKey_lacks_nl k Hk), (envValue_lacks v Hv). reflexivity.
Qed.

(** X20: The variables of the command line: an entry of the env file replaces
    the flag [--env] of the same name, whatever the order of the flags and
    of the file, and a file that cannot be read counts as no file. *)
Theorem env_file_overrides_env_flags (envFlags : list string) (envFile : string) :
  EnvFile.parseEnvironmentVars host ReadFile envFlags envFile
  = match (if String.eqb envFile "" then None
           else match EnvFile.loadEnvFile ReadFile envFile with
                | inr fileEnv => Some fileEnv
                | inl _ => None
                end) with
    | Some fileEnv => fileEnv ∪ EnvFile.parseEnvironmentVars host ReadFile envFlags ""
    | None => EnvFile.parseEnvironmentVars host ReadFile envFlags ""
    end.
Proof.
  unfold EnvFile.parseEnvironmentVars at 1.
  destruct (String.eqb envFile ""); cbn [negb]; [reflexivity |].
  destruct (EnvFile.loadEnvFile ReadFile envFile) as [e | fileEnv]; [reflexivity |].
  apply map_eq. intros k.
  rewrite foldl_insert_lookup by apply rangeMap_NoDup.
  rewrite rangeMap_to_map, lookup_union.
  unfold EnvFile.parseEnvironmentVars. cbn [String.eqb negb].
  destruct (fileEnv !! k), (foldl _ ∅ envFlags !! k); reflexivity.
Qed.

End Env.

Lemma loadEnvFile_reads_back_witness :
  EnvFile.loadEnvFile
    (fun _ => inr (Join (map fmtKV [("LEVEL", "debug"); ("GREETING", "hello world");
                                    ("LEVEL", "info")]) nl))
    ".env"
  = inr (foldl (fun env kv => <[fst kv := snd kv]> env) ∅
           [("LEVEL", "debug"); ("GREETING", "hello world"); ("LEVEL", "info")]).
Proof.
  apply (loadEnvFile_reads_back
           (fun _ => inr (Join (map fmtKV [("LEVEL", "debug"); ("GREETING", "hello world");
                                           ("LEVEL", "info")]) nl))
           ".env"
           [("LEVEL", "debug"); ("GREETING", "hello world"); ("LEVEL", "info")]).
  - reflexivity.
  - reflexivity.
Defined.

(** The lines of an env file: a comment and a line without [=] are left
    out, white space around the key and the value is dropped, and quotes
    are taken from the ends of the value whether they pair up or not. *)
Example env_file_lines :
  EnvFile.envLines
    ["# settings"; ""; "  NAME = git-ci  "; "verbose";
     String "T" (String "=" (String dquote (String "a" (String squote ""))));
     "URL=http://host/?a=b"] ∅
  = <["URL" := "http://host/?a=b"]> (<["T" := "a"]> (<["NAME" := "git-ci"]> ∅)).
Proof. vm_compute. reflexivity. Qed.

(** The flags [--env LEVEL=flag --env REGION=eu] and a file with the line
    [LEVEL=file]: the file wins. *)
Example env_file_wins :
  EnvFile.parseEnvironmentVars Samples.quickHost (fun _ => inr "LEVEL=file")
    ["LEVEL=flag"; "REGION=eu"] ".env"
  = <["LEVEL" := "file"]> (<["REGION" := "eu"]> ∅).
Proof. vm_compute. reflexivity. Qed.

(** ** Text that is cut *)

Lemma substring_length (n : nat) (s : string) :
  (n <= String.length s)%nat -> String.length (String.substring 0 n s) = n.
Proof.
  revert s. induction n as [| n IH]; intros s H.
  - now destruct s.
  - destruct s as [| c s]; cbn [String.length] in H; [lia |].
    cbn [String.substring String.length]. rewrite IH; lia.
Qed.

Lemma append_length (s t : string) :
  String.length (s +:+ t) = (String.length s + String.length t)%nat.
Proof.
  induction s as [| c s IH]; [now rewrite append_nil_l |].
  rewrite append_cons. cbn [String.length]. now rewrite IH.
Qed.

(** X21: [TruncateText] panics on a negative width, whatever the text; on any
    other width it returns a text that is as long as the shorter of the
    width and the text: the text itself when it fits, its first bytes when
    the width is at most 3, and otherwise its first bytes followed by three
    dots. *)
Theorem TruncateText_fits (text : string) (width : Z) :
  TruncateText text width
  = (if width <? 0 then Panicked
     else if Z.of_nat (String.length text) <=? width then Returned text
     else Returned (if width <=? 3 then String.substring 0 (Z.to_nat width) text
                    else String.substring 0 (Z.to_nat (width - 3)) text +:+ "..."))
  /\ match TruncateText text width with
     | Returned cut =>
         Z.of_nat (String.length cut) = Z.min (Z.of_nat (String.length text)) width
     | Panicked => width < 0
     end.
Proof.
  unfold TruncateText, sliceToZ, sliceTo.
  destruct (Z.ltb_spec width 0) as [Hneg | Hpos].
  - destruct (Z.leb_spec (Z.of_nat (String.length text)) width) as [Hle | Hgt]; [lia |].
    destruct (Z.leb_spec width 3); [| lia]. split; [reflexivity | exact Hneg].
  - destruct (Z.leb_spec (Z.of_nat (String.length text)) width) as [Hle | Hgt].
    + split; [reflexivity | lia].
    + destruct (Z.leb_spec width 3) as [H3 | H3].
      * destruct (Nat.leb_spec (Z.to_nat width) (String.length text)); [| lia].
        split; [reflexivity |]. rewrite substring_length; lia.
      * destruct (Z.ltb_spec (width - 3) 0); [lia |].
        destruct (Nat.leb_spec (Z.to_nat (width - 3)) (String.length text)); [| lia].
        split; [reflexivity |]. rewrite append_length, substring_length by lia.
        cbn [String.length]. lia.
Qed.

(** ** The mounts of a container *)

(** X22: An entry of [volumes] without a colon gives no mount and no error; the
    entry [source:target] gives a mount that can be written to, and a third
    part makes it read-only only when it is [ro]. *)
Theorem volumeMount_parts (src tgt opt : string) :
  lacks ":"%char src = true -> lacks ":"%char tgt = true -> lacks ":"%char opt = true ->
  DockerRunner.volumeMount src = []
  /\ DockerRunner.volumeMount (src +:+ ":" +:+ tgt) = [Docker.mkMount src tgt false]
  /\ DockerRunner.volumeMount (src +:+ ":" +:+ tgt +:+ ":" +:+ opt)
     = [Docker.mkMount src tgt (String.eqb opt "ro")].
Proof.
  intros Hsrc Htgt Hopt. unfold DockerRunner.volumeMount.
  change (":" +:+ tgt +:+ ":" +:+ opt) with (String ":"%char (tgt +:+ ":" +:+ opt)).
  change (":" +:+ tgt) with (String ":"%char tgt).
  rewrite (Split_none src _ Hsrc).
  rewrite !(Split_line src _ _ Hsrc).
  rewrite (Split_none tgt _ Htgt).
  change (":" +:+ opt) with (String ":"%char opt).
  rewrite (Split_line tgt _ _ Htgt), (Split_none opt _ Hopt).
  repeat split.
Qed.

Lemma volumeMount_parts_witness :
  DockerRunner.volumeMount "cache" = []
  /\ DockerRunner.volumeMount ("/var/cache" +:+ ":" +:+ "/cache")
     = [Docker.mkMount "/var/cache" "/cache" false]
  /\ DockerRunner.volumeMount ("/var/cache" +:+ ":" +:+ "/cache" +:+ ":" +:+ "rw")
     = [Docker.mkMount "/var/cache" "/cache" false].
Proof.
  destruct (volumeMount_parts "cache" "/cache" "rw" eq_refl eq_refl eq_refl) as (H1 & _ & _).
  destruct (volumeMount_parts "/var/cache" "/cache" "rw" eq_refl eq_refl eq_refl)
    as (_ & H2 & H3).
  split; [exact H1 |]. split; [exact H2 | exact H3].
Defined.

(** ** The two modes of the validator *)

Section Modes.
Variable host : Host.

Lemma validateJob_strict (pipeline : Pipeline.t) (jobName : string) (job : Job.t) :
  Handlers.validateJob host pipeline false jobName job
  `sublist_of` Handlers.validateJob host pipeline true jobName job.
Proof.
  unfold Handlers.validateJob.
  do 4 (apply sublist_app; [reflexivity |]). apply sublist_nil_l.
Qed.

(** X23: What the validator reports without the strict mode, it reports in the
    strict mode too, in the same order: a pipeline that passes the strict
    validation passes the other one. *)
Theorem strict_validation_reports_more (pipeline : option Pipeline.t) :
  Handlers.validatePipeline host pipeline false
  `sublist_of` Handlers.validatePipeline host pipeline true
  /\ (Handlers.validatePipeline host pipeline true = [] ->
      Handlers.validatePipeline host pipeline false = []).
Proof.
  assert (H : Handlers.validatePipeline host pipeline false
              `sublist_of` Handlers.validatePipeline host pipeline true).
  { unfold Handlers.validatePipeline. destruct pipeline as [pipeline |]; [| reflexivity].
    apply sublist_app; [reflexivity |]. apply sublist_app; [reflexivity |].
    induction (rangeMap host (Pipeline.Jobs pipeline)) as [| [jobName job] l IH];
      [reflexivity |].
    cbn [map concat fst snd]. apply sublist_app; [| exact IH].
    apply validateJob_strict. }
  split; [exact H |].
  intros Hnil. rewrite Hnil in H. now apply sublist_nil_r in H.
Qed.

End Modes.

(** ** The cycle check, both ways *)

Section Alarm.
Variable jobs : gmap string Job.t.

Lemma isChain_suffix (pre l : list string) :
  Handlers.isChain jobs (pre ++ l) = true -> Handlers.isChain jobs l = true.
Proof.
  induction pre as [| a pre IH]; [easy |].
  cbn [app]. destruct (pre ++ l) as [| b t] eqn:E.
  - intros _. destruct pre; [| discriminate]. cbn [app] in E. now subst l.
  - cbn [Handlers.isChain]. intros H. apply andb_true_iff in H as [_ H]. now apply IH.
Qed.

(** X24: The traversal that [validatePipeline] starts from a job ends.  When it
    returns an error, the [needs] relation has a cycle: a chain of jobs,
    each needing the next, from a job back to itself.  When it returns
    nil, the job it started from is on no cycle. *)
Theorem cycle_check_raises_no_false_alarm (jobName : string) (job : Job.t) :
  jobs !! jobName = Some job ->
  match Handlers.checkCircularDependencies (S (size jobs)) jobName job jobs [] with
  | None => False
  | Some (Some err) =>
      exists (x : string) (cycle : list string),
        Handlers.isChain jobs (x :: cycle ++ [x]) = true
  | Some None =>
      forall mid : list string, Handlers.isChain jobs (jobName :: mid ++ [jobName]) = false
  end.
Proof.
  intros Hjob.
  destruct (Handlers.checkCircularDependencies (S (size jobs)) jobName job jobs [])
    as [[err |] |] eqn:Hcheck.
  - destruct (checkCircularDependencies_error jobs (S (size jobs)) jobName job [] err
                Hjob eq_refl (NoDup_nil_2 (A := string)) Hcheck) as (ext & x & _ & Hchain & _ & Hx & _).
    cbn [app] in Hchain, Hx.
    apply list_elem_of_split in Hx as (pre & cycle & ->).
    exists x, cycle. apply (isChain_suffix pre).
    now rewrite <- app_assoc in Hchain.
  - intros mid. destruct (Handlers.isChain jobs (jobName :: mid ++ [jobName])) eqn:Hchain;
      [| reflexivity].
    destruct (checkCircularDependencies_finds jobs jobName job mid Hjob Hchain) as [err He].
    congruence.
  - revert Hcheck. apply checkCircularDependencies_total.
    + exact Hjob.
    + constructor.
    + intros v Hv. now apply elem_of_nil in Hv.
    + cbn [length]. lia.
Qed.

End Alarm.

(** In the pipeline where [a] needs [b], [b] needs [c] and [c] needs [b],
    the traversal from [a] finds the cycle of [b] and [c]. *)
Lemma cycle_check_raises_no_false_alarm_witness :
  exists (x : string) (cycle : list string),
    Handlers.isChain (Pipeline.Jobs Samples.cyclicPipeline) (x :: cycle ++ [x]) = true.
Proof.
  exact (cycle_check_raises_no_false_alarm (Pipeline.Jobs Samples.cyclicPipeline) "a"
           (Samples.jobOf "a" [Samples.runStep "true" false] ["b"]) eq_refl).
Defined.

(** ** A backend that is not there *)

Section Podman.
Variable host : Host.
Variable daemon : Docker.Daemon.

Lemma podman_workers (c : Flags.t) (cfg : RunnerConfig.t) (workdir : string)
    (schedule : list (string * Job.t)) (w : World) :
  Flags.docker c = false -> Flags.podman c = true ->
  Handlers.runWorkers (Handlers.createRunner host daemon c cfg) workdir schedule w
  = (Returned (map (fun kv =>
                      Handlers.mkJobResult (fst kv)
                        (Some (Errorf_w "failed to create runner: "
                                 (errorsNew "podman runner not yet implemented"))))
                   schedule), w).
Proof.
  intros Hd Hp.
  assert (Hworker : forall jobName job,
             Handlers.jobWorker (Handlers.createRunner host daemon c cfg) workdir jobName job w
             = (Returned (Handlers.mkJobResult jobName
                            (Some (Errorf_w "failed to create runner: "
                                     (errorsNew "podman runner not yet implemented")))), w)).
  { intros jobName job. unfold Handlers.jobWorker. rewrite bind_unfold.
    unfold Handlers.createRunner. rewrite Hd, Hp. reflexivity. }
  induction schedule as [| [jobName job] schedule IH]; [reflexivity |].
  cbn [Handlers.runWorkers map fst]. rewrite bind_unfold, Hworker. cbn [fst snd].
  rewrite bind_unfold, IH. reflexivity.
Qed.

(** X25: With the flag [--podman] and without [--docker] no job is run: no
    runner can be made, the sequential scheduler stops at its first job
    with the error of [createRunner], the parallel one counts every job as
    failed, and neither starts a process or calls the daemon. *)
Theorem podman_runs_no_job (c : Flags.t) (cfg : RunnerConfig.t) (workdir : string)
    (jobs : list (string * Job.t)) (w : World) :
  Flags.docker c = false -> Flags.podman c = true ->
  Handlers.runJobsSequential (Handlers.createRunner host daemon c cfg) c jobs workdir w
  = (Returned
       match jobs with
       | [] => Handlers.mkReport None 0 0 true
       | (jobName, _) :: _ =>
           Handlers.mkReport
             (Some (Errorf_w ("failed to create runner for job " +:+ jobName +:+ ": ")
                      (errorsNew "podman runner not yet implemented")))
             0 0 false
       end, w)
  /\ exists rep : Handlers.Report,
       Handlers.runJobsParallel (Handlers.createRunner host daemon c cfg) c jobs workdir w
       = (Returned rep, w)
       /\ Handlers.successCount rep = 0
       /\ Handlers.failureCount rep = Z.of_nat (length jobs).
Proof.
  intros Hd Hp. split.
  - unfold Handlers.runJobsSequential. rewrite bind_unfold.
    destruct jobs as [| [jobName job] jobs].
    + cbn [Handlers.sequentialLoop ret fst snd Handlers.printedCounts
           Handlers.failureCount]. reflexivity.
    + cbn [Handlers.sequentialLoop]. rewrite !bind_unfold.
      unfold Handlers.createRunner. rewrite Hd, Hp. reflexivity.
  - unfold Handlers.runJobsParallel. rewrite bind_unfold, podman_workers by assumption.
    cbn [fst snd ret]. eexists. split; [reflexivity |].
    unfold Handlers.parallelVerdict. rewrite collectResults_counts.
    assert (Hall : forall l : list (string * Job.t),
               length (List.filter
                         (fun res => bool_decide (Handlers.err res <> None))
                         (map (fun kv =>
                                 Handlers.mkJobResult (fst kv)
                                   (Some (Errorf_w "failed to create runner: "
                                            (errorsNew "podman runner not yet implemented"))))
                              l)) = length l
               /\ length (List.filter
                            (fun res => negb (bool_decide (Handlers.err res <> None)))
                            (map (fun kv =>
                                    Handlers.mkJobResult (fst kv)
                                      (Some (Errorf_w "failed to create runner: "
                                               (errorsNew "podman runner not yet implemented"))))
                                 l)) = 0%nat).
    { induction l as [| kv l [IH1 IH2]]; [now split |].
      cbn [map List.filter Handlers.err].
      rewrite bool_decide_true by discriminate. cbn [negb length].
      split; [now rewrite IH1 | exact IH2]. }
    destruct (Hall jobs) as [-> ->].
    destruct (if negb (Flags.continueOnError c) then _ else None);
      [| destruct (0 <? _)]; cbn; split; reflexivity.
Qed.

End Podman.

Lemma podman_runs_no_job_witness :
  Handlers.runJobsSequential
    (Handlers.createRunner Samples.quickHost (Samples.daemonWith 0 false)
       (Flags.mk false true false false 4) (Samples.config 30))
    (Flags.mk false true false false 4)
    [("build", Samples.jobOf "build" [Samples.runStep "make" false] [])]
    "." Samples.world0
  = (Returned
       (Handlers.mkReport
          (Some (Errorf_w ("failed to create runner for job " +:+ "build" +:+ ": ")
                   (errorsNew "podman runner not yet implemented")))
          0 0 false), Samples.world0).
Proof.
  exact (proj1 (podman_runs_no_job Samples.quickHost (Samples.daemonWith 0 false)
                  (Flags.mk false true false false 4) (Samples.config 30) "."
                  [("build", Samples.jobOf "build" [Samples.runStep "make" false] [])]
                  Samples.world0 eq_refl eq_refl)).
Defined.

(** ** The image of a job *)

Section Pull.
Variable host : Host.
Variable daemon : Docker.Daemon.


End Pull.

